(** * Capacity model: Google Sheets integration

    A shallow embedding of [google_sheets_integration/cursor_integration.py]
    (class [GoogleSheetsIntegration]) and of the matrix classifier described
    in the specification, together with the properties established for them.

    Conventions of the embedding.
    - A Python call either returns or raises: [result].  Every exception that
      occurs in the modelled code derives from Python's [Exception], so an
      [except Exception] handler catches all of them.
    - What a method does to the outside world (lines printed, requests sent to
      the spreadsheet API, HTTP posts) is recorded in a trace of [event]s that
      is returned next to the result: [M A = result A * list event].
    - A Python [dict] keeps insertion order and overwrites in place: it is an
      association list updated by [dict_set].
    - The builtins [float] and [pandas.to_numeric] are parameters of the
      development ([py_float], [to_numeric]); float values read by [float]
      are kept abstract (type [F]), the cells of a data frame that hold a
      number hold a rational.
    - The arithmetic of pandas and numpy on the columns of a frame (sums in
      int64 with wrap-around or in float64 with rounding, means and quotients
      in float64) is not computed: the scalars it returns are kept abstract
      (type [Num]) and the operations the class calls are parameters. *)

From Stdlib Require Import String Ascii List Bool Arith ZArith QArith Qround.
From Stdlib Require Import Lia Lqa.
From Stdlib Require Import DecimalString.
Import ListNotations.
Local Open Scope string_scope.
Local Open Scope list_scope.

(* ------------------------------------------------------------------ *)
(** ** Python values, exceptions and dictionaries                       *)
(* ------------------------------------------------------------------ *)

(** An exception object: its class name and [str(e)]. *)
Record exn : Type := Exn { exn_class : string; exn_msg : string }.

Inductive result (A : Type) : Type :=
| Ok (a : A)
| Raise (e : exn).
Arguments Ok {A} a.
Arguments Raise {A} e.

(** Truth value of a Python string: non-empty. *)
Definition truthy (s : string) : bool :=
  match s with
  | EmptyString => false
  | String _ _ => true
  end.

(** [str(n)] for an integer. *)
Definition str_of_Z (z : Z) : string := NilZero.string_of_int (Z.to_int z).

(** [str(x)] for [x] an integer or [None]. *)
Definition str_of_optZ (o : option Z) : string :=
  match o with
  | Some z => str_of_Z z
  | None => "None"
  end.

(** Insertion-ordered dictionary with string keys. *)
Definition dict (V : Type) : Type := list (string * V).

(** [d[k] = v]: an existing key keeps its position and gets the new value,
    a new key is appended. *)
Fixpoint dict_set {V : Type} (d : dict V) (k : string) (v : V) : dict V :=
  match d with
  | [] => [(k, v)]
  | (k', v') :: d' =>
      if String.eqb k k' then (k, v) :: d' else (k', v') :: dict_set d' k v
  end.

(** [d.get(k)], [None] when the key is missing. *)
Fixpoint dict_get {V : Type} (d : dict V) (k : string) : option V :=
  match d with
  | [] => None
  | (k', v) :: d' => if String.eqb k k' then Some v else dict_get d' k
  end.

Definition dict_keys {V : Type} (d : dict V) : list string := map fst d.

#[local] Set Warnings "-register-all".

(** Decoded JSON, as [response.json()] returns it. *)
Inductive json : Type :=
| JNull
| JBool (b : bool)
| JInt (z : Z)
| JFloat (q : Q)
| JString (s : string)
| JArray (items : list json)
| JObject (members : dict json).

(** Python type name of a decoded JSON value. *)
Definition json_type_name (v : json) : string :=
  match v with
  | JNull => "NoneType"
  | JBool _ => "bool"
  | JInt _ => "int"
  | JFloat _ => "float"
  | JString _ => "str"
  | JArray _ => "list"
  | JObject _ => "dict"
  end.

(** [v.get(key)]: only a dict has the method; a missing key gives [None]. *)
Definition json_get (v : json) (key : string) : result json :=
  match v with
  | JObject members =>
      match dict_get members key with
      | Some x => Ok x
      | None => Ok JNull
      end
  | _ => Raise (Exn "AttributeError"
                    ("'" ++ json_type_name v ++ "' object has no attribute 'get'"))
  end.

(** [v == 'success'] for a decoded JSON value. *)
Definition json_is_string (v : json) (s : string) : bool :=
  match v with
  | JString s' => String.eqb s' s
  | _ => false
  end.

(** A plain decimal literal ([-12], [3.50]) read as a rational; used to
    instantiate [py_float] and [to_numeric] on concrete tables. *)
Definition digit_value (c : ascii) : option Z :=
  let n := nat_of_ascii c in
  if (48 <=? n)%nat && (n <=? 57)%nat then Some (Z.of_nat (n - 48)) else None.

(** Reads digits into [(mantissa, scale)]; [seen] tells whether a digit was
    read, [frac] whether the decimal point was passed. *)
Fixpoint decimal_digits (s : string) (frac seen : bool) (m : Z) (scale : positive)
  : option (Z * positive) :=
  match s with
  | EmptyString => if seen then Some (m, scale) else None
  | String c rest =>
      match digit_value c with
      | Some d =>
          decimal_digits rest frac true (10 * m + d)%Z
                         (if frac then (10 * scale)%positive else scale)
      | None =>
          if Ascii.eqb c "."%char && negb frac
          then decimal_digits rest true seen m scale
          else None
      end
  end.

Definition decimal_literal (s : string) : option Q :=
  match s with
  | String "-"%char rest =>
      match decimal_digits rest false false 0%Z 1%positive with
      | Some (m, sc) => Some (Qmake (- m) sc)
      | None => None
      end
  | _ =>
      match decimal_digits s false false 0%Z 1%positive with
      | Some (m, sc) => Some (Qmake m sc)
      | None => None
      end
  end.

Definition decimal_float (s : string) : result Q :=
  match decimal_literal s with
  | Some q => Ok q
  | None =>
      Raise (Exn "ValueError"
                 ("could not convert string to float: '" ++ s ++ "'"))
  end.

(** A table as the spreadsheet API returns it: rows of text cells. *)
Definition table : Type := list (list string).

(* ------------------------------------------------------------------ *)
(** ** Matrix classifier                                                *)
(* ------------------------------------------------------------------ *)

(** Modelled from the spec: the matrix classifier ([analyzeProjectMatrix] of
    [google_sheets_integration/apps_script/capacity_model], which the tests
    import and whose source is not among the files of the repository at
    hand).  The definitions below follow section 4.1 of the specification
    word for word: the description is put in lower case, the rules are tried
    in order, a rule matches when one of its comma-separated keywords occurs
    in the description and, if the rule carries a sales band, the sales
    amount lies in it; the first matching rule gives the role, the last rule
    is the fallback, and an empty rule set gives no role. *)
Record CriterionRule : Type := {
  rule_role : string;
  rule_keywords : string;
  rule_band : option (Q * Q)
}.

Definition RuleSet : Type := list CriterionRule.

Record ProjectRecord : Type := {
  description : string;
  salesAmount : Q
}.

Definition lower_ascii (c : ascii) : ascii :=
  let n := nat_of_ascii c in
  if (65 <=? n)%nat && (n <=? 90)%nat then ascii_of_nat (n + 32) else c.

Fixpoint lower (s : string) : string :=
  match s with
  | EmptyString => EmptyString
  | String c rest => String (lower_ascii c) (lower rest)
  end.

(** [needle] occurs in [text]. *)
Fixpoint contains (text needle : string) : bool :=
  String.prefix needle text
  || match text with
     | EmptyString => false
     | String _ rest => contains rest needle
     end.

(** [s.split(sep)] *)
Fixpoint split_on (sep : ascii) (s : string) : list string :=
  match s with
  | EmptyString => [EmptyString]
  | String c rest =>
      if Ascii.eqb c sep then EmptyString :: split_on sep rest
      else match split_on sep rest with
           | piece :: pieces => String c piece :: pieces
           | [] => [String c EmptyString]
           end
  end.

Definition keyword_hit (text : string) (r : CriterionRule) : bool :=
  existsb (contains text) (split_on ","%char (rule_keywords r)).

Definition in_band (sales : Q) (r : CriterionRule) : bool :=
  match rule_band r with
  | Some (lo, hi) => Qle_bool lo sales && Qle_bool sales hi
  | None => true
  end.

Definition rule_matches (text : string) (sales : Q) (r : CriterionRule) : bool :=
  keyword_hit text r && in_band sales r.

Fixpoint first_match (text : string) (sales : Q) (rules : RuleSet)
  : option string :=
  match rules with
  | [] => None
  | r :: rest =>
      if rule_matches text sales r then Some (rule_role r)
      else first_match text sales rest
  end.

Fixpoint last_rule (rules : RuleSet) : option CriterionRule :=
  match rules with
  | [] => None
  | [r] => Some r
  | _ :: rest => last_rule rest
  end.

(** Modelled from the spec: [classify] of section 4.1, first match in rule
    order, else the role of the last rule, and no role for an empty rule
    set. *)
Definition classify (record : ProjectRecord) (rules : RuleSet) : option string :=
  match first_match (lower (description record)) (salesAmount record) rules with
  | Some role => Some role
  | None => option_map rule_role (last_rule rules)
  end.

(* ------------------------------------------------------------------ *)
(** ** Data frames                                                      *)
(* ------------------------------------------------------------------ *)

(** The part of pandas the class relies on.  A frame is a list of column
    labels and rows of cells under the default integer index; a cell is a
    text, a number, or missing ([None] / NaN). *)
Inductive dcell : Type :=
| DStr (s : string)
| DNum (q : Q)
| DNone.

Record DataFrame : Type := {
  df_columns : list string;
  df_rows : list (list dcell)
}.

(** [pd.DataFrame()] *)
Definition empty_frame : DataFrame := {| df_columns := []; df_rows := [] |}.

(** [df.empty]: some axis has length 0. *)
Definition df_empty (df : DataFrame) : bool :=
  (length (df_columns df) =? 0)%nat || (length (df_rows df) =? 0)%nat.

Definition widest (rows : table) : nat :=
  fold_right (fun row w => Nat.max (length row) w) 0%nat rows.

Definition pad (width : nat) (row : list string) : list dcell :=
  map DStr row ++ repeat DNone (width - length row).

(** [pd.DataFrame(rows, columns=columns)] for a list of lists: short rows
    are filled with missing cells up to the widest row, and the number of
    labels has to equal that width. *)
Definition make_frame (rows : table) (columns : list string)
  : result DataFrame :=
  match rows with
  | [] => Ok {| df_columns := columns; df_rows := [] |}
  | _ :: _ =>
      if (widest rows =? length columns)%nat
      then Ok {| df_columns := columns;
                 df_rows := map (pad (length columns)) rows |}
      else Raise (Exn "ValueError"
                      (str_of_Z (Z.of_nat (length columns))
                       ++ " columns passed, passed data had "
                       ++ str_of_Z (Z.of_nat (widest rows)) ++ " columns"))
  end.

(** [label in df.columns] *)
Definition has_column (label : string) (df : DataFrame) : bool :=
  existsb (String.eqb label) (df_columns df).

Fixpoint index_of (label : string) (columns : list string) : option nat :=
  match columns with
  | [] => None
  | c :: rest =>
      if String.eqb label c then Some 0%nat
      else option_map S (index_of label rest)
  end.

Definition count_label (label : string) (columns : list string) : nat :=
  length (filter (String.eqb label) columns).

Definition column_at (i : nat) (df : DataFrame) : list dcell :=
  map (fun row => nth i row DNone) (df_rows df).

Fixpoint set_nth {A : Type} (i : nat) (v : A) (l : list A) : list A :=
  match l, i with
  | [], _ => []
  | _ :: t, O => v :: t
  | h :: t, S j => h :: set_nth j v t
  end.

Definition set_column_at (i : nat) (values : list dcell) (df : DataFrame)
  : DataFrame :=
  {| df_columns := df_columns df;
     df_rows := map (fun rv => set_nth i (snd rv) (fst rv))
                    (combine (df_rows df) values) |}.

Fixpoint numbers (cells : list dcell) : option (list Q) :=
  match cells with
  | [] => Some []
  | DNum q :: rest => option_map (cons q) (numbers rest)
  | _ :: _ => None
  end.

(** [df[label]] read as a series of numbers.  A missing label is a
    [KeyError].  The labels read this way are numeric columns that
    [get_capacity_model_data] has coerced, so the other two failures (a
    label that occurs twice, a cell that is not a number) do not occur on
    the frames it returns; see [series_coerced]. *)
Definition series (df : DataFrame) (label : string) : result (list Q) :=
  match index_of label (df_columns df) with
  | None => Raise (Exn "KeyError" label)
  | Some i =>
      if (1 <? count_label label (df_columns df))%nat
      then Raise (Exn "TypeError" "not a series")
      else match numbers (column_at i df) with
           | Some values => Ok values
           | None => Raise (Exn "TypeError" "not a numeric series")
           end
  end.

Definition Qlt_bool (x y : Q) : bool := negb (Qle_bool y x).

(** The sum of a list of numbers, as a number: what a total is when nothing
    wraps around and nothing is rounded. *)
Definition exact_sum (values : list Q) : Q := fold_right Qplus 0%Q values.

(** A count: a whole number that is not negative. *)
Definition is_count (q : Q) : bool :=
  Qle_bool 0 q && Qeq_bool q (inject_Z (Qfloor q)).

(** The unit roundoff of float64, 2^-53, and the bound 2^53 up to which
    int64 and float64 alike hold every whole number. *)
Definition unit_roundoff : Q := 1 # 9007199254740992.

Definition exact_bound : Q := inject_Z 9007199254740992.

(** [x] is the number [exact], which is not negative, rounded once to the
    nearest float64. *)
Definition rounded (exact x : Q) : Prop :=
  ((1 - unit_roundoff) * exact <= x)%Q
  /\ (x <= (1 + unit_roundoff) * exact)%Q.

(** [x] is [exact] after two such roundings, one on top of the other. *)
Definition within_two_roundings (exact x : Q) : Prop :=
  ((1 - unit_roundoff) * (1 - unit_roundoff) * exact <= x)%Q
  /\ (x <= (1 + unit_roundoff) * (1 + unit_roundoff) * exact)%Q.

Fixpoint argmax_from (best_i : nat) (best : Q) (i : nat) (values : list Q)
  : nat :=
  match values with
  | [] => best_i
  | x :: rest =>
      if Qlt_bool best x then argmax_from i x (S i) rest
      else argmax_from best_i best (S i) rest
  end.

(** [Series.idxmax()]: the label of the first occurrence of the maximum. *)
Definition idxmax (values : list Q) : result nat :=
  match values with
  | [] => Raise (Exn "ValueError" "attempt to get argmax of an empty sequence")
  | x :: rest => Ok (argmax_from 0 x 1 rest)
  end.

(** [df.loc[i]] *)
Definition loc (df : DataFrame) (i : nat) : result (list dcell) :=
  match nth_error (df_rows df) i with
  | Some row => Ok row
  | None => Raise (Exn "KeyError" (str_of_Z (Z.of_nat i)))
  end.

(** [row.to_dict()] for a row labelled by [columns]. *)
Definition to_dict (columns : list string) (row : list dcell) : dict dcell :=
  fold_left (fun d kv => dict_set d (fst kv) (snd kv)) (combine columns row) [].

Definition and_then {A B : Type} (r : result A) (k : A -> result B)
  : result B :=
  match r with
  | Ok a => k a
  | Raise e => Raise e
  end.

(** A number of the summary: a scalar computed by numpy, or an integer
    literal of the source. *)
Inductive number (Num : Type) : Type :=
| NpScalar (x : Num)
| PyLiteral (z : Z).
Arguments NpScalar {Num} x.
Arguments PyLiteral {Num} z.

(** The number such a value stands for, [value] giving that of a scalar. *)
Definition number_value {Num : Type} (value : Num -> Q) (n : number Num)
  : Q :=
  match n with
  | NpScalar x => value x
  | PyLiteral z => inject_Z z
  end.

Record TotalProjects (Num : Type) : Type := {
  admin : Num;
  prod_spec : Num;
  sr_prod : Num;
  team_lead : Num;
  international : Num
}.
Arguments admin {Num} _.
Arguments prod_spec {Num} _.
Arguments sr_prod {Num} _.
Arguments team_lead {Num} _.
Arguments international {Num} _.

Record CapacityDistribution (Num : Type) : Type := {
  admin_percentage : number Num;
  prod_spec_percentage : number Num;
  sr_prod_percentage : number Num;
  team_lead_percentage : number Num
}.
Arguments admin_percentage {Num} _.
Arguments prod_spec_percentage {Num} _.
Arguments sr_prod_percentage {Num} _.
Arguments team_lead_percentage {Num} _.

(** The dict [get_capacity_insights] returns.  [avg_sales_per_rep] is [None]
    for the mean of an empty series. *)
Record Insights (Num : Type) : Type := {
  total_sales_reps : nat;
  total_sales : Num;
  avg_sales_per_rep : option Num;
  top_performer : dict dcell;
  total_projects : TotalProjects Num;
  capacity_distribution : CapacityDistribution Num
}.
Arguments total_sales_reps {Num} _.
Arguments total_sales {Num} _.
Arguments avg_sales_per_rep {Num} _.
Arguments top_performer {Num} _.
Arguments total_projects {Num} _.
Arguments capacity_distribution {Num} _.

Section Model.

(** The values of Python's [float] type and the builtin [float(s)] on a
    string: it returns a float or raises [ValueError]. *)
Variable F : Type.
Variable py_float : string -> result F.

(** [pandas.to_numeric] on one text cell with [errors='coerce']: the number
    read, or [None] for NaN (the cell does not parse). *)
Variable to_numeric : string -> option Q.

(* ------------------------------------------------------------------ *)
(** ** Effects                                                          *)
(* ------------------------------------------------------------------ *)

(** A Python number held in a criteria dictionary or written to a sheet:
    the integer literals of the source ([0], [999999999]) or a float. *)
Inductive pynum : Type :=
| PyInt (z : Z)
| PyFloat (f : F).

(** A cell handed to the spreadsheet API on write. *)
Inductive cell : Type :=
| CStr (s : string)
| CNum (n : pynum).

(** Payload of the webhook request. *)
Record Payload : Type := { action : string; timestamp : string }.

Inductive event : Type :=
| Printed (line : string)
    (** [print(line)] *)
| PrintedJson (prefix : string) (v : json)
    (** [print(f"{prefix}{v}")] for a decoded JSON value [v] *)
| ValuesGet (spreadsheetId range : string)
    (** [spreadsheets().values().get(...).execute()] *)
| ValuesUpdate (spreadsheetId range valueInputOption : string)
               (values : list (list cell))
    (** [spreadsheets().values().update(...).execute()] *)
| HttpPost (url : string) (payload : Payload) (timeout : Z).
    (** [requests.post(url, json=payload, timeout=timeout)] *)

Definition M (A : Type) : Type := (result A * list event)%type.

Definition ret {A : Type} (a : A) : M A := (Ok a, []).

Definition raise {A : Type} (e : exn) : M A := (Raise e, []).

Definition bind {A B : Type} (m : M A) (k : A -> M B) : M B :=
  match m with
  | (Ok a, t) => let (r, t') := k a in (r, t ++ t')
  | (Raise e, t) => (Raise e, t)
  end.

Definition emit (ev : event) : M unit := (Ok tt, [ev]).

Definition print (line : string) : M unit := emit (Printed line).

(** Outcome of an external call. *)
Definition lift {A : Type} (r : result A) : M A := (r, []).

(** [try: body  except Exception as e: handler(e)] *)
Definition try_except {A : Type} (body : M A) (handler : exn -> M A) : M A :=
  match body with
  | (Ok a, t) => (Ok a, t)
  | (Raise e, t) => let (r, t') := handler e in (r, t ++ t')
  end.

Notation "x <- m ;; k" := (bind m (fun x => k))
  (at level 61, m at next level, right associativity).
Notation "m ;;; k" := (bind m (fun _ => k))
  (at level 61, right associativity).

(* ------------------------------------------------------------------ *)
(** ** Range store adapter                                              *)
(* ------------------------------------------------------------------ *)

(** The object [build('sheets', 'v4', ...)] returns, seen through the two
    calls the class makes.  [values_get] gives what [execute()] does: raise,
    or return a dict whose ['values'] entry may be missing.  [values_update]
    likewise, with the ['updatedCells'] entry. *)
Record Service : Type := {
  values_get : string -> string -> result (option table);
  values_update : string -> string -> list (list cell) -> result (option Z)
}.

Record GoogleSheetsIntegration : Type := {
  spreadsheet_id : string;
  credentials_path : string;
  service : option Service;
  scopes : list string
}.

(** [__init__] *)
Definition init (spreadsheet_id credentials_path : string)
  : GoogleSheetsIntegration :=
  {| spreadsheet_id := spreadsheet_id;
     credentials_path := credentials_path;
     service := None;
     scopes := ["https://www.googleapis.com/auth/spreadsheets"] |}.

Definition set_service (self : GoogleSheetsIntegration) (svc : Service)
  : GoogleSheetsIntegration :=
  {| spreadsheet_id := spreadsheet_id self;
     credentials_path := credentials_path self;
     service := Some svc;
     scopes := scopes self |}.

(** OAuth credentials, as far as [authenticate] looks at them. *)
Record Credentials : Type := {
  valid : bool;
  expired : bool;
  refresh_token : bool
}.

(** What [authenticate] finds outside the program. *)
Record AuthWorld : Type := {
  token_pickle : option (result Credentials);
    (** [None]: no [token.pickle]; otherwise the outcome of loading it *)
  refresh : Credentials -> result Credentials;
    (** [creds.refresh(Request())] *)
  credentials_file_exists : bool;
  run_flow : result Credentials;
    (** [InstalledAppFlow...run_local_server(port=0)] *)
  dump_token : Credentials -> result unit;
  build : Credentials -> result Service
}.

Definition credentials_not_found (path : string) : exn :=
  Exn "FileNotFoundError"
      ("Credentials file not found: " ++ path
       ++ String (ascii_of_nat 10)
            "Please download credentials.json from Google Cloud Console").

(** [authenticate]: the result and trace, and the object afterwards. *)
Definition authenticate (w : AuthWorld) (self : GoogleSheetsIntegration)
  : M bool * GoogleSheetsIntegration :=
  let loaded : result (option Credentials) :=
    match token_pickle w with
    | None => Ok None
    | Some (Ok c) => Ok (Some c)
    | Some (Raise e) => Raise e
    end in
  let renew (creds : option Credentials) : result Credentials :=
    let fresh :=
      match creds with
      | Some c =>
          if expired c && refresh_token c then refresh w c
          else if credentials_file_exists w then run_flow w
          else Raise (credentials_not_found (credentials_path self))
      | None =>
          if credentials_file_exists w then run_flow w
          else Raise (credentials_not_found (credentials_path self))
      end in
    match fresh with
    | Raise e => Raise e
    | Ok c =>
        match dump_token w c with
        | Raise e => Raise e
        | Ok _ => Ok c
        end
    end in
  let acquired : result Credentials :=
    match loaded with
    | Raise e => Raise e
    | Ok (Some c) => if valid c then Ok c else renew (Some c)
    | Ok None => renew None
    end in
  match acquired with
  | Raise e => (raise e, self)
  | Ok creds =>
      match build w creds with
      | Ok svc => (ret true, set_service self svc)
      | Raise e =>
          (print ("Authentication failed: " ++ exn_msg e) ;;; ret false, self)
      end
  end.

Definition not_authenticated : exn :=
  Exn "Exception" "Not authenticated. Call authenticate() first.".

(** [f"{sheet_name}"], followed by [f"!{range_name}"] when a range is given. *)
Definition range_spec (sheet_name : string) (range_name : option string)
  : string :=
  match range_name with
  | Some r => if truthy r then sheet_name ++ "!" ++ r else sheet_name
  | None => sheet_name
  end.

(** [read_sheet_data] *)
Definition read_sheet_data (self : GoogleSheetsIntegration)
  (sheet_name : string) (range_name : option string) : M table :=
  match service self with
  | None => raise not_authenticated
  | Some svc =>
      let spec := range_spec sheet_name range_name in
      try_except
        (emit (ValuesGet (spreadsheet_id self) spec) ;;;
         result <- lift (values_get svc (spreadsheet_id self) spec) ;;
         ret (match result with Some values => values | None => [] end))
        (fun e =>
           print ("Error reading sheet " ++ sheet_name ++ ": " ++ exn_msg e) ;;;
           ret [])
  end.

(** [write_sheet_data] *)
Definition write_sheet_data (self : GoogleSheetsIntegration)
  (sheet_name : string) (data : list (list cell)) (range_name : option string)
  : M bool :=
  match service self with
  | None => raise not_authenticated
  | Some svc =>
      let spec := range_spec sheet_name range_name in
      try_except
        (emit (ValuesUpdate (spreadsheet_id self) spec "RAW" data) ;;;
         result <- lift (values_update svc (spreadsheet_id self) spec data) ;;
         print ("Updated " ++ str_of_optZ result ++ " cells") ;;;
         ret true)
        (fun e =>
           print ("Error writing to sheet " ++ sheet_name ++ ": " ++ exn_msg e) ;;;
           ret false)
  end.

(* ------------------------------------------------------------------ *)
(** ** Criteria repository                                              *)
(* ------------------------------------------------------------------ *)

(** The value stored under a role: a dict with the keys ['keywords'],
    ['minSales'] and ['maxSales'], each of which may be missing in a dict
    that comes from a criteria file. *)
Record Criterion : Type := {
  keywords : option string;
  minSales : option pynum;
  maxSales : option pynum
}.

(** [len(row) >= 4 and row[0] and row[1]] *)
Definition accepted (row : list string) : bool :=
  (4 <=? length row)%nat && truthy (nth 0 row "") && truthy (nth 1 row "").

(** [float(row[i]) if len(row) > i and row[i] else default] *)
Definition sales_bound (row : list string) (i : nat) (default : pynum)
  : result pynum :=
  if (i <? length row)%nat && truthy (nth i row "")
  then match py_float (nth i row "") with
       | Ok f => Ok (PyFloat f)
       | Raise e => Raise e
       end
  else Ok default.

(** The dict literal stored under [row[0]]. *)
Definition row_criterion (row : list string) : result Criterion :=
  and_then (sales_bound row 2 (PyInt 0)) (fun lo =>
  and_then (sales_bound row 3 (PyInt 999999999)) (fun hi =>
  Ok {| keywords := Some (nth 1 row "");
        minSales := Some lo;
        maxSales := Some hi |})).

(** Body of the loop [for row in data[1:]] on one row. *)
Definition load_row (criteria : dict Criterion) (row : list string)
  : result (dict Criterion) :=
  if accepted row then
    and_then (row_criterion row) (fun criterion =>
    Ok (dict_set criteria (nth 0 row "") criterion))
  else Ok criteria.

Fixpoint load_rows (rows : table) (criteria : dict Criterion)
  : result (dict Criterion) :=
  match rows with
  | [] => Ok criteria
  | row :: rest =>
      match load_row criteria row with
      | Ok criteria' => load_rows rest criteria'
      | Raise e => Raise e
      end
  end.

(** [get_matrix_criteria] *)
Definition get_matrix_criteria (self : GoogleSheetsIntegration)
  : M (dict Criterion) :=
  data <- read_sheet_data self "Matrix" None ;;
  if (length data <? 2)%nat then ret []
  else lift (load_rows (tl data) []).

Definition matrix_header : list cell :=
  [CStr "Role"; CStr "Keywords"; CStr "Min Sales ($)"; CStr "Max Sales ($)"].

(** The row appended for one item of [criteria.items()]. *)
Definition criterion_row (item : string * Criterion) : list cell :=
  let (role, criterion) := item in
  [ CStr role;
    CStr (match keywords criterion with Some k => k | None => "" end);
    CNum (match minSales criterion with Some n => n | None => PyInt 0 end);
    CNum (match maxSales criterion with
          | Some n => n
          | None => PyInt 999999999
          end) ].

Definition matrix_rows (criteria : dict Criterion) : list (list cell) :=
  matrix_header :: map criterion_row criteria.

(** [update_matrix_criteria] *)
Definition update_matrix_criteria (self : GoogleSheetsIntegration)
  (criteria : dict Criterion) : M bool :=
  write_sheet_data self "Matrix" (matrix_rows criteria) None.

(* ------------------------------------------------------------------ *)
(** ** Webhook trigger                                                  *)
(* ------------------------------------------------------------------ *)

(** The response object of [requests]: its status code and what
    [response.json()] does (return the decoded body or raise). *)
Record Response : Type := {
  status_code : Z;
  json_body : result json
}.

(** The clock and the HTTP client: [datetime.now().isoformat()] and
    [requests.post], which returns a response or raises (connection error,
    timeout). *)
Record Network : Type := {
  now_isoformat : string;
  requests_post : string -> Payload -> result Response
}.

(** What a response says, read off its fields and not through the method:
    the decoded body is an object whose ["status"] member is the string
    ["success"]. *)
Definition body_reports_success (resp : Response) : bool :=
  match json_body resp with
  | Ok (JObject members) =>
      match dict_get members "status" with
      | Some (JString s) => String.eqb s "success"
      | _ => false
      end
  | _ => false
  end.

Definition webhook_payload (net : Network) : Payload :=
  {| action := "generate_capacity_model"; timestamp := now_isoformat net |}.

(** [trigger_capacity_model_generation]; the method does not use [self]. *)
Definition trigger_capacity_model_generation (net : Network)
  (webhook_url : string) : M bool :=
  try_except
    (let payload := webhook_payload net in
     emit (HttpPost webhook_url payload 30) ;;;
     response <- lift (requests_post net webhook_url payload) ;;
     if (status_code response =? 200)%Z then
       result <- lift (json_body response) ;;
       status <- lift (json_get result "status") ;;
       if json_is_string status "success" then
         print "Capacity model generated successfully" ;;;
         ret true
       else
         message <- lift (json_get result "message") ;;
         emit (PrintedJson "Error: " message) ;;;
         ret false
     else
       print ("HTTP Error: " ++ str_of_Z (status_code response)) ;;;
       ret false)
    (fun e =>
       print ("Error triggering capacity model generation: " ++ exn_msg e) ;;;
       ret false).

(* ------------------------------------------------------------------ *)
(** ** Capacity data and insights                                       *)
(* ------------------------------------------------------------------ *)

Definition numeric_columns : list string :=
  ["Sales ($)"; "Admin Count"; "Prod Spec Count";
   "Sr. Prod Count"; "Team Lead Count"; "Intl Project Count"].

(** [pd.to_numeric(..., errors='coerce')] on one cell of a series. *)
Definition to_numeric_cell (c : dcell) : option Q :=
  match c with
  | DStr s => to_numeric s
  | DNum q => Some q
  | DNone => None
  end.

(** [.fillna(v)] on one cell. *)
Definition fillna (v : Q) (x : option Q) : Q :=
  match x with
  | Some q => q
  | None => v
  end.

(** [df[col] = pd.to_numeric(df[col], errors='coerce').fillna(0)].  With a
    label that occurs twice [df[col]] is a frame, which [to_numeric]
    rejects. *)
Definition coerce_column (col : string) (df : DataFrame) : result DataFrame :=
  match index_of col (df_columns df) with
  | None => Raise (Exn "KeyError" col)
  | Some i =>
      if (1 <? count_label col (df_columns df))%nat
      then Raise (Exn "TypeError"
                      "arg must be a list, tuple, 1-d array, or Series")
      else Ok (set_column_at i
                 (map (fun c => DNum (fillna 0 (to_numeric_cell c)))
                      (column_at i df))
                 df)
  end.

(** [for col in cols: if col in df.columns: ...] *)
Fixpoint coerce_columns (cols : list string) (df : DataFrame)
  : result DataFrame :=
  match cols with
  | [] => Ok df
  | col :: rest =>
      if has_column col df then
        match coerce_column col df with
        | Ok df' => coerce_columns rest df'
        | Raise e => Raise e
        end
      else coerce_columns rest df
  end.

(** [get_capacity_model_data] *)
Definition get_capacity_model_data (self : GoogleSheetsIntegration)
  : M DataFrame :=
  data <- read_sheet_data self "Capacity Rep Projection" None ;;
  match data with
  | [] => ret empty_frame
  | header :: rows =>
      df <- lift (make_frame rows header) ;;
      lift (coerce_columns numeric_columns df)
  end.

(** The arithmetic of pandas and numpy.  It is machine arithmetic: a column
    of dtype int64 is added with wrap-around, a column of dtype float64 with
    rounding, a mean and a quotient are float64 values.  None of it is
    computed here: the scalars numpy returns are kept abstract and the
    operations the class calls are parameters.  The dtype pandas gives a
    column is not determined by the values of its cells, so the operations
    on columns take the label of the column next to its values. *)
Variable Num : Type.

(** [df[label].sum()] *)
Variable series_sum : string -> list Q -> Num.

(** [df[label].mean()] on a series that is not empty. *)
Variable mean_of : string -> list Q -> Num.

(** [df[labels].sum().sum()], on the columns and their labels. *)
Variable frame_sum : list (string * list Q) -> Num.

(** [x > 0] *)
Variable positive : Num -> bool.

(** [x / y] *)
Variable true_divide : Num -> Num -> Num.

(** [x * n] for a Python integer [n]. *)
Variable multiply : Num -> Z -> Num.

(** What IEEE 754 and numpy say of these operations on counts.  [value]
    gives the number a scalar stands for (for a scalar that is not finite,
    a number of its sign).  A whole number below 2^53 is held exactly in
    int64 and in float64, so a sum of counts that stays below 2^53 is exact
    whatever the dtype of the column; a comparison with 0 is exact; a
    quotient of two such numbers and a product with 100 are float64 values,
    rounded to the nearest, which is a relative error of at most
    [unit_roundoff] each. *)
Record numpy_arithmetic (value : Num -> Q) : Prop := {
  sum_of_counts :
    forall label values,
      forallb is_count values = true ->
      (exact_sum values < exact_bound)%Q ->
      (value (series_sum label values) == exact_sum values)%Q;
  frame_sum_of_counts :
    forall columns,
      forallb (fun column => forallb is_count (snd column)) columns = true ->
      (exact_sum (map (fun column => exact_sum (snd column)) columns)
       < exact_bound)%Q ->
      (value (frame_sum columns)
       == exact_sum (map (fun column => exact_sum (snd column)) columns))%Q;
  positive_compares :
    forall x, positive x = Qlt_bool 0 (value x);
  quotient_is_rounded :
    forall x y,
      is_count (value x) = true ->
      is_count (value y) = true ->
      (value x <= value y)%Q ->
      (0 < value y)%Q ->
      (value y < exact_bound)%Q ->
      rounded (value x / value y) (value (true_divide x y));
  product_is_rounded :
    forall x,
      (0 <= value x)%Q ->
      (value x <= 2)%Q ->
      rounded (value x * 100) (value (multiply x 100))
}.

(** [df[label].mean()], NaN ([None]) on an empty series. *)
Definition series_mean (label : string) (values : list Q) : option Num :=
  match values with
  | [] => None
  | _ :: _ => Some (mean_of label values)
  end.

(** [(part / whole) * 100 if whole > 0 else 0] *)
Definition percentage (part whole : Num) : number Num :=
  if positive whole then NpScalar (multiply (true_divide part whole) 100)
  else PyLiteral 0.

(** The dict literal of [get_capacity_insights], evaluated entry by entry.
    [whole] is the value of
    [df[['Admin Count', 'Prod Spec Count', 'Sr. Prod Count',
    'Team Lead Count']].sum().sum()], which the source evaluates again for
    every percentage. *)
Definition summarize (df : DataFrame) : result (Insights Num) :=
  and_then (series df "Sales ($)") (fun sales =>
  and_then
    (if negb (df_empty df)
     then and_then (idxmax sales) (fun top =>
          and_then (loc df top) (fun top_row =>
          Ok (to_dict (df_columns df) top_row)))
     else Ok [])
    (fun top_dict =>
  and_then (series df "Admin Count") (fun admin_count =>
  and_then (series df "Prod Spec Count") (fun prod_spec_count =>
  and_then (series df "Sr. Prod Count") (fun sr_prod_count =>
  and_then (series df "Team Lead Count") (fun team_lead_count =>
  and_then (series df "Intl Project Count") (fun intl_count =>
  let whole :=
    frame_sum [("Admin Count", admin_count);
               ("Prod Spec Count", prod_spec_count);
               ("Sr. Prod Count", sr_prod_count);
               ("Team Lead Count", team_lead_count)] in
  Ok {| total_sales_reps := length (df_rows df);
        total_sales := series_sum "Sales ($)" sales;
        avg_sales_per_rep := series_mean "Sales ($)" sales;
        top_performer := top_dict;
        total_projects :=
          {| admin := series_sum "Admin Count" admin_count;
             prod_spec := series_sum "Prod Spec Count" prod_spec_count;
             sr_prod := series_sum "Sr. Prod Count" sr_prod_count;
             team_lead := series_sum "Team Lead Count" team_lead_count;
             international := series_sum "Intl Project Count" intl_count |};
        capacity_distribution :=
          {| admin_percentage :=
               percentage (series_sum "Admin Count" admin_count) whole;
             prod_spec_percentage :=
               percentage (series_sum "Prod Spec Count" prod_spec_count)
                          whole;
             sr_prod_percentage :=
               percentage (series_sum "Sr. Prod Count" sr_prod_count) whole;
             team_lead_percentage :=
               percentage (series_sum "Team Lead Count" team_lead_count)
                          whole |} |}))))))).

(** The body of [get_capacity_insights] once the frame is at hand; [None]
    is the empty dict [{}]. *)
Definition insights_of_frame (df : DataFrame)
  : result (option (Insights Num)) :=
  if df_empty df then Ok None
  else and_then (summarize df) (fun insights => Ok (Some insights)).

(** [get_capacity_insights] *)
Definition get_capacity_insights (self : GoogleSheetsIntegration)
  : M (option (Insights Num)) :=
  df <- get_capacity_model_data self ;;
  lift (insights_of_frame df).

(* ------------------------------------------------------------------ *)
(** ** Sales data, export and the summary sheet                         *)
(* ------------------------------------------------------------------ *)

(** [get_sales_data] *)
Definition get_sales_data (self : GoogleSheetsIntegration) : M DataFrame :=
  data <- read_sheet_data self "Sheet1" None ;;
  match data with
  | [] => ret empty_frame
  | header :: rows => lift (make_frame rows header)
  end.

(** The clock and the file system as [export_capacity_model_to_csv] uses
    them: [datetime.now().strftime("%Y-%m-%d")] and
    [df.to_csv(filename, index=False)], which writes the file or raises. *)
Record Disk : Type := {
  today : string;
  to_csv : string -> DataFrame -> result unit
}.

(** [f"capacity_model_{timestamp}.csv"] *)
Definition default_csv_name (disk : Disk) : string :=
  "capacity_model_" ++ today disk ++ ".csv".

(** [export_capacity_model_to_csv]: the result and trace, and next to them
    the calls of [to_csv] it made (file name and frame). *)
Definition export_capacity_model_to_csv (disk : Disk)
  (self : GoogleSheetsIntegration) (filename : option string)
  : M string * list (string * DataFrame) :=
  match get_capacity_model_data self with
  | (Raise e, trace) => ((Raise e, trace), [])
  | (Ok df, trace) =>
      if df_empty df then
        ((Ok "", trace ++ [Printed "No capacity model data to export"]), [])
      else
        let name :=
          match filename with
          | Some given => if truthy given then given else default_csv_name disk
          | None => default_csv_name disk
          end in
        match to_csv disk name df with
        | Raise e => ((Raise e, trace), [(name, df)])
        | Ok _ =>
            ((Ok name,
              trace ++ [Printed ("Capacity model exported to " ++ name)]),
             [(name, df)])
        end
  end.

(** The builtin [int(s)] on a string and the method [s.strip()]. *)
Variable py_int : string -> result Z.
Variable py_strip : string -> string.

(** [s.replace(c, '')] for a one-character [c]. *)
Fixpoint remove_char (c : ascii) (s : string) : string :=
  match s with
  | EmptyString => EmptyString
  | String c' rest =>
      if Ascii.eqb c' c then remove_char c rest
      else String c' (remove_char c rest)
  end.

(** A value of the summary dict: an [int], a [float], the literal [0.0],
    or the text of the cell. *)
Inductive summary_value : Type :=
| SInt (z : Z)
| SFloat (f : F)
| SFloatZero
| SText (s : string).

(** [except (ValueError, TypeError)] *)
Definition value_or_type_error (e : exn) : bool :=
  String.eqb (exn_class e) "ValueError" || String.eqb (exn_class e) "TypeError".

Definition count_keys : list string :=
  ["Total Sales Reps"; "Total Projects"; "International Projects"].

Definition money_keys : list string :=
  ["Total Sales"; "Average Sales per Rep"; "Top Performer Sales"].

(** [key in keys] *)
Definition key_in (key : string) (keys : list string) : bool :=
  existsb (String.eqb key) keys.

(** [try: value = float(text)  except (ValueError, TypeError): value = 0.0] *)
Definition float_or_zero (text : string) : result summary_value :=
  match py_float text with
  | Ok f => Ok (SFloat f)
  | Raise e => if value_or_type_error e then Ok SFloatZero else Raise e
  end.

(** The conversion of one value of the summary sheet. *)
Definition summary_value_of (key value : string) : result summary_value :=
  if key_in key count_keys then
    match py_int value with
    | Ok z => Ok (SInt z)
    | Raise e => if value_or_type_error e then Ok (SInt 0) else Raise e
    end
  else if key_in key money_keys then
    float_or_zero (remove_char ","%char (remove_char "$"%char value))
  else if contains key "Percentage" then
    float_or_zero (remove_char "%"%char value)
  else Ok (SText value).

(** Body of the loop [for row in data] on one row. *)
Definition summary_row (summary : dict summary_value) (row : list string)
  : result (dict summary_value) :=
  if (2 <=? length row)%nat && truthy (nth 0 row "") && truthy (nth 1 row "")
  then
    let key := py_strip (nth 0 row "") in
    and_then (summary_value_of key (nth 1 row "")) (fun value =>
    Ok (dict_set summary key value))
  else Ok summary.

Fixpoint summary_rows (rows : table) (summary : dict summary_value)
  : result (dict summary_value) :=
  match rows with
  | [] => Ok summary
  | row :: rest =>
      match summary_row summary row with
      | Ok summary' => summary_rows rest summary'
      | Raise e => Raise e
      end
  end.

(** [get_capacity_summary_data] *)
Definition get_capacity_summary_data (self : GoogleSheetsIntegration)
  : M (dict summary_value) :=
  data <- read_sheet_data self "Capacity Summary" None ;;
  match data with
  | [] => ret []
  | _ :: _ => lift (summary_rows data [])
  end.

(** The keys of a dict filled by assignments to [keys] in this order. *)
Definition add_key (seen : list string) (key : string) : list string :=
  if existsb (String.eqb key) seen then seen else seen ++ [key].

Definition first_occurrences (keys : list string) : list string :=
  fold_left add_key keys [].

(** What [get_matrix_criteria] stores for a role: a non-empty role, all
    three keys with non-empty keywords, a lower bound that is the integer 0
    or a float, and an upper bound that is the integer 999999999 or a
    float. *)
Definition loaded_criterion (item : string * Criterion) : Prop :=
  truthy (fst item) = true
  /\ exists k lo hi,
       snd item = {| keywords := Some k; minSales := Some lo;
                     maxSales := Some hi |}
       /\ truthy k = true
       /\ (lo = PyInt 0 \/ exists f, lo = PyFloat f)
       /\ (hi = PyInt 999999999 \/ exists f, hi = PyFloat f).

(** How [get_capacity_summary_data] types a value by its key: an [int]
    under a count key, a [float] or [0.0] under a money key or a key that
    contains ["Percentage"], and the text of the cell under any other key. *)
Definition summary_item_typed (item : string * summary_value) : Prop :=
  match snd item with
  | SInt _ => key_in (fst item) count_keys = true
  | SFloat _ | SFloatZero =>
      key_in (fst item) count_keys = false
      /\ (key_in (fst item) money_keys = true
          \/ contains (fst item) "Percentage" = true)
  | SText _ =>
      key_in (fst item) count_keys = false
      /\ key_in (fst item) money_keys = false
      /\ contains (fst item) "Percentage" = false
  end.

(** The file name [export_capacity_model_to_csv] writes to. *)
Definition csv_name (disk : Disk) (filename : option string) : string :=
  match filename with
  | Some given => if truthy given then given else default_csv_name disk
  | None => default_csv_name disk
  end.

(* ------------------------------------------------------------------ *)
(** ** Instances used to run the model on concrete inputs               *)
(* ------------------------------------------------------------------ *)

(** The rule set and the records of the examples in the specification. *)
Definition example_rules : RuleSet :=
  [ {| rule_role := "Admin"; rule_keywords := "admin,management";
       rule_band := Some (0, 999999999)%Q |};
    {| rule_role := "ProdSpec"; rule_keywords := "production,assembly";
       rule_band := Some (0, 999999999)%Q |} ].

(** A rule set whose first rule carries a narrow band, and a record that
    has a keyword of that rule but a sales amount outside the band. *)
Definition banded_rules : RuleSet :=
  [ {| rule_role := "Admin"; rule_keywords := "admin,management";
       rule_band := Some (0, 1000)%Q |};
    {| rule_role := "ProdSpec"; rule_keywords := "production,assembly";
       rule_band := None |} ].

Definition unrelated_record : ProjectRecord :=
  {| description := "Admin review of an Unrelated topic";
     salesAmount := 1500%Q |}.

(** A webhook that answers every post with the given status code and the
    body [{"status": "success"}]. *)
Definition webhook_answering (code : Z) : Network :=
  {| now_isoformat := "2024-01-01T00:00:00";
     requests_post := fun _ _ =>
       Ok {| status_code := code;
             json_body := Ok (JObject [("status", JString "success")]) |} |}.

(** A spreadsheet whose sheets hold fixed tables; any other range is
    refused, and every update is refused when [read_only] is set. *)
Definition sheets_service (matrix capacity : table) (read_only : bool)
  : Service :=
  {| values_get := fun _ range =>
       if String.eqb range "Matrix" then Ok (Some matrix)
       else if String.eqb range "Capacity Rep Projection"
            then Ok (Some capacity)
            else Raise (Exn "HttpError" "Unable to parse range");
     values_update := fun _ _ data =>
       if read_only then Raise (Exn "HttpError" "The caller does not have permission")
       else Ok (Some (Z.of_nat (length (concat data)))) |}.

(** The table of [test_get_matrix_criteria]. *)
Definition two_column_matrix : table :=
  [ ["Role"; "Criteria"];
    ["Admin"; "admin,management"];
    ["Production Specialist"; "production,assembly"] ].

Definition banded_matrix : table :=
  [ ["Role"; "Keywords"; "Min Sales ($)"; "Max Sales ($)"];
    ["Admin"; "admin,management"; "0"; "5000"];
    ["Production Specialist"; "production,assembly"; ""; ""] ].

Definition repeated_role_matrix : table :=
  [ ["Role"; "Keywords"; "Min Sales ($)"; "Max Sales ($)"];
    ["Admin"; "admin"; "0"; "5000"];
    ["Team Lead"; "lead"; "100"; ""];
    ["Admin"; "management"; "5000"; "9000"] ].

Definition unreadable_bound_matrix : table :=
  [ ["Role"; "Keywords"; "Min Sales ($)"; "Max Sales ($)"];
    ["Admin"; "admin,management"; "n/a"; ""] ].

(** Every non-empty bound cell of an accepted row is read by [float]. *)
Definition bounds_readable (row : list string) : bool :=
  match row_criterion row with
  | Ok _ => true
  | Raise _ => false
  end.

(** A capacity sheet with data: at least one row below the header, no
    row wider than the header and one as wide, and each of the six numeric
    labels exactly once in the header. *)
Definition capacity_table (data : table) : bool :=
  match data with
  | [] => false
  | header :: rows =>
      negb (length rows =? 0)%nat
      && (widest rows =? length header)%nat
      && forallb (fun label => (count_label label header =? 1)%nat)
                 numeric_columns
  end.

(** The sales figure of a row of a frame with the given labels. *)
Definition sales_of (columns : list string) (row : list dcell) : option Q :=
  match index_of "Sales ($)" columns with
  | Some i =>
      match nth i row DNone with
      | DNum q => Some q
      | _ => None
      end
  | None => None
  end.

(** What coercion does to one row when it treats the column at [i], and
    when it treats the columns at [indices] one after the other. *)
Definition coerce_row (i : nat) (row : list dcell) : list dcell :=
  set_nth i (DNum (fillna 0 (to_numeric_cell (nth i row DNone)))) row.

Definition coerce_at (indices : list nat) (row : list dcell) : list dcell :=
  fold_left (fun r i => coerce_row i r) indices row.

(** The number a coerced column holds for a text cell of the sheet, or
    for a cell the row does not have. *)
Definition coerced_value (c : option string) : Q :=
  match c with
  | Some s => fillna 0 (to_numeric s)
  | None => 0%Q
  end.

(** All rows of a frame are as long as its list of labels. *)
Definition rectangular (df : DataFrame) : Prop :=
  Forall (fun row => length row = length (df_columns df)) (df_rows df).

(** The frame of [test_get_capacity_insights], as a sheet. *)
Definition capacity_sheet : table :=
  [ ["Sales Rep First"; "Sales Rep Last"; "Sales ($)"; "Admin Count";
     "Prod Spec Count"; "Sr. Prod Count"; "Team Lead Count";
     "Intl Project Count"];
    ["John"; "Doe"; "1000"; "2"; "3"; "1"; "1"; "1"];
    ["Jane"; "Smith"; "2000"; "1"; "4"; "2"; "1"; "n/a"];
    ["Joe"; "Bloggs"; "2000"; "0"; "0"; "0"; "0"] ].

(** The two representatives of the example in the specification. *)
Definition two_rep_sheet : table :=
  [ ["Sales Rep First"; "Sales Rep Last"; "Sales ($)"; "Admin Count";
     "Prod Spec Count"; "Sr. Prod Count"; "Team Lead Count";
     "Intl Project Count"];
    ["John"; "Doe"; "1000"; "2"; "3"; "1"; "1"; "1"];
    ["Jane"; "Smith"; "2000"; "1"; "4"; "2"; "1"; "0"] ].

(** Arithmetic on rationals, without wrap-around and without rounding.  It
    agrees with numpy where the sums of a sheet are small whole numbers and
    its means and quotients are float64 values. *)
Definition exact_series_sum (label : string) (values : list Q) : Q :=
  exact_sum values.

Definition exact_mean (label : string) (values : list Q) : Q :=
  (exact_sum values / inject_Z (Z.of_nat (length values)))%Q.

Definition exact_frame_sum (columns : list (string * list Q)) : Q :=
  exact_sum (map (fun column => exact_sum (snd column)) columns).

Definition exact_positive (x : Q) : bool := Qlt_bool 0 x.

Definition exact_multiply (x : Q) (n : Z) : Q := (x * inject_Z n)%Q.

(** The sums of columns of dtype int64, which pandas gives a column whose
    cells are all integer literals: numpy adds in 64 bits, two's
    complement, and wraps around without a warning. *)
Definition wrap_int64 (z : Z) : Z :=
  ((z + 9223372036854775808) mod 18446744073709551616
   - 9223372036854775808)%Z.

Definition int64_series_sum (label : string) (values : list Q) : Q :=
  inject_Z (wrap_int64 (Qfloor (exact_sum values))).

Definition int64_frame_sum (columns : list (string * list Q)) : Q :=
  inject_Z
    (wrap_int64
       (Qfloor (exact_sum (map (fun column => exact_sum (snd column))
                               columns)))).

(** Two representatives whose admin counts add up to 2^63, one more than
    the largest int64. *)
Definition overflowing_sheet : table :=
  [ ["Sales Rep First"; "Sales Rep Last"; "Sales ($)"; "Admin Count";
     "Prod Spec Count"; "Sr. Prod Count"; "Team Lead Count";
     "Intl Project Count"];
    ["John"; "Doe"; "1000"; "9223372036854775807"; "0"; "0"; "0"; "0"];
    ["Jane"; "Smith"; "2000"; "1"; "0"; "0"; "0"; "0"] ].

(** Two representatives with one project in each of the four roles between
    them, so that every percentage is 25, which float64 holds exactly as it
    holds the quotient 0.25. *)
Definition quarters_sheet : table :=
  [ ["Sales Rep First"; "Sales Rep Last"; "Sales ($)"; "Admin Count";
     "Prod Spec Count"; "Sr. Prod Count"; "Team Lead Count";
     "Intl Project Count"];
    ["John"; "Doe"; "1000"; "1"; "0"; "1"; "0"; "3"];
    ["Jane"; "Smith"; "2000"; "0"; "1"; "0"; "1"; "0"] ].


(** A criteria table in which the role Admin occurs twice and the second of
    its rows has a lower bound that is not a number. *)
Definition repeated_role_unreadable_matrix : table :=
  [ ["Role"; "Keywords"; "Min Sales ($)"; "Max Sales ($)"];
    ["Admin"; "admin"; ""; ""];
    ["Admin"; "management"; "n/a"; "9000"] ].

(** A spreadsheet service none of whose calls gets through. *)
Definition unreachable_service : Service :=
  {| values_get := fun _ _ => Raise (Exn "TimeoutError" "timed out");
     values_update := fun _ _ _ => Raise (Exn "TimeoutError" "timed out") |}.

(** [banded_matrix] under another header and with rows the loader skips. *)
Definition noisy_banded_matrix : table :=
  [ ["Rolle"; "Stichworte"];
    ["Admin"; "admin,management"; "0"; "5000"];
    ["Team Lead"; "lead"; "oops"];
    [""; "orphan"; "x"; "y"];
    ["Production Specialist"; "production,assembly"; ""; ""] ].

(** The sheet of [test_get_capacity_model_data]: four columns only. *)
Definition four_column_sheet : table :=
  [ ["Sales Rep First"; "Sales Rep Last"; "Sales ($)"; "Admin Count"];
    ["John"; "Doe"; "1000"; "2"];
    ["Jane"; "Smith"; "2000"; "1"] ].

(** A sheet with a row wider than its header, and one whose header repeats
    a numeric label. *)
Definition ragged_sheet : table :=
  [ ["Sales Rep First"; "Sales ($)"];
    ["John"; "1000"; "stray"] ].

Definition repeated_label_sheet : table :=
  [ ["Sales ($)"; "Sales ($)"];
    ["1000"; "2000"] ].

Definition summary_sheet : table :=
  [ ["Metric"; "Value"];
    [" Total Sales Reps "; "12"];
    ["Total Projects"; "many"];
    ["Total Sales"; "$1,234.50"];
    ["Admin Percentage"; "25%"];
    ["Top Performer"; "Jane Smith"];
    ["Unfinished"] ].

(** Readers of plain decimal integers and of text between blanks, to run
    [get_capacity_summary_data]. *)
Definition decimal_int (s : string) : result Z :=
  match decimal_literal s with
  | Some q =>
      if negb (contains s ".") then Ok (Qnum q)
      else Raise (Exn "ValueError"
                      ("invalid literal for int() with base 10: " ++ s))
  | None => Raise (Exn "ValueError"
                       ("invalid literal for int() with base 10: " ++ s))
  end.

Definition is_blank (c : ascii) : bool :=
  let n := nat_of_ascii c in
  (n =? 32)%nat || ((9 <=? n)%nat && (n <=? 13)%nat).

Fixpoint strip_left (s : string) : string :=
  match s with
  | EmptyString => EmptyString
  | String c rest => if is_blank c then strip_left rest else s
  end.

Fixpoint strip_right (s : string) : string :=
  match s with
  | EmptyString => EmptyString
  | String c rest =>
      match strip_right rest with
      | EmptyString => if is_blank c then EmptyString else String c EmptyString
      | kept => String c kept
      end
  end.

Definition blank_strip (s : string) : string := strip_right (strip_left s).

(** A disk that accepts every file, on the given day. *)
Definition writable_disk (day : string) : Disk :=
  {| today := day; to_csv := fun _ _ => Ok tt |}.

(** A spreadsheet that holds the given sheets and nothing else. *)
Definition workbook_service (sheets : dict table) : Service :=
  {| values_get := fun _ range =>
       match dict_get sheets range with
       | Some values => Ok (Some values)
       | None => Raise (Exn "HttpError" "Unable to parse range")
       end;
     values_update := fun _ _ data =>
       Ok (Some (Z.of_nat (length (concat data)))) |}.

(** A machine with neither a cached token nor a credentials file. *)
Definition world_without_credentials (svc : Service) : AuthWorld :=
  {| token_pickle := None;
     refresh := fun c => Ok c;
     credentials_file_exists := false;
     run_flow := Ok {| valid := true; expired := false; refresh_token := true |};
     dump_token := fun _ => Ok tt;
     build := fun _ => Ok svc |}.

Definition authenticated (svc : Service) : GoogleSheetsIntegration :=
  set_service (init "sheet-id" "credentials.json") svc.

(** A machine with a valid cached token on which [build] yields [svc]. *)
Definition world_with_token (svc : Service) : AuthWorld :=
  {| token_pickle :=
       Some (Ok {| valid := true; expired := false; refresh_token := true |});
     refresh := fun c => Ok c;
     credentials_file_exists := true;
     run_flow := Ok {| valid := true; expired := false; refresh_token := true |};
     dump_token := fun _ => Ok tt;
     build := fun _ => Ok svc |}.

(* ================================================================== *)
(** * Properties                                                        *)
(* ================================================================== *)

(** ** Matrix classifier *)

Lemma first_match_none (text : string) (sales : Q) (rules : RuleSet) :
  (forall r, In r rules -> rule_matches text sales r = false) ->
  first_match text sales rules = None.
Proof.
  induction rules as [|r rest IH]; intros Hno; simpl.
  - reflexivity.
  - rewrite (Hno r (or_introl eq_refl)).
    apply IH. intros r' Hin. apply Hno. now right.
Qed.

Lemma last_rule_last (rules : RuleSet) (d : CriterionRule) :
  rules <> [] -> last_rule rules = Some (last rules d).
Proof.
  induction rules as [|r rest IH]; intros Hne.
  - now contradiction Hne.
  - destruct rest as [|r' rest'].
    + reflexivity.
    + change (last_rule (r' :: rest') = Some (last (r' :: rest') d)).
      apply IH. discriminate.
Qed.

(** C1. For a non-empty rule set and a record none of whose rules both has
    a keyword occurring in the lower-cased description and admits the sales
    amount, [classify] returns the role of the last rule of the set. *)
Theorem classify_falls_back_to_last_rule
  (record : ProjectRecord) (rules : RuleSet) (d : CriterionRule) :
  rules <> [] ->
  (forall r, In r rules ->
     keyword_hit (lower (description record)) r = false
     \/ in_band (salesAmount record) r = false) ->
  classify record rules = Some (rule_role (last rules d)).
Proof.
  intros Hne Hno. unfold classify.
  rewrite first_match_none.
  - rewrite (last_rule_last rules d Hne). reflexivity.
  - intros r Hin. unfold rule_matches.
    destruct (Hno r Hin) as [H|H]; rewrite H; auto using andb_false_r.
Qed.

(** ** Range store adapter *)

Lemma authenticate_true_sets_service (w : AuthWorld)
  (self : GoogleSheetsIntegration) :
  fst (fst (authenticate w self)) = Ok true ->
  exists svc, service (snd (authenticate w self)) = Some svc.
Proof.
  unfold authenticate.
  destruct (token_pickle w) as [[c|e]|]; simpl.
  - destruct (valid c); simpl.
    + destruct (build w c) as [svc|e]; simpl; [eauto | discriminate].
    + destruct (if expired c && refresh_token c then refresh w c
                else if credentials_file_exists w then run_flow w
                else Raise _) as [c'|e]; simpl; [|discriminate].
      destruct (dump_token w c') as [[]|e]; simpl; [|discriminate].
      destruct (build w c') as [svc|e]; simpl; [eauto | discriminate].
  - discriminate.
  - destruct (if credentials_file_exists w then run_flow w else Raise _)
      as [c'|e]; simpl; [|discriminate].
    destruct (dump_token w c') as [[]|e]; simpl; [|discriminate].
    destruct (build w c') as [svc|e]; simpl; [eauto | discriminate].
Qed.

Lemma read_sheet_data_authenticated (self : GoogleSheetsIntegration)
  (svc : Service) (sheet : string) (range : option string) :
  service self = Some svc ->
  read_sheet_data self sheet range =
    let spec := range_spec sheet range in
    match values_get svc (spreadsheet_id self) spec with
    | Ok result =>
        (Ok (match result with Some values => values | None => [] end),
         [ValuesGet (spreadsheet_id self) spec])
    | Raise e =>
        (Ok [],
         [ValuesGet (spreadsheet_id self) spec;
          Printed ("Error reading sheet " ++ sheet ++ ": " ++ exn_msg e)])
    end.
Proof.
  intros Hsvc. unfold read_sheet_data. rewrite Hsvc.
  unfold try_except, bind, emit, lift, print, emit, ret. simpl.
  destruct (values_get svc _ _) as [[values|]|e]; reflexivity.
Qed.

Lemma write_sheet_data_authenticated (self : GoogleSheetsIntegration)
  (svc : Service) (sheet : string) (data : list (list cell))
  (range : option string) :
  service self = Some svc ->
  write_sheet_data self sheet data range =
    let spec := range_spec sheet range in
    match values_update svc (spreadsheet_id self) spec data with
    | Ok result =>
        (Ok true,
         [ValuesUpdate (spreadsheet_id self) spec "RAW" data;
          Printed ("Updated " ++ str_of_optZ result ++ " cells")])
    | Raise e =>
        (Ok false,
         [ValuesUpdate (spreadsheet_id self) spec "RAW" data;
          Printed ("Error writing to sheet " ++ sheet ++ ": " ++ exn_msg e)])
    end.
Proof.
  intros Hsvc. unfold write_sheet_data. rewrite Hsvc.
  unfold try_except, bind, emit, lift, print, emit, ret. simpl.
  destruct (values_update svc _ _ _) as [result|e]; reflexivity.
Qed.

(** C8. On an object that has no service (as [__init__] leaves it, before
    [authenticate]) [read_sheet_data] and [write_sheet_data] raise the
    not-authenticated exception.  Once [authenticate] has returned [True]
    the object holds a service, and with a service neither method raises:
    a failing API call makes [read_sheet_data] return [[]] and
    [write_sheet_data] return [False], each after printing one line. *)
Theorem sheet_access_error_handling
  (self : GoogleSheetsIntegration) (sheet : string) (range : option string)
  (data : list (list cell)) :
  (service self = None ->
     fst (read_sheet_data self sheet range) = Raise not_authenticated
     /\ fst (write_sheet_data self sheet data range) = Raise not_authenticated)
  /\ (forall id path, service (init id path) = None)
  /\ (forall w, fst (fst (authenticate w self)) = Ok true ->
        exists svc, service (snd (authenticate w self)) = Some svc)
  /\ (forall svc, service self = Some svc ->
        (exists rows, fst (read_sheet_data self sheet range) = Ok rows)
        /\ (exists done, fst (write_sheet_data self sheet data range) = Ok done)
        /\ (forall e,
              values_get svc (spreadsheet_id self) (range_spec sheet range)
                = Raise e ->
              read_sheet_data self sheet range =
                (Ok [],
                 [ValuesGet (spreadsheet_id self) (range_spec sheet range);
                  Printed ("Error reading sheet " ++ sheet ++ ": "
                           ++ exn_msg e)]))
        /\ (forall e,
              values_update svc (spreadsheet_id self) (range_spec sheet range)
                data = Raise e ->
              write_sheet_data self sheet data range =
                (Ok false,
                 [ValuesUpdate (spreadsheet_id self) (range_spec sheet range)
                    "RAW" data;
                  Printed ("Error writing to sheet " ++ sheet ++ ": "
                           ++ exn_msg e)]))).
Proof.
  split; [|split; [|split]].
  - intros Hnone. unfold read_sheet_data, write_sheet_data.
    rewrite Hnone. split; reflexivity.
  - reflexivity.
  - intros w. apply authenticate_true_sets_service.
  - intros svc Hsvc.
    rewrite (read_sheet_data_authenticated self svc sheet range Hsvc).
    rewrite (write_sheet_data_authenticated self svc sheet data range Hsvc).
    cbv zeta. repeat split.
    + destruct (values_get svc _ _); simpl; eauto.
    + destruct (values_update svc _ _ _); simpl; eauto.
    + intros e He. rewrite He. reflexivity.
    + intros e He. rewrite He. reflexivity.
Qed.

(** ** Dictionaries *)

Lemma dict_get_set_same {V : Type} (d : dict V) (k : string) (v : V) :
  dict_get (dict_set d k v) k = Some v.
Proof.
  induction d as [|[k' v'] d IH]; simpl.
  - now rewrite String.eqb_refl.
  - destruct (String.eqb k k') eqn:E; simpl.
    + now rewrite String.eqb_refl.
    + rewrite E. apply IH.
Qed.

Lemma dict_get_set_other {V : Type} (d : dict V) (k k' : string) (v : V) :
  k' <> k -> dict_get (dict_set d k v) k' = dict_get d k'.
Proof.
  intros Hne. induction d as [|[k0 v0] d IH]; simpl.
  - destruct (String.eqb_spec k' k); [contradiction | reflexivity].
  - destruct (String.eqb_spec k k0); simpl.
    + subst k0. destruct (String.eqb_spec k' k); [contradiction | reflexivity].
    + destruct (String.eqb k' k0); [reflexivity | apply IH].
Qed.

Lemma dict_get_in_keys {V : Type} (d : dict V) (k : string) (v : V) :
  dict_get d k = Some v -> In k (dict_keys d).
Proof.
  induction d as [|[k' v'] d IH]; simpl; [discriminate|].
  destruct (String.eqb_spec k k'); [now left | right; auto].
Qed.

Lemma dict_set_fresh {V : Type} (d : dict V) (k : string) (v : V) :
  ~ In k (dict_keys d) -> dict_set d k v = d ++ [(k, v)].
Proof.
  induction d as [|[k' v'] d IH]; simpl; intros Hfresh; [reflexivity|].
  destruct (String.eqb_spec k k') as [->|Hne].
  - exfalso. apply Hfresh. now left.
  - f_equal. apply IH. intros Hin. apply Hfresh. now right.
Qed.

Lemma dict_keys_set_present {V : Type} (d : dict V) (k : string) (v : V) :
  In k (dict_keys d) -> dict_keys (dict_set d k v) = dict_keys d.
Proof.
  induction d as [|[k' v'] d IH]; simpl; intros Hin; [contradiction|].
  destruct (String.eqb_spec k k') as [->|Hne]; simpl; [reflexivity|].
  f_equal. apply IH. destruct Hin as [Heq|Hin]; [congruence | assumption].
Qed.

Lemma dict_keys_set_nodup {V : Type} (d : dict V) (k : string) (v : V) :
  NoDup (dict_keys d) -> NoDup (dict_keys (dict_set d k v)).
Proof.
  intros Hnd. destruct (in_dec string_dec k (dict_keys d)) as [Hin|Hfresh].
  - now rewrite dict_keys_set_present.
  - rewrite dict_set_fresh by assumption. unfold dict_keys.
    rewrite map_app. simpl.
    apply NoDup_app; [assumption | repeat constructor; intros [] | ].
    intros x Hx [<-|[]]. now apply Hfresh.
Qed.

(** ** Criteria repository *)

Lemma row_criterion_bounds (row : list string) (criterion : Criterion) :
  row_criterion row = Ok criterion ->
  exists lo hi,
    sales_bound row 2 (PyInt 0) = Ok lo
    /\ sales_bound row 3 (PyInt 999999999) = Ok hi
    /\ criterion = {| keywords := Some (nth 1 row "");
                      minSales := Some lo;
                      maxSales := Some hi |}.
Proof.
  unfold row_criterion.
  destruct (sales_bound row 2 _) as [lo|e]; simpl; [|discriminate].
  destruct (sales_bound row 3 _) as [hi|e]; simpl; [|discriminate].
  intros H. injection H as <-. eauto.
Qed.

Lemma load_rows_app (rows1 rows2 : table) (acc : dict Criterion) :
  load_rows (rows1 ++ rows2) acc
  = and_then (load_rows rows1 acc) (load_rows rows2).
Proof.
  revert acc. induction rows1 as [|row rows1 IH]; intros acc; simpl.
  - reflexivity.
  - destruct (load_row acc row); simpl; [apply IH | reflexivity].
Qed.

Lemma load_rows_total (rows : table) (acc : dict Criterion) :
  Forall (fun row => accepted row = true -> bounds_readable row = true) rows ->
  exists criteria, load_rows rows acc = Ok criteria.
Proof.
  intros Hrows. revert acc.
  induction Hrows as [|row rows Hrow _ IH]; intros acc; simpl; [eauto|].
  unfold load_row. destruct (accepted row); [|apply IH].
  specialize (Hrow eq_refl). unfold bounds_readable in Hrow.
  destruct (row_criterion row); [simpl; apply IH | discriminate].
Qed.

Lemma load_row_nodup (acc criteria : dict Criterion) (row : list string) :
  NoDup (dict_keys acc) -> load_row acc row = Ok criteria ->
  NoDup (dict_keys criteria).
Proof.
  unfold load_row. intros Hnd.
  destruct (accepted row); [|now intros [= <-]].
  destruct (row_criterion row); simpl; [|discriminate].
  intros [= <-]. now apply dict_keys_set_nodup.
Qed.

Lemma load_rows_nodup (rows : table) (acc criteria : dict Criterion) :
  NoDup (dict_keys acc) -> load_rows rows acc = Ok criteria ->
  NoDup (dict_keys criteria).
Proof.
  revert acc. induction rows as [|row rows IH]; intros acc Hnd; simpl.
  - now intros [= <-].
  - destruct (load_row acc row) as [acc'|e] eqn:Hrow; [|discriminate].
    apply IH. eapply load_row_nodup; eassumption.
Qed.

Lemma load_rows_other (rows : table) (acc criteria : dict Criterion)
  (role : string) :
  (forall row, In row rows -> accepted row = true -> nth 0 row "" <> role) ->
  load_rows rows acc = Ok criteria ->
  dict_get criteria role = dict_get acc role.
Proof.
  revert acc. induction rows as [|row rows IH]; intros acc Hother; simpl.
  - now intros [= <-].
  - destruct (load_row acc row) as [acc'|e] eqn:Hrow; [|discriminate].
    intros Hload. rewrite (IH acc') by (auto with datatypes).
    unfold load_row in Hrow.
    destruct (accepted row) eqn:Hacc; [|now injection Hrow as <-].
    destruct (row_criterion row); simpl in Hrow; [|discriminate].
    injection Hrow as <-. apply dict_get_set_other.
    intros ->. exact (Hother row (or_introl eq_refl) Hacc eq_refl).
Qed.

Lemma get_matrix_criteria_authenticated (self : GoogleSheetsIntegration)
  (svc : Service) (data : table) :
  service self = Some svc ->
  values_get svc (spreadsheet_id self) "Matrix" = Ok (Some data) ->
  get_matrix_criteria self =
    (if (length data <? 2)%nat then Ok [] else load_rows (tl data) [],
     [ValuesGet (spreadsheet_id self) "Matrix"]).
Proof.
  intros Hsvc Hget. unfold get_matrix_criteria.
  rewrite (read_sheet_data_authenticated self svc "Matrix" None Hsvc).
  cbv zeta. change (range_spec "Matrix" None) with "Matrix".
  rewrite Hget. unfold bind, ret, lift.
  destruct (length data <? 2)%nat; reflexivity.
Qed.

(** C2 (evaluation of the code). On the table of [test_get_matrix_criteria],
    whose rows have a role and keywords and no further cell,
    [get_matrix_criteria] produces no rule at all. *)
Theorem two_cell_rows_produce_no_rule :
  get_matrix_criteria
    (authenticated (sheets_service two_column_matrix [] false))
  = (Ok [], [ValuesGet "sheet-id" "Matrix"]).
Proof. reflexivity. Qed.

(** C9 (the code on a failing input).  In
    [repeated_role_unreadable_matrix] two accepted rows carry the role
    Admin, and the lower bound of the second is a text [float] does not
    read.  [get_matrix_criteria] returns no mapping there: the exception
    [float] raises on that text leaves the method after the one read
    request, so an error is reported and the role is bound to nothing. *)
Theorem repeated_role_with_unreadable_bound_raises (e : exn) :
  py_float "n/a" = Raise e ->
  get_matrix_criteria
    (authenticated (sheets_service repeated_role_unreadable_matrix [] false))
  = (Raise e, [ValuesGet "sheet-id" "Matrix"]).
Proof.
  intros Hfloat.
  unfold get_matrix_criteria, read_sheet_data, authenticated. simpl.
  unfold load_row, row_criterion, sales_bound. simpl.
  now rewrite Hfloat.
Qed.

(** X21. When the sheet is read and [float] reads the bounds of every
    accepted row, [get_matrix_criteria] returns a dict and prints nothing;
    a role carried by an accepted row occurs exactly once among its keys and
    is bound to the criteria of the last accepted row that carries it. *)
Theorem repeated_role_bound_to_last_row
  (self : GoogleSheetsIntegration) (svc : Service) (data : table) :
  service self = Some svc ->
  values_get svc (spreadsheet_id self) "Matrix" = Ok (Some data) ->
  Forall (fun row => accepted row = true -> bounds_readable row = true)
         (tl data) ->
  exists criteria,
    get_matrix_criteria self
      = (Ok criteria, [ValuesGet (spreadsheet_id self) "Matrix"])
    /\ forall before row after,
         tl data = before ++ row :: after ->
         accepted row = true ->
         (forall later, In later after -> accepted later = true ->
                        nth 0 later "" <> nth 0 row "") ->
         count_occ string_dec (dict_keys criteria) (nth 0 row "") = 1%nat
         /\ exists lo hi,
              sales_bound row 2 (PyInt 0) = Ok lo
              /\ sales_bound row 3 (PyInt 999999999) = Ok hi
              /\ dict_get criteria (nth 0 row "")
                 = Some {| keywords := Some (nth 1 row "");
                           minSales := Some lo;
                           maxSales := Some hi |}.
Proof.
  intros Hsvc Hget Hread.
  rewrite (get_matrix_criteria_authenticated self svc data Hsvc Hget).
  destruct (load_rows_total (tl data) [] Hread) as [criteria Hload].
  destruct (length data <? 2)%nat eqn:Hlen.
  - exists []. split; [reflexivity|].
    intros before row after Htl. exfalso.
    apply Nat.ltb_lt in Hlen.
    destruct data as [|header [|row' rest]]; simpl in *; try lia;
      destruct before; discriminate.
  - exists criteria. rewrite Hload. split; [reflexivity|].
    intros before row after Htl Hacc Hlast.
    rewrite Htl, load_rows_app in Hload.
    destruct (load_rows before []) as [c1|e] eqn:Hbefore; [|discriminate].
    simpl in Hload.
    destruct (load_row c1 row) as [c2|e] eqn:Hrow; [|discriminate].
    assert (Hnd : NoDup (dict_keys c2)).
    { eapply load_row_nodup; [|exact Hrow].
      eapply load_rows_nodup; [|exact Hbefore]. constructor. }
    unfold load_row in Hrow. rewrite Hacc in Hrow.
    destruct (row_criterion row) as [criterion|e] eqn:Hcrit;
      simpl in Hrow; [|discriminate].
    injection Hrow as <-.
    destruct (row_criterion_bounds row criterion Hcrit)
      as (lo & hi & Hlo & Hhi & ->).
    assert (Hbound : dict_get criteria (nth 0 row "")
                     = Some {| keywords := Some (nth 1 row "");
                               minSales := Some lo;
                               maxSales := Some hi |}).
    { rewrite (load_rows_other after _ criteria (nth 0 row "") Hlast Hload).
      apply dict_get_set_same. }
    split.
    + apply NoDup_count_occ'.
      * eapply load_rows_nodup; [exact Hnd | exact Hload].
      * eapply dict_get_in_keys; exact Hbound.
    + exists lo, hi. auto.
Qed.

Lemma load_rows_fresh (rows : table) (acc : dict Criterion) :
  forallb accepted rows = true ->
  forallb bounds_readable rows = true ->
  NoDup (map (fun row => nth 0 row "") rows) ->
  (forall row, In row rows -> ~ In (nth 0 row "") (dict_keys acc)) ->
  exists entries,
    load_rows rows acc = Ok (acc ++ entries)
    /\ Forall2 (fun row entry =>
                  fst entry = nth 0 row ""
                  /\ row_criterion row = Ok (snd entry))
               rows entries.
Proof.
  revert acc. induction rows as [|row rows IH]; intros acc Hacc Hread Hnd Hfresh.
  - exists []. split; [simpl; now rewrite app_nil_r | constructor].
  - simpl in Hacc, Hread, Hnd.
    apply andb_true_iff in Hacc as [Hacc Haccs].
    apply andb_true_iff in Hread as [Hread Hreads].
    inversion Hnd as [|role roles Hrole Hnd']; subst.
    unfold bounds_readable in Hread.
    destruct (row_criterion row) as [criterion|e] eqn:Hcrit; [|discriminate].
    destruct (IH (acc ++ [(nth 0 row "", criterion)]) Haccs Hreads Hnd')
      as (entries & Hload & Hall).
    { intros row' Hin. unfold dict_keys. rewrite map_app, in_app_iff.
      intros [Hold|[Heq|[]]].
      - exact (Hfresh row' (or_intror Hin) Hold).
      - apply Hrole. simpl in Heq. rewrite Heq.
        apply (in_map (fun r => nth 0 r "") rows row' Hin). }
    exists ((nth 0 row "", criterion) :: entries). split.
    + simpl. unfold load_row. rewrite Hacc, Hcrit. simpl.
      rewrite dict_set_fresh by (apply Hfresh; now left).
      rewrite Hload, <- app_assoc. reflexivity.
    + constructor; [split; [reflexivity | exact Hcrit] | exact Hall].
Qed.

(** C5 (the code on a failing input).  The two rows of
    [two_column_matrix], the table of [test_get_matrix_criteria], have a
    role and keywords and leave the two optional bounds out.
    [get_matrix_criteria] returns the empty dict on it, and
    [update_matrix_criteria] on that dict writes the header row and nothing
    else: the round trip loses both rules. *)
Theorem save_after_load_loses_two_cell_rules :
  let self := authenticated (sheets_service two_column_matrix [] false) in
  exists criteria,
    get_matrix_criteria self = (Ok criteria, [ValuesGet "sheet-id" "Matrix"])
    /\ criteria = []
    /\ update_matrix_criteria self criteria
       = (Ok true,
          [ValuesUpdate "sheet-id" "Matrix" "RAW" [matrix_header];
           Printed "Updated 4 cells"]).
Proof.
  exists []. repeat split.
Qed.

(** X20. Let the Matrix sheet hold a header followed by rows that each have
    four cells or more, a non-empty role and non-empty keywords, bounds that
    are empty or read by [float], and pairwise different roles.  Then
    [get_matrix_criteria] returns a dict, and [update_matrix_criteria] on
    that dict sends to the Matrix sheet the header row followed by one row
    per original row, in the original order, holding the role, the
    keywords and the two bounds of that row. *)
Theorem save_after_load_reproduces_table
  (self : GoogleSheetsIntegration) (svc : Service)
  (header : list string) (rows : table) :
  service self = Some svc ->
  values_get svc (spreadsheet_id self) "Matrix" = Ok (Some (header :: rows)) ->
  forallb accepted rows = true ->
  forallb bounds_readable rows = true ->
  NoDup (map (fun row => nth 0 row "") rows) ->
  exists criteria written,
    fst (get_matrix_criteria self) = Ok criteria
    /\ (exists done line,
          update_matrix_criteria self criteria
          = (Ok done,
             [ValuesUpdate (spreadsheet_id self) "Matrix" "RAW"
                (matrix_header :: written);
              Printed line]))
    /\ Forall2 (fun row out =>
                  exists lo hi,
                    sales_bound row 2 (PyInt 0) = Ok lo
                    /\ sales_bound row 3 (PyInt 999999999) = Ok hi
                    /\ out = [CStr (nth 0 row ""); CStr (nth 1 row "");
                              CNum lo; CNum hi])
               rows written.
Proof.
  intros Hsvc Hget Hacc Hread Hnd.
  destruct (load_rows_fresh rows [] Hacc Hread Hnd) as (entries & Hload & Hall);
    [intros row _ [] |].
  simpl in Hload.
  exists entries, (map criterion_row entries). split; [|split].
  - rewrite (get_matrix_criteria_authenticated self svc _ Hsvc Hget).
    simpl. destruct rows as [|row rows'].
    + inversion Hall. reflexivity.
    + simpl. exact Hload.
  - unfold update_matrix_criteria.
    rewrite (write_sheet_data_authenticated self svc _ _ None Hsvc).
    cbv zeta. change (range_spec "Matrix" None) with "Matrix".
    unfold matrix_rows.
    destruct (values_update svc _ _ _); eauto.
  - clear Hload Hget Hacc Hread Hnd.
    induction Hall
      as [|row [role criterion] rows' entries' [Hrole Hcrit] _ IH];
      simpl; [constructor|].
    constructor; [|exact IH].
    simpl in Hrole, Hcrit. subst role.
    destruct (row_criterion_bounds row criterion Hcrit)
      as (lo & hi & Hlo & Hhi & ->).
    exists lo, hi. simpl. auto.
Qed.

(** ** Webhook trigger *)

(** C3, as amended.  [trigger_capacity_model_generation] never raises, and
    it returns [True] exactly when the post yields a response whose status
    code is 200 and whose JSON body has ["status"] equal to ["success"]. *)
Theorem trigger_true_iff_200_and_success (net : Network) (url : string) :
  (exists outcome,
     fst (trigger_capacity_model_generation net url) = Ok outcome)
  /\ (fst (trigger_capacity_model_generation net url) = Ok true
      <-> exists resp,
            requests_post net url (webhook_payload net) = Ok resp
            /\ status_code resp = 200%Z
            /\ body_reports_success resp = true).
Proof.
  unfold trigger_capacity_model_generation, body_reports_success,
    try_except, bind, emit, lift, print, emit, ret.
  cbv zeta. simpl.
  destruct (requests_post net url (webhook_payload net)) as [resp|e]; simpl.
  2:{ split; [eauto|]. split; [discriminate|].
      intros (resp & H & _). discriminate. }
  destruct (Z.eqb_spec (status_code resp) 200) as [Hcode|Hcode]; simpl.
  2:{ split; [eauto|]. split; [discriminate|].
      intros (resp' & H & Hc & _). congruence. }
  destruct (json_body resp) as [body|e] eqn:Hbody; simpl.
  2:{ split; [eauto|]. split; [discriminate|].
      intros (resp' & H & _ & Hs). injection H as <-.
      rewrite Hbody in Hs. discriminate. }
  assert (Hresp : forall resp', Ok resp = Ok resp' -> resp' = resp)
    by (intros resp' H; now injection H).
  destruct body as [ | b | z | q | s | items | members ]; simpl;
    try (split; [eauto|]; split; [discriminate|];
         intros (resp' & H & _ & Hs); apply Hresp in H; subst resp';
         rewrite Hbody in Hs; discriminate).
  destruct (dict_get members "status") as [status|] eqn:Hstatus; simpl.
  - destruct status as [ | b | z | q | s | items | members' ]; simpl;
      try (destruct (dict_get members "message"); simpl;
           (split; [eauto|]; split; [discriminate|];
            intros (resp' & H & _ & Hs); apply Hresp in H; subst resp';
            rewrite Hbody, Hstatus in Hs; discriminate)).
    destruct (String.eqb s "success") eqn:Hs; simpl.
    + split; [eauto|]. split; [|reflexivity].
      intros _. exists resp. rewrite Hbody, Hstatus, Hs. auto.
    + destruct (dict_get members "message"); simpl;
        (split; [eauto|]; split; [discriminate|];
         intros (resp' & H & _ & Hs'); apply Hresp in H; subst resp';
         rewrite Hbody, Hstatus, Hs in Hs'; discriminate).
  - destruct (dict_get members "message"); simpl;
      (split; [eauto|]; split; [discriminate|];
       intros (resp' & H & _ & Hs); apply Hresp in H; subst resp';
       rewrite Hbody, Hstatus in Hs; discriminate).
Qed.

(** ** Data frames *)

Lemma set_nth_length {A : Type} (i : nat) (v : A) (l : list A) :
  length (set_nth i v l) = length l.
Proof.
  revert i. induction l as [|h t IH]; intros [|i]; simpl; auto.
Qed.

Lemma nth_set_nth_same {A : Type} (i : nat) (v d : A) (l : list A) :
  (i < length l)%nat -> nth i (set_nth i v l) d = v.
Proof.
  revert i. induction l as [|h t IH]; intros [|i] Hlt; simpl in *;
    try lia; auto with arith.
Qed.

Lemma nth_set_nth_other {A : Type} (i j : nat) (v d : A) (l : list A) :
  i <> j -> nth j (set_nth i v l) d = nth j l d.
Proof.
  revert i j. induction l as [|h t IH]; intros [|i] [|j] Hne; simpl;
    try reflexivity; try congruence.
  apply IH. congruence.
Qed.

Lemma set_column_at_rows (i : nat) (f : dcell -> dcell) (df : DataFrame) :
  df_rows (set_column_at i (map f (column_at i df)) df)
  = map (fun row => set_nth i (f (nth i row DNone)) row) (df_rows df).
Proof.
  unfold set_column_at, column_at. simpl.
  induction (df_rows df) as [|row rows IH]; simpl; [reflexivity|].
  now rewrite IH.
Qed.

Lemma index_of_nth_error (label : string) (columns : list string) (i : nat) :
  index_of label columns = Some i -> nth_error columns i = Some label.
Proof.
  revert i. induction columns as [|c rest IH]; intros i; simpl; [discriminate|].
  destruct (String.eqb_spec label c) as [->|Hne].
  - now intros [= <-].
  - destruct (index_of label rest) as [j|]; simpl; [|discriminate].
    intros [= <-]. simpl. now apply IH.
Qed.

Lemma index_of_lt (label : string) (columns : list string) (i : nat) :
  index_of label columns = Some i -> (i < length columns)%nat.
Proof.
  intros H. apply index_of_nth_error in H.
  apply nth_error_Some. congruence.
Qed.

Lemma has_column_index_of (label : string) (df : DataFrame) :
  has_column label df = true <->
  exists i, index_of label (df_columns df) = Some i.
Proof.
  unfold has_column.
  induction (df_columns df) as [|c rest IH]; simpl.
  - split; [discriminate | intros [i H]; discriminate].
  - destruct (String.eqb label c); simpl.
    + split; eauto.
    + rewrite IH. split; intros [i H].
      * rewrite H. simpl. eauto.
      * destruct (index_of label rest); [eauto | discriminate].
Qed.

Lemma count_label_index_of (label : string) (columns : list string) :
  (0 < count_label label columns)%nat ->
  exists i, index_of label columns = Some i.
Proof.
  unfold count_label.
  induction columns as [|c rest IH]; simpl; [lia|].
  destruct (String.eqb label c); simpl; [eauto|].
  intros H. destruct (IH H) as [i ->]. simpl. eauto.
Qed.

Lemma length_le_widest (rows : table) (row : list string) :
  In row rows -> (length row <= widest rows)%nat.
Proof.
  induction rows as [|r rest IH]; [contradiction|].
  change (widest (r :: rest)) with (Nat.max (length r) (widest rest)).
  intros [->|Hin]; [apply Nat.le_max_l|].
  specialize (IH Hin). lia.
Qed.

Lemma pad_length (width : nat) (row : list string) :
  (length row <= width)%nat -> length (pad width row) = width.
Proof.
  intros Hle. unfold pad.
  rewrite length_app, length_map, repeat_length. lia.
Qed.

Lemma nth_pad (width i : nat) (row : list string) :
  nth i (pad width row) DNone
  = match nth_error row i with
    | Some s => DStr s
    | None => DNone
    end.
Proof.
  unfold pad. destruct (nth_error row i) as [s|] eqn:Hnth.
  - rewrite app_nth1.
    + apply nth_error_nth.
      now rewrite nth_error_map, Hnth.
    + rewrite length_map. apply nth_error_Some. congruence.
  - apply nth_error_None in Hnth.
    rewrite app_nth2 by (rewrite length_map; lia).
    destruct (Nat.lt_ge_cases (i - length (map DStr row))
                              (width - length row)) as [Hlt|Hge].
    + now rewrite nth_repeat_lt.
    + apply nth_overflow. rewrite repeat_length. lia.
Qed.

Lemma make_frame_ok (rows : table) (columns : list string) :
  rows = [] \/ widest rows = length columns ->
  exists df,
    make_frame rows columns = Ok df
    /\ df_columns df = columns
    /\ df_rows df = map (pad (length columns)) rows
    /\ rectangular df.
Proof.
  intros Hshape. unfold make_frame.
  destruct rows as [|row rows'].
  - eexists. repeat split. constructor.
  - destruct Hshape as [Hnil|Hwide]; [discriminate|].
    rewrite Hwide, Nat.eqb_refl.
    eexists. repeat split. unfold rectangular. cbn [df_rows df_columns].
    apply Forall_forall. intros out Hin.
    apply in_map_iff in Hin as (r & <- & Hin).
    apply pad_length. rewrite <- Hwide. now apply length_le_widest.
Qed.

Lemma coerce_column_ok (col : string) (df : DataFrame) (i : nat) :
  index_of col (df_columns df) = Some i ->
  (count_label col (df_columns df) <= 1)%nat ->
  exists df',
    coerce_column col df = Ok df'
    /\ df_columns df' = df_columns df
    /\ df_rows df' = map (coerce_row i) (df_rows df).
Proof.
  intros Hi Hcount. unfold coerce_column. rewrite Hi.
  destruct (Nat.ltb_spec 1 (count_label col (df_columns df))); [lia|].
  eexists. split; [reflexivity|]. split; [reflexivity|].
  apply (set_column_at_rows i
           (fun c => DNum (fillna 0 (to_numeric_cell c))) df).
Qed.


Lemma coerce_at_nth_out (indices : list nat) (row : list dcell) (j : nat) :
  ~ In j indices -> nth j (coerce_at indices row) DNone = nth j row DNone.
Proof.
  revert row. induction indices as [|i rest IH]; intros row Hout; simpl.
  - reflexivity.
  - unfold coerce_at in IH. rewrite IH by (intros H; apply Hout; now right).
    apply nth_set_nth_other. intros ->. apply Hout. now left.
Qed.

Lemma coerce_row_nth (i j : nat) (row : list dcell) :
  (j < length row)%nat ->
  fillna 0 (to_numeric_cell (nth j (coerce_row i row) DNone))
  = fillna 0 (to_numeric_cell (nth j row DNone)).
Proof.
  intros Hlt. unfold coerce_row.
  destruct (Nat.eq_dec i j) as [->|Hne].
  - now rewrite nth_set_nth_same.
  - now rewrite nth_set_nth_other.
Qed.

Lemma coerce_at_nth_in (indices : list nat) (row : list dcell) (j : nat) :
  In j indices -> (j < length row)%nat ->
  nth j (coerce_at indices row) DNone
  = DNum (fillna 0 (to_numeric_cell (nth j row DNone))).
Proof.
  revert row. induction indices as [|i rest IH]; intros row Hin Hlt;
    [contradiction|].
  change (coerce_at (i :: rest) row) with (coerce_at rest (coerce_row i row)).
  destruct (in_dec Nat.eq_dec j rest) as [Hrest|Hrest].
  - rewrite IH; [|assumption|unfold coerce_row; now rewrite set_nth_length].
    now rewrite coerce_row_nth.
  - destruct Hin as [->|Hin]; [|contradiction].
    rewrite coerce_at_nth_out by assumption.
    unfold coerce_row. now rewrite nth_set_nth_same.
Qed.

Lemma coerce_columns_ok (cols : list string) (df : DataFrame) :
  (forall label, In label cols ->
     (count_label label (df_columns df) <= 1)%nat) ->
  exists df' indices,
    coerce_columns cols df = Ok df'
    /\ df_columns df' = df_columns df
    /\ df_rows df' = map (coerce_at indices) (df_rows df)
    /\ (forall label i, In label cols ->
          index_of label (df_columns df) = Some i -> In i indices).
Proof.
  revert df. induction cols as [|col rest IH]; intros df Hcount.
  - exists df, []. repeat split.
    + simpl. now rewrite map_id.
    + intros label i [].
  - simpl. destruct (has_column col df) eqn:Hhas.
    + apply has_column_index_of in Hhas as [i Hi].
      destruct (coerce_column_ok col df i Hi (Hcount col (or_introl eq_refl)))
        as (df1 & -> & Hcols1 & Hrows1).
      destruct (IH df1) as (df' & indices & -> & Hcols & Hrows & Hidx).
      { intros label Hin. rewrite Hcols1. apply Hcount. now right. }
      exists df', (i :: indices). repeat split.
      * congruence.
      * rewrite Hrows, Hrows1, map_map. reflexivity.
      * intros label j [<-|Hin] Hj.
        -- left. congruence.
        -- right. apply (Hidx label j Hin). now rewrite Hcols1.
    + destruct (IH df) as (df' & indices & -> & Hcols & Hrows & Hidx).
      { intros label Hin. apply Hcount. now right. }
      exists df', indices. repeat split; try assumption.
      intros label j [<-|Hin] Hj.
      * assert (has_column col df = true)
          by (apply has_column_index_of; eauto).
        congruence.
      * now apply (Hidx label j).
Qed.

Lemma get_capacity_model_data_authenticated (self : GoogleSheetsIntegration)
  (svc : Service) (data : table) :
  service self = Some svc ->
  values_get svc (spreadsheet_id self) "Capacity Rep Projection"
    = Ok (Some data) ->
  get_capacity_model_data self =
    (match data with
     | [] => Ok empty_frame
     | header :: rows =>
         and_then (make_frame rows header) (coerce_columns numeric_columns)
     end,
     [ValuesGet (spreadsheet_id self) "Capacity Rep Projection"]).
Proof.
  intros Hsvc Hget. unfold get_capacity_model_data.
  rewrite (read_sheet_data_authenticated self svc _ None Hsvc).
  cbv zeta.
  change (range_spec "Capacity Rep Projection" None)
    with "Capacity Rep Projection".
  rewrite Hget. unfold bind, ret, lift.
  destruct data as [|header rows]; [reflexivity|].
  destruct (make_frame rows header) as [df|e]; simpl; [|reflexivity].
  destruct (coerce_columns numeric_columns df); reflexivity.
Qed.

(** The frame [get_capacity_model_data] builds from a sheet, row by row. *)
Lemma capacity_frame_rows (self : GoogleSheetsIntegration) (svc : Service)
  (data : table) :
  service self = Some svc ->
  values_get svc (spreadsheet_id self) "Capacity Rep Projection"
    = Ok (Some data) ->
  tl data = [] \/ widest (tl data) = length (hd [] data) ->
  (forall label, In label numeric_columns ->
     (count_label label (hd [] data) <= 1)%nat) ->
  exists df indices,
    get_capacity_model_data self
      = (Ok df, [ValuesGet (spreadsheet_id self) "Capacity Rep Projection"])
    /\ df_columns df = hd [] data
    /\ df_rows df
       = map (fun row => coerce_at indices (pad (length (hd [] data)) row))
             (tl data)
    /\ (forall label i, In label numeric_columns ->
          index_of label (hd [] data) = Some i -> In i indices).
Proof.
  intros Hsvc Hget Hshape Hcount.
  rewrite (get_capacity_model_data_authenticated self svc data Hsvc Hget).
  destruct data as [|header rows].
  - exists empty_frame, []. repeat split. intros label i _. discriminate.
  - simpl in Hshape, Hcount. simpl hd. simpl tl.
    destruct (make_frame_ok rows header Hshape)
      as (df0 & -> & Hcols0 & Hrows0 & _).
    unfold and_then.
    destruct (coerce_columns_ok numeric_columns df0)
      as (df & indices & -> & Hcols & Hrows & Hidx).
    { intros label Hin. rewrite Hcols0. now apply Hcount. }
    exists df, indices. repeat split.
    + congruence.
    + rewrite Hrows, Hrows0, map_map. reflexivity.
    + intros label i Hin Hi. apply (Hidx label i Hin). now rewrite Hcols0.
Qed.

Lemma coerced_cell (indices : list nat) (header row : list string) (i : nat) :
  In i indices -> (i < length header)%nat ->
  (length row <= length header)%nat ->
  nth i (coerce_at indices (pad (length header) row)) DNone
  = DNum (coerced_value (nth_error row i)).
Proof.
  intros Hin Hlt Hrow.
  rewrite coerce_at_nth_in; [|assumption|now rewrite pad_length].
  rewrite nth_pad. unfold coerced_value.
  destruct (nth_error row i); reflexivity.
Qed.



Lemma make_frame_inv (rows : table) (columns : list string) (df : DataFrame) :
  make_frame rows columns = Ok df ->
  rows = [] \/ widest rows = length columns.
Proof.
  unfold make_frame. destruct rows as [|row rows']; [now left|].
  destruct (Nat.eqb_spec (widest (row :: rows')) (length columns));
    [now right | discriminate].
Qed.

Lemma count_label_absent (label : string) (df : DataFrame) :
  has_column label df = false -> count_label label (df_columns df) = 0%nat.
Proof.
  unfold has_column, count_label.
  induction (df_columns df) as [|c rest IH]; simpl; [reflexivity|].
  destruct (String.eqb label c); simpl; [discriminate | exact IH].
Qed.

Lemma coerce_columns_inv (cols : list string) (df df' : DataFrame) :
  coerce_columns cols df = Ok df' ->
  forall label, In label cols ->
    (count_label label (df_columns df) <= 1)%nat.
Proof.
  revert df. induction cols as [|col rest IH]; intros df Hrun label Hin;
    [contradiction|].
  simpl in Hrun. destruct (has_column col df) eqn:Hhas.
  - destruct (coerce_column col df) as [df1|e] eqn:Hcol; [|discriminate].
    unfold coerce_column in Hcol.
    destruct (index_of col (df_columns df)) as [i|]; [|discriminate].
    destruct (Nat.ltb_spec 1 (count_label col (df_columns df)));
      [discriminate|].
    injection Hcol as <-.
    destruct Hin as [<-|Hin]; [assumption|].
    exact (IH _ Hrun label Hin).
  - destruct Hin as [<-|Hin].
    + rewrite count_label_absent by assumption. lia.
    + exact (IH df Hrun label Hin).
Qed.


(** ** Insights *)

Lemma numbers_map {A : Type} (f : A -> dcell) (g : A -> Q) (l : list A) :
  (forall x, In x l -> f x = DNum (g x)) ->
  numbers (map f l) = Some (map g l).
Proof.
  induction l as [|x l IH]; intros Hall; simpl; [reflexivity|].
  rewrite (Hall x (or_introl eq_refl)).
  rewrite IH by (intros y Hy; apply Hall; now right). reflexivity.
Qed.

Lemma numbers_nth_error (cells : list dcell) (values : list Q) (k : nat) :
  numbers cells = Some values ->
  nth_error cells k = option_map DNum (nth_error values k).
Proof.
  revert values k. induction cells as [|c cells IH]; intros values k; simpl.
  - intros [= <-]. now destruct k.
  - destruct c as [text|q|]; try discriminate.
    destruct (numbers cells) as [rest|]; simpl; [|discriminate].
    intros [= <-]. destruct k as [|k]; simpl; [reflexivity|].
    now apply IH.
Qed.

Lemma numbers_length (cells : list dcell) (values : list Q) :
  numbers cells = Some values -> length values = length cells.
Proof.
  revert values. induction cells as [|c cells IH]; intros values; simpl.
  - now intros [= <-].
  - destruct c as [text|q|]; try discriminate.
    destruct (numbers cells) as [rest|]; simpl; [|discriminate].
    intros [= <-]. simpl. f_equal. now apply IH.
Qed.

Lemma series_inv (df : DataFrame) (label : string) (values : list Q) :
  series df label = Ok values ->
  exists i,
    index_of label (df_columns df) = Some i
    /\ numbers (column_at i df) = Some values.
Proof.
  unfold series.
  destruct (index_of label (df_columns df)) as [i|]; [|discriminate].
  destruct (1 <? count_label label (df_columns df))%nat; [discriminate|].
  destruct (numbers (column_at i df)) as [found|] eqn:Hnum; [|discriminate].
  intros [= <-]. exists i. split; [reflexivity | exact Hnum].
Qed.

Lemma series_length (df : DataFrame) (label : string) (values : list Q) :
  series df label = Ok values -> length values = length (df_rows df).
Proof.
  intros H. apply series_inv in H as (i & _ & Hnum).
  apply numbers_length in Hnum. rewrite Hnum. apply length_map.
Qed.

(** The series under a label, read off the rows. *)
Lemma series_rows (df : DataFrame) (values : list Q) :
  series df "Sales ($)" = Ok values ->
  forall k row,
    nth_error (df_rows df) k = Some row ->
    exists v,
      nth_error values k = Some v
      /\ sales_of (df_columns df) row = Some v.
Proof.
  intros H k row Hk. apply series_inv in H as (i & Hi & Hnum).
  pose proof (numbers_nth_error _ _ k Hnum) as Hcell.
  unfold column_at in Hcell. rewrite nth_error_map, Hk in Hcell.
  simpl in Hcell.
  destruct (nth_error values k) as [v|]; simpl in Hcell; [|discriminate].
  exists v. split; [reflexivity|].
  unfold sales_of. rewrite Hi.
  injection Hcell as ->. reflexivity.
Qed.

Lemma Qlt_bool_iff (x y : Q) : Qlt_bool x y = true <-> (x < y)%Q.
Proof.
  unfold Qlt_bool. rewrite negb_true_iff. split.
  - intros H. apply Qnot_le_lt. intros Hle.
    apply Qle_bool_iff in Hle. congruence.
  - intros H. destruct (Qle_bool y x) eqn:E; [|reflexivity].
    apply Qle_bool_iff in E. exfalso. now apply (Qlt_not_le x y).
Qed.

Lemma Qlt_bool_false (x y : Q) : Qlt_bool x y = false -> (y <= x)%Q.
Proof.
  unfold Qlt_bool. rewrite negb_false_iff. apply Qle_bool_iff.
Qed.

Lemma nth_error_snoc {A : Type} (l : list A) (x v : A) (j : nat) :
  nth_error (l ++ [x]) j = Some v ->
  nth_error l j = Some v \/ (j = length l /\ v = x).
Proof.
  intros H. destruct (Nat.lt_ge_cases j (length l)) as [Hlt|Hge].
  - left. now rewrite nth_error_app1 in H.
  - right. rewrite nth_error_app2 in H by assumption.
    destruct (j - length l)%nat as [|n] eqn:E; simpl in H.
    + split; [lia | congruence].
    + now destruct n.
Qed.

Lemma argmax_from_spec (rest prefix : list Q) (best_i : nat) (best : Q) :
  nth_error prefix best_i = Some best ->
  (forall j v, nth_error prefix j = Some v -> (v <= best)%Q) ->
  (forall j v, (j < best_i)%nat -> nth_error prefix j = Some v ->
               (v < best)%Q) ->
  exists m,
    nth_error (prefix ++ rest)
              (argmax_from best_i best (length prefix) rest) = Some m
    /\ (forall j v, nth_error (prefix ++ rest) j = Some v -> (v <= m)%Q)
    /\ (forall j v,
          (j < argmax_from best_i best (length prefix) rest)%nat ->
          nth_error (prefix ++ rest) j = Some v -> (v < m)%Q).
Proof.
  revert prefix best_i best.
  induction rest as [|x rest IH]; intros prefix best_i best Hbest Hmax Hfirst.
  - simpl. rewrite app_nil_r. eauto.
  - simpl.
    assert (Hlen : length (prefix ++ [x]) = S (length prefix))
      by (rewrite length_app; simpl; lia).
    assert (Happ : prefix ++ x :: rest = (prefix ++ [x]) ++ rest)
      by (now rewrite <- app_assoc).
    assert (Hbi : (best_i < length prefix)%nat)
      by (apply nth_error_Some; congruence).
    rewrite Happ.
    destruct (Qlt_bool best x) eqn:Hcmp.
    + apply Qlt_bool_iff in Hcmp.
      specialize (IH (prefix ++ [x]) (length prefix) x).
      rewrite Hlen in IH. apply IH.
      * rewrite nth_error_app2 by lia. now rewrite Nat.sub_diag.
      * intros j v Hj. apply nth_error_snoc in Hj as [Hj|[_ ->]].
        -- apply Qlt_le_weak. eapply Qle_lt_trans; [apply (Hmax j v Hj)|].
           exact Hcmp.
        -- apply Qle_refl.
      * intros j v Hlt Hj. apply nth_error_snoc in Hj as [Hj|[-> _]]; [|lia].
        eapply Qle_lt_trans; [apply (Hmax j v Hj) | exact Hcmp].
    + apply Qlt_bool_false in Hcmp.
      specialize (IH (prefix ++ [x]) best_i best).
      rewrite Hlen in IH. apply IH.
      * now rewrite nth_error_app1.
      * intros j v Hj. apply nth_error_snoc in Hj as [Hj|[_ ->]];
          [now apply (Hmax j v) | exact Hcmp].
      * intros j v Hlt Hj. apply nth_error_snoc in Hj as [Hj|[-> _]];
          [now apply (Hfirst j v) | lia].
Qed.

Lemma idxmax_spec (values : list Q) (i : nat) :
  idxmax values = Ok i ->
  exists m,
    nth_error values i = Some m
    /\ (forall j v, nth_error values j = Some v -> (v <= m)%Q)
    /\ (forall j v, (j < i)%nat -> nth_error values j = Some v -> (v < m)%Q).
Proof.
  destruct values as [|x rest]; simpl; [discriminate|].
  intros [= <-].
  apply (argmax_from_spec rest [x] 0%nat x).
  - reflexivity.
  - intros [|[|j]] v; simpl; try discriminate.
    intros [= <-]. apply Qle_refl.
  - intros j v Hlt. lia.
Qed.

Lemma summarize_inv (df : DataFrame) (insights : Insights Num) :
  summarize df = Ok insights ->
  exists sales top_dict admin_count prod_spec_count sr_prod_count
         team_lead_count intl_count,
    series df "Sales ($)" = Ok sales
    /\ (if negb (df_empty df)
        then and_then (idxmax sales) (fun top =>
             and_then (loc df top) (fun top_row =>
             Ok (to_dict (df_columns df) top_row)))
        else Ok []) = Ok top_dict
    /\ series df "Admin Count" = Ok admin_count
    /\ series df "Prod Spec Count" = Ok prod_spec_count
    /\ series df "Sr. Prod Count" = Ok sr_prod_count
    /\ series df "Team Lead Count" = Ok team_lead_count
    /\ series df "Intl Project Count" = Ok intl_count
    /\ total_sales_reps insights = length (df_rows df)
    /\ avg_sales_per_rep insights = series_mean "Sales ($)" sales
    /\ top_performer insights = top_dict
    /\ total_sales insights = series_sum "Sales ($)" sales
    /\ total_projects insights
       = {| admin := series_sum "Admin Count" admin_count;
            prod_spec := series_sum "Prod Spec Count" prod_spec_count;
            sr_prod := series_sum "Sr. Prod Count" sr_prod_count;
            team_lead := series_sum "Team Lead Count" team_lead_count;
            international := series_sum "Intl Project Count" intl_count |}
    /\ capacity_distribution insights
       = let whole :=
           frame_sum [("Admin Count", admin_count);
                      ("Prod Spec Count", prod_spec_count);
                      ("Sr. Prod Count", sr_prod_count);
                      ("Team Lead Count", team_lead_count)] in
         {| admin_percentage :=
              percentage (series_sum "Admin Count" admin_count) whole;
            prod_spec_percentage :=
              percentage (series_sum "Prod Spec Count" prod_spec_count) whole;
            sr_prod_percentage :=
              percentage (series_sum "Sr. Prod Count" sr_prod_count) whole;
            team_lead_percentage :=
              percentage (series_sum "Team Lead Count" team_lead_count)
                         whole |}.
Proof.
  unfold summarize.
  destruct (series df "Sales ($)") as [sales|e]; [|discriminate].
  cbn [and_then].
  destruct (if negb (df_empty df) then _ else _) as [top_dict|e] eqn:Htop;
    [|discriminate].
  cbn [and_then].
  destruct (series df "Admin Count") as [a|e]; [|discriminate].
  destruct (series df "Prod Spec Count") as [p|e]; [|discriminate].
  destruct (series df "Sr. Prod Count") as [s|e]; [|discriminate].
  destruct (series df "Team Lead Count") as [t|e]; [|discriminate].
  destruct (series df "Intl Project Count") as [n|e]; [|discriminate].
  cbn [and_then]. intros [= <-].
  exists sales, top_dict, a, p, s, t, n.
  repeat split; try reflexivity. exact Htop.
Qed.

Lemma summarize_total (df : DataFrame) :
  (forall label, In label numeric_columns ->
     exists values, series df label = Ok values) ->
  df_empty df = false ->
  exists insights, summarize df = Ok insights.
Proof.
  intros Hseries Hempty.
  destruct (Hseries "Sales ($)") as [sales Hsales]; [simpl; auto 10|].
  destruct (Hseries "Admin Count") as [a Ha]; [simpl; auto 10|].
  destruct (Hseries "Prod Spec Count") as [p Hp]; [simpl; auto 10|].
  destruct (Hseries "Sr. Prod Count") as [s Hs]; [simpl; auto 10|].
  destruct (Hseries "Team Lead Count") as [t Ht]; [simpl; auto 10|].
  destruct (Hseries "Intl Project Count") as [n Hn]; [simpl; auto 10|].
  unfold summarize. rewrite Hsales, Ha, Hp, Hs, Ht, Hn, Hempty.
  cbn [and_then negb].
  pose proof (series_length _ _ _ Hsales) as Hlen.
  destruct (idxmax sales) as [top|e] eqn:Htop.
  - cbn [and_then].
    destruct (idxmax_spec sales top Htop) as (m & Hm & _).
    assert (Hlt : (top < length (df_rows df))%nat).
    { rewrite <- Hlen. apply nth_error_Some. congruence. }
    unfold loc.
    destruct (nth_error (df_rows df) top) as [row|] eqn:Hrow.
    + cbn [and_then]. eauto.
    + apply nth_error_None in Hrow. lia.
  - exfalso. unfold df_empty in Hempty.
    apply orb_false_iff in Hempty as [_ Hrows].
    apply Nat.eqb_neq in Hrows.
    destruct sales; [simpl in Hlen; lia | discriminate].
Qed.

Lemma get_capacity_insights_fst (self : GoogleSheetsIntegration)
  (df : DataFrame) :
  fst (get_capacity_model_data self) = Ok df ->
  fst (get_capacity_insights self) = insights_of_frame df.
Proof.
  unfold get_capacity_insights, bind, lift.
  destruct (get_capacity_model_data self) as [[df'|e] trace]; simpl;
    [|discriminate].
  now intros [= ->].
Qed.

Lemma series_coerced (df : DataFrame) (header : list string) (rows : table)
  (indices : list nat) (label : string) (i : nat) :
  df_columns df = header ->
  df_rows df
    = map (fun row => coerce_at indices (pad (length header) row)) rows ->
  (forall row, In row rows -> (length row <= length header)%nat) ->
  index_of label header = Some i ->
  In i indices ->
  (count_label label header <= 1)%nat ->
  series df label
  = Ok (map (fun row => coerced_value (nth_error row i)) rows).
Proof.
  intros Hcols Hrows Hfit Hi Hin Hcount.
  unfold series. rewrite Hcols, Hi.
  destruct (Nat.ltb_spec 1 (count_label label header)); [lia|].
  unfold column_at. rewrite Hrows, map_map.
  rewrite (numbers_map _ (fun row => coerced_value (nth_error row i)));
    [reflexivity|].
  intros row Hrow. apply coerced_cell; auto.
  eapply index_of_lt; eassumption.
Qed.

(** On a capacity sheet with data the two methods succeed. *)
Lemma capacity_table_insights (self : GoogleSheetsIntegration)
  (svc : Service) (data : table) :
  service self = Some svc ->
  values_get svc (spreadsheet_id self) "Capacity Rep Projection"
    = Ok (Some data) ->
  capacity_table data = true ->
  exists df insights,
    fst (get_capacity_model_data self) = Ok df
    /\ df_empty df = false
    /\ summarize df = Ok insights
    /\ fst (get_capacity_insights self) = Ok (Some insights).
Proof.
  intros Hsvc Hget Htable.
  destruct data as [|header rows]; [discriminate|].
  unfold capacity_table in Htable.
  apply andb_true_iff in Htable as [Htable Hlabels].
  apply andb_true_iff in Htable as [Hrows Hwide].
  apply negb_true_iff, Nat.eqb_neq in Hrows.
  apply Nat.eqb_eq in Hwide.
  rewrite forallb_forall in Hlabels.
  assert (Hcount : forall label, In label numeric_columns ->
                                 count_label label header = 1%nat).
  { intros label Hin. apply Nat.eqb_eq. now apply Hlabels. }
  destruct (capacity_frame_rows self svc (header :: rows) Hsvc Hget)
    as (df & indices & Hrun & Hcols & Hdf & Hidx).
  { right. exact Hwide. }
  { intros label Hin. simpl. rewrite (Hcount label Hin). lia. }
  simpl in Hcols, Hdf, Hidx.
  assert (Hempty : df_empty df = false).
  { unfold df_empty. rewrite Hcols, Hdf, length_map.
    apply orb_false_iff. split; apply Nat.eqb_neq; [|assumption].
    destruct (count_label_index_of "Sales ($)" header) as [i Hi].
    - rewrite Hcount; [lia | now left].
    - apply index_of_lt in Hi. lia. }
  destruct (summarize_total df) as [insights Hsum]; [|exact Hempty|].
  { intros label Hin.
    destruct (count_label_index_of label header) as [i Hi];
      [rewrite (Hcount label Hin); lia|].
    eexists. apply (series_coerced df header rows indices label i); auto.
    - intros row Hrow. rewrite <- Hwide. now apply length_le_widest.
    - now apply (Hidx label i).
    - rewrite (Hcount label Hin). lia. }
  exists df, insights. rewrite Hrun. repeat split; try assumption.
  rewrite (get_capacity_insights_fst self df) by now rewrite Hrun.
  unfold insights_of_frame. now rewrite Hempty, Hsum.
Qed.

(** The series of a numeric column of a capacity sheet holds, row by row,
    the number of the cell of that column, or 0. *)
Lemma capacity_series (self : GoogleSheetsIntegration) (svc : Service)
  (data : table) (label : string) :
  service self = Some svc ->
  values_get svc (spreadsheet_id self) "Capacity Rep Projection"
    = Ok (Some data) ->
  capacity_table data = true ->
  In label numeric_columns ->
  exists i,
    index_of label (hd [] data) = Some i
    /\ forall df,
         fst (get_capacity_model_data self) = Ok df ->
         series df label
         = Ok (map (fun row => coerced_value (nth_error row i)) (tl data)).
Proof.
  intros Hsvc Hget Htable Hlabel.
  destruct data as [|header rows]; [discriminate|].
  unfold capacity_table in Htable.
  apply andb_true_iff in Htable as [Htable Hlabels].
  apply andb_true_iff in Htable as [_ Hwide].
  apply Nat.eqb_eq in Hwide.
  rewrite forallb_forall in Hlabels.
  assert (Hcount : forall l, In l numeric_columns ->
                             count_label l header = 1%nat).
  { intros l Hin. apply Nat.eqb_eq. now apply Hlabels. }
  destruct (capacity_frame_rows self svc (header :: rows) Hsvc Hget)
    as (df' & indices & Hrun & Hcols & Hrows & Hidx).
  { right. exact Hwide. }
  { intros l Hin. simpl. rewrite (Hcount l Hin). lia. }
  cbn [hd tl] in *.
  destruct (count_label_index_of label header) as [i Hi];
    [rewrite (Hcount _ Hlabel); lia|].
  exists i. split; [exact Hi|].
  intros df Hdf. rewrite Hrun in Hdf. cbn [fst] in Hdf. injection Hdf as <-.
  apply (series_coerced df' header rows indices label i); auto.
  - intros row Hrow. rewrite <- Hwide. now apply length_le_widest.
  - now apply (Hidx label i).
  - rewrite (Hcount _ Hlabel). lia.
Qed.

Lemma is_count_spec (q : Q) :
  is_count q = true <-> exists n : Z, (0 <= n)%Z /\ (q == inject_Z n)%Q.
Proof.
  unfold is_count. rewrite andb_true_iff, Qle_bool_iff, Qeq_bool_iff. split.
  - intros [Hle Heq]. exists (Qfloor q). split; [|exact Heq].
    change 0%Z with (Qfloor 0). now apply Qfloor_resp_le.
  - intros (n & Hn & Heq). split.
    + rewrite Heq. change 0%Q with (inject_Z 0). now rewrite <- Zle_Qle.
    + rewrite (Qfloor_comp _ _ Heq), Qfloor_Z. exact Heq.
Qed.

Lemma is_count_compat (q q' : Q) :
  (q == q')%Q -> is_count q' = true -> is_count q = true.
Proof.
  intros Heq Hcount. apply is_count_spec.
  apply is_count_spec in Hcount as (n & Hn & Hq').
  exists n. split; [exact Hn|]. now rewrite Heq.
Qed.

Lemma is_count_nonneg (q : Q) : is_count q = true -> (0 <= q)%Q.
Proof.
  unfold is_count. rewrite andb_true_iff, Qle_bool_iff. tauto.
Qed.

(** A sum of counts is a count. *)
Lemma exact_sum_of_counts (values : list Q) :
  forallb is_count values = true -> is_count (exact_sum values) = true.
Proof.
  induction values as [|x rest IH]; simpl; [reflexivity|].
  rewrite andb_true_iff. intros [Hx Hrest].
  apply is_count_spec in Hx as (n & Hn & Hx).
  specialize (IH Hrest).
  apply is_count_spec in IH as (m & Hm & Hsum).
  apply is_count_spec. exists (n + m)%Z. split; [lia|].
  now rewrite Hx, Hsum, inject_Z_plus.
Qed.

Lemma exact_sum_app (values others : list Q) :
  (exact_sum (values ++ others) == exact_sum values + exact_sum others)%Q.
Proof.
  induction values as [|x rest IH]; simpl; [ring|].
  rewrite IH. ring.
Qed.

(** Two roundings, of a quotient between 0 and 1 and of its product with
    100. *)
Lemma two_roundings (r d p : Q) :
  (0 <= r)%Q -> (r <= 1)%Q ->
  rounded r d -> rounded (d * 100) p ->
  within_two_roundings (100 * r) p.
Proof.
  unfold rounded, within_two_roundings, unit_roundoff.
  intros Hr Hr1 [Hd1 Hd2] [Hp1 Hp2]. split; lra.
Qed.

(** Under [numpy_arithmetic], the percentage of a count in a positive whole
    below 2^53 that it does not exceed is a float64 within two roundings of
    the exact percentage. *)
Lemma percentage_within (value : Num -> Q) (x w : Num) (part whole : Q) :
  numpy_arithmetic value ->
  (value x == part)%Q -> (value w == whole)%Q ->
  is_count part = true -> is_count whole = true ->
  (part <= whole)%Q -> (0 < whole)%Q -> (whole < exact_bound)%Q ->
  exists y,
    percentage x w = NpScalar y
    /\ within_two_roundings (100 * (part / whole)) (value y).
Proof.
  intros Hnp Hx Hw Hpart Hwhole Hle Hpos Hbound.
  unfold percentage.
  rewrite (positive_compares value Hnp w).
  assert (Hcmp : Qlt_bool 0 (value w) = true).
  { apply Qlt_bool_iff. now rewrite Hw. }
  rewrite Hcmp. eexists. split; [reflexivity|].
  assert (Hquot : rounded (value x / value w) (value (true_divide x w))).
  { apply (quotient_is_rounded value Hnp).
    - now apply (is_count_compat _ part).
    - now apply (is_count_compat _ whole).
    - now rewrite Hx, Hw.
    - now rewrite Hw.
    - now rewrite Hw. }
  assert (Hratio : (value x / value w == part / whole)%Q)
    by now rewrite Hx, Hw.
  assert (Hlow : (0 <= part / whole)%Q).
  { apply Qle_shift_div_l; [assumption|]. rewrite Qmult_0_l.
    now apply is_count_nonneg. }
  assert (Hhigh : (part / whole <= 1)%Q).
  { apply Qle_shift_div_r; [assumption|]. now rewrite Qmult_1_l. }
  assert (Hquot' : rounded (part / whole) (value (true_divide x w))).
  { unfold rounded in *. now rewrite <- Hratio. }
  apply (two_roundings _ (value (true_divide x w))); try assumption.
  apply (product_is_rounded value Hnp).
  - unfold rounded, unit_roundoff in Hquot'. lra.
  - unfold rounded, unit_roundoff in Hquot'. lra.
Qed.

Lemma percentage_not_positive (value : Num -> Q) (x w : Num) :
  numpy_arithmetic value ->
  (value w == 0)%Q ->
  percentage x w = PyLiteral 0.
Proof.
  intros Hnp Hw. unfold percentage.
  rewrite (positive_compares value Hnp w).
  destruct (Qlt_bool 0 (value w)) eqn:Hcmp; [|reflexivity].
  apply Qlt_bool_iff in Hcmp. rewrite Hw in Hcmp.
  now apply Qlt_irrefl in Hcmp.
Qed.

(** C4 (as amended). [numpy_arithmetic] assumed, take a capacity sheet with
    data whose cells under the four role columns (admin, prod spec, sr
    prod, team lead) are counts, with the sum of all of them below 2^53, so
    that no sum wraps around and no sum is rounded.  Then
    [get_capacity_insights] returns a summary in which the total of each of
    the four roles is the sum of its column, and
    - when the sum of the four totals is positive, each percentage is a
      float64 within two roundings (one division, one multiplication) of
      100 times the total of the role divided by that sum, and the four
      percentages add up to 100 within the same two roundings;
    - when that sum is zero, each percentage is the integer 0. *)
Theorem role_percentages_up_to_rounding
  (value : Num -> Q) (self : GoogleSheetsIntegration) (svc : Service)
  (data : table) :
  numpy_arithmetic value ->
  service self = Some svc ->
  values_get svc (spreadsheet_id self) "Capacity Rep Projection"
    = Ok (Some data) ->
  capacity_table data = true ->
  exists insights i_admin i_prod_spec i_sr_prod i_team_lead,
    fst (get_capacity_insights self) = Ok (Some insights)
    /\ index_of "Admin Count" (hd [] data) = Some i_admin
    /\ index_of "Prod Spec Count" (hd [] data) = Some i_prod_spec
    /\ index_of "Sr. Prod Count" (hd [] data) = Some i_sr_prod
    /\ index_of "Team Lead Count" (hd [] data) = Some i_team_lead
    /\ let counts i :=
         map (fun row => coerced_value (nth_error row i)) (tl data) in
       let a := exact_sum (counts i_admin) in
       let p := exact_sum (counts i_prod_spec) in
       let s := exact_sum (counts i_sr_prod) in
       let t := exact_sum (counts i_team_lead) in
       let whole := (a + p + s + t)%Q in
       let totals := total_projects insights in
       let shares := capacity_distribution insights in
       forallb is_count
         (counts i_admin ++ counts i_prod_spec ++ counts i_sr_prod
          ++ counts i_team_lead) = true ->
       (whole < exact_bound)%Q ->
       (value (admin totals) == a)%Q
       /\ (value (prod_spec totals) == p)%Q
       /\ (value (sr_prod totals) == s)%Q
       /\ (value (team_lead totals) == t)%Q
       /\ ((0 < whole)%Q ->
           exists x_a x_p x_s x_t,
             admin_percentage shares = NpScalar x_a
             /\ prod_spec_percentage shares = NpScalar x_p
             /\ sr_prod_percentage shares = NpScalar x_s
             /\ team_lead_percentage shares = NpScalar x_t
             /\ within_two_roundings (100 * (a / whole)) (value x_a)
             /\ within_two_roundings (100 * (p / whole)) (value x_p)
             /\ within_two_roundings (100 * (s / whole)) (value x_s)
             /\ within_two_roundings (100 * (t / whole)) (value x_t)
             /\ within_two_roundings 100
                  (value x_a + value x_p + value x_s + value x_t))
       /\ ((whole == 0)%Q ->
           admin_percentage shares = PyLiteral 0
           /\ prod_spec_percentage shares = PyLiteral 0
           /\ sr_prod_percentage shares = PyLiteral 0
           /\ team_lead_percentage shares = PyLiteral 0).
Proof.
  intros Hnp Hsvc Hget Htable.
  destruct (capacity_table_insights self svc data Hsvc Hget Htable)
    as (df & insights & Hdf & _ & Hsum & Hrun).
  destruct (capacity_series self svc data "Admin Count" Hsvc Hget Htable)
    as (ia & Hia & Hsa); [simpl; auto 10|].
  destruct (capacity_series self svc data "Prod Spec Count" Hsvc Hget Htable)
    as (ip & Hip & Hsp); [simpl; auto 10|].
  destruct (capacity_series self svc data "Sr. Prod Count" Hsvc Hget Htable)
    as (is' & His & Hss); [simpl; auto 10|].
  destruct (capacity_series self svc data "Team Lead Count" Hsvc Hget Htable)
    as (it & Hit & Hst); [simpl; auto 10|].
  specialize (Hsa df Hdf). specialize (Hsp df Hdf).
  specialize (Hss df Hdf). specialize (Hst df Hdf).
  destruct (summarize_inv df insights Hsum)
    as (sales & top & ca & cp & cs & ct & cn & _ & _ & Ha & Hp & Hs & Ht & _
        & _ & _ & _ & _ & Htotals & Hshares).
  rewrite Hsa in Ha. injection Ha as <-.
  rewrite Hsp in Hp. injection Hp as <-.
  rewrite Hss in Hs. injection Hs as <-.
  rewrite Hst in Ht. injection Ht as <-.
  exists insights, ia, ip, is', it.
  repeat (split; [assumption|]).
  cbv zeta.
  set (counts := fun i => map (fun row => coerced_value (nth_error row i))
                              (tl data)) in *.
  change (map (fun row => coerced_value (nth_error row ia)) (tl data))
    with (counts ia) in *.
  change (map (fun row => coerced_value (nth_error row ip)) (tl data))
    with (counts ip) in *.
  change (map (fun row => coerced_value (nth_error row is')) (tl data))
    with (counts is') in *.
  change (map (fun row => coerced_value (nth_error row it)) (tl data))
    with (counts it) in *.
  intros Hcounts Hbound.
  rewrite !forallb_app, !andb_true_iff in Hcounts.
  destruct Hcounts as (Hca & Hcp & Hcs & Hct).
  pose proof (exact_sum_of_counts _ Hca) as Hna.
  pose proof (exact_sum_of_counts _ Hcp) as Hnp'.
  pose proof (exact_sum_of_counts _ Hcs) as Hns.
  pose proof (exact_sum_of_counts _ Hct) as Hnt.
  pose proof (is_count_nonneg _ Hna) as H0a.
  pose proof (is_count_nonneg _ Hnp') as H0p.
  pose proof (is_count_nonneg _ Hns) as H0s.
  pose proof (is_count_nonneg _ Hnt) as H0t.
  assert (Hva : (value (series_sum "Admin Count" (counts ia))
                 == exact_sum (counts ia))%Q).
  { apply (sum_of_counts value Hnp); [assumption|lra]. }
  assert (Hvp : (value (series_sum "Prod Spec Count" (counts ip))
                 == exact_sum (counts ip))%Q).
  { apply (sum_of_counts value Hnp); [assumption|lra]. }
  assert (Hvs : (value (series_sum "Sr. Prod Count" (counts is'))
                 == exact_sum (counts is'))%Q).
  { apply (sum_of_counts value Hnp); [assumption|lra]. }
  assert (Hvt : (value (series_sum "Team Lead Count" (counts it))
                 == exact_sum (counts it))%Q).
  { apply (sum_of_counts value Hnp); [assumption|lra]. }
  set (columns := [("Admin Count", counts ia);
                   ("Prod Spec Count", counts ip);
                   ("Sr. Prod Count", counts is');
                   ("Team Lead Count", counts it)]) in *.
  assert (Hvw : (value (frame_sum columns)
                 == exact_sum (counts ia) + exact_sum (counts ip)
                    + exact_sum (counts is') + exact_sum (counts it))%Q).
  { rewrite (frame_sum_of_counts value Hnp columns).
    - unfold columns. simpl. ring.
    - unfold columns. cbn [forallb snd]. now rewrite Hca, Hcp, Hcs, Hct.
    - unfold columns.
      change (exact_sum (map _ _))
        with (exact_sum (counts ia)
              + (exact_sum (counts ip)
                 + (exact_sum (counts is')
                    + (exact_sum (counts it) + 0))))%Q.
      lra. }
  assert (Hnw : is_count (exact_sum (counts ia) + exact_sum (counts ip)
                          + exact_sum (counts is') + exact_sum (counts it))
                = true).
  { apply (is_count_compat _ (exact_sum (counts ia ++ counts ip
                                          ++ counts is' ++ counts it))).
    - rewrite !exact_sum_app. ring.
    - apply exact_sum_of_counts.
      rewrite !forallb_app. now rewrite Hca, Hcp, Hcs, Hct. }
  rewrite Htotals, Hshares. cbv zeta.
  cbn [admin prod_spec sr_prod team_lead admin_percentage
       prod_spec_percentage sr_prod_percentage team_lead_percentage].
  repeat (split; [assumption|]).
  split.
  - intros Hpos.
    destruct (percentage_within value
                (series_sum "Admin Count" (counts ia)) (frame_sum columns)
                _ _ Hnp Hva Hvw Hna Hnw) as (xa & Hxa & Hwa);
      [lra|assumption|assumption|].
    destruct (percentage_within value
                (series_sum "Prod Spec Count" (counts ip))
                (frame_sum columns)
                _ _ Hnp Hvp Hvw Hnp' Hnw) as (xp & Hxp & Hwp);
      [lra|assumption|assumption|].
    destruct (percentage_within value
                (series_sum "Sr. Prod Count" (counts is'))
                (frame_sum columns)
                _ _ Hnp Hvs Hvw Hns Hnw) as (xs & Hxs & Hws);
      [lra|assumption|assumption|].
    destruct (percentage_within value
                (series_sum "Team Lead Count" (counts it))
                (frame_sum columns)
                _ _ Hnp Hvt Hvw Hnt Hnw) as (xt & Hxt & Hwt);
      [lra|assumption|assumption|].
    exists xa, xp, xs, xt.
    repeat (split; [assumption|]).
    set (whole := (exact_sum (counts ia) + exact_sum (counts ip)
                   + exact_sum (counts is') + exact_sum (counts it))%Q) in *.
    assert (Hone : (exact_sum (counts ia) / whole
                    + exact_sum (counts ip) / whole
                    + exact_sum (counts is') / whole
                    + exact_sum (counts it) / whole == 1)%Q).
    { unfold whole. field. fold whole. intros Hzero.
      rewrite Hzero in Hpos. now apply (Qlt_irrefl 0). }
    unfold within_two_roundings, unit_roundoff in *.
    destruct Hwa as [Hwa1 Hwa2], Hwp as [Hwp1 Hwp2],
             Hws as [Hws1 Hws2], Hwt as [Hwt1 Hwt2].
    generalize dependent (exact_sum (counts ia) / whole)%Q.
    generalize dependent (exact_sum (counts ip) / whole)%Q.
    generalize dependent (exact_sum (counts is') / whole)%Q.
    generalize dependent (exact_sum (counts it) / whole)%Q.
    intros rt Hrt1 Hrt2 rs Hrs1 Hrs2 rp Hrp1 Hrp2 ra Hra1 Hra2 Hone.
    split; lra.
  - intros Hzero.
    assert (Hw0 : (value (frame_sum columns) == 0)%Q)
      by now rewrite Hvw.
    repeat split; now apply (percentage_not_positive value).
Qed.

(** C6. When the frame [get_capacity_model_data] returns is empty,
    [get_capacity_insights] returns the empty summary [{}]; this is so when
    the read fails, when the sheet has no values, and when it has a header
    only.  Whenever a summary is returned it covers at least one
    representative and its average is a number, so the average of an empty
    column never reaches the caller. *)
Theorem empty_capacity_data_gives_no_summary
  (self : GoogleSheetsIntegration) :
  (forall df,
     fst (get_capacity_model_data self) = Ok df ->
     df_empty df = true ->
     fst (get_capacity_insights self) = Ok None)
  /\ (forall svc,
        service self = Some svc ->
        (forall e,
           values_get svc (spreadsheet_id self) "Capacity Rep Projection"
             = Raise e ->
           fst (get_capacity_insights self) = Ok None)
        /\ (values_get svc (spreadsheet_id self) "Capacity Rep Projection"
              = Ok None ->
            fst (get_capacity_insights self) = Ok None)
        /\ (values_get svc (spreadsheet_id self) "Capacity Rep Projection"
              = Ok (Some []) ->
            fst (get_capacity_insights self) = Ok None)
        /\ (forall header,
              values_get svc (spreadsheet_id self) "Capacity Rep Projection"
                = Ok (Some [header]) ->
              (forall label, In label numeric_columns ->
                 (count_label label header <= 1)%nat) ->
              fst (get_capacity_insights self) = Ok None))
  /\ (forall insights,
        fst (get_capacity_insights self) = Ok (Some insights) ->
        (0 < total_sales_reps insights)%nat
        /\ exists average, avg_sales_per_rep insights = Some average).
Proof.
  assert (Hguard : forall df,
             fst (get_capacity_model_data self) = Ok df ->
             df_empty df = true ->
             fst (get_capacity_insights self) = Ok None).
  { intros df Hdf Hempty. rewrite (get_capacity_insights_fst self df Hdf).
    unfold insights_of_frame. now rewrite Hempty. }
  split; [exact Hguard|]. split.
  - intros svc Hsvc.
    assert (Hread : forall outcome,
               values_get svc (spreadsheet_id self) "Capacity Rep Projection"
                 = outcome ->
               match outcome with
               | Ok (Some (_ :: _)) => True
               | _ => fst (get_capacity_model_data self) = Ok empty_frame
               end).
    { intros outcome Hget. unfold get_capacity_model_data.
      rewrite (read_sheet_data_authenticated self svc _ None Hsvc).
      cbv zeta.
      change (range_spec "Capacity Rep Projection" None)
        with "Capacity Rep Projection".
      rewrite Hget. destruct outcome as [[[|header rows]|]|e]; auto. }
    repeat split.
    + intros e Hget. apply (Hguard empty_frame); [|reflexivity].
      exact (Hread _ Hget).
    + intros Hget. apply (Hguard empty_frame); [|reflexivity].
      exact (Hread _ Hget).
    + intros Hget. apply (Hguard empty_frame); [|reflexivity].
      exact (Hread _ Hget).
    + intros header Hget Hcount.
      destruct (capacity_frame_rows self svc [header] Hsvc Hget)
        as (df & indices & Hrun & _ & Hrows & _);
        [now left | exact Hcount |].
      apply (Hguard df); [now rewrite Hrun|].
      unfold df_empty. rewrite Hrows. simpl. apply orb_true_r.
  - intros insights Hrun.
    destruct (fst (get_capacity_model_data self)) as [df|e] eqn:Hdf.
    + rewrite (get_capacity_insights_fst self df Hdf) in Hrun.
      unfold insights_of_frame in Hrun.
      destruct (df_empty df) eqn:Hempty; [discriminate|].
      destruct (summarize df) as [found|e] eqn:Hsum; [|discriminate].
      simpl in Hrun. injection Hrun as ->.
      destruct (summarize_inv df insights Hsum)
        as (sales & top & a & p & s & t & n & Hsales & _ & _ & _ & _ & _
            & _ & Hreps & Havg & _).
      unfold df_empty in Hempty.
      apply orb_false_iff in Hempty as [_ Hrows].
      apply Nat.eqb_neq in Hrows.
      split; [rewrite Hreps; lia|].
      rewrite Havg. pose proof (series_length _ _ _ Hsales) as Hlen.
      destruct sales; [simpl in Hlen; lia | simpl; eauto].
    + unfold get_capacity_insights, bind in Hrun.
      destruct (get_capacity_model_data self) as [[df|e'] trace];
        simpl in *; discriminate.
Qed.

(** C7. On a capacity sheet with data, every row of the frame has a sales
    figure and the [top_performer] of the summary is the dict of a row
    whose sales are maximal: no row has larger sales, and every row before
    it has smaller sales. *)
Theorem top_performer_is_first_maximal
  (self : GoogleSheetsIntegration) (svc : Service) (data : table) :
  service self = Some svc ->
  values_get svc (spreadsheet_id self) "Capacity Rep Projection"
    = Ok (Some data) ->
  capacity_table data = true ->
  exists df insights i row best,
    fst (get_capacity_model_data self) = Ok df
    /\ fst (get_capacity_insights self) = Ok (Some insights)
    /\ nth_error (df_rows df) i = Some row
    /\ sales_of (df_columns df) row = Some best
    /\ top_performer insights = to_dict (df_columns df) row
    /\ (forall j other,
          nth_error (df_rows df) j = Some other ->
          exists sales,
            sales_of (df_columns df) other = Some sales
            /\ (sales <= best)%Q
            /\ ((j < i)%nat -> (sales < best)%Q)).
Proof.
  intros Hsvc Hget Htable.
  destruct (capacity_table_insights self svc data Hsvc Hget Htable)
    as (df & insights & Hdf & Hempty & Hsum & Hrun).
  destruct (summarize_inv df insights Hsum)
    as (sales & top & a & p & s & t & n & Hsales & Htop & _ & _ & _ & _ & _
        & _ & _ & Hperf & _).
  rewrite Hempty in Htop. cbn [negb] in Htop.
  destruct (idxmax sales) as [i|e] eqn:Himax; [|discriminate].
  cbn [and_then] in Htop. unfold loc in Htop.
  destruct (nth_error (df_rows df) i) as [row|] eqn:Hrow; [|discriminate].
  cbn [and_then] in Htop. injection Htop as <-.
  destruct (idxmax_spec sales i Himax) as (best & Hbest & Hmax & Hfirst).
  destruct (series_rows df sales Hsales i row Hrow) as (v & Hv & Hrow_sales).
  assert (v = best) by congruence. subst v.
  exists df, insights, i, row, best.
  repeat (split; [assumption|]).
  intros j other Hother.
  destruct (series_rows df sales Hsales j other Hother)
    as (v & Hv' & Hother_sales).
  exists v. split; [assumption|]. split.
  - now apply (Hmax j).
  - intros Hlt. now apply (Hfirst j).
Qed.

(* ================================================================== *)
(** * Further properties of the class                                   *)
(* ================================================================== *)

(** ** Use without a service, and failed reads *)

(** X1. On an object without a service every method that reads or writes a
    sheet raises the not-authenticated exception before any request is sent
    or anything is printed, and the export writes no file. *)
Theorem methods_raise_without_service
  (self : GoogleSheetsIntegration) (disk : Disk)
  (criteria : dict Criterion) (filename : option string) :
  service self = None ->
  get_matrix_criteria self = (Raise not_authenticated, [])
  /\ update_matrix_criteria self criteria = (Raise not_authenticated, [])
  /\ get_capacity_model_data self = (Raise not_authenticated, [])
  /\ get_capacity_insights self = (Raise not_authenticated, [])
  /\ get_sales_data self = (Raise not_authenticated, [])
  /\ get_capacity_summary_data self = (Raise not_authenticated, [])
  /\ export_capacity_model_to_csv disk self filename
     = ((Raise not_authenticated, []), []).
Proof.
  intros Hnone.
  assert (Hread : forall sheet,
             read_sheet_data self sheet None = (Raise not_authenticated, []))
    by (intros sheet; unfold read_sheet_data; now rewrite Hnone).
  assert (Hdata : get_capacity_model_data self = (Raise not_authenticated, []))
    by (unfold get_capacity_model_data; now rewrite Hread).
  repeat split.
  - unfold get_matrix_criteria. now rewrite Hread.
  - unfold update_matrix_criteria, write_sheet_data. now rewrite Hnone.
  - exact Hdata.
  - unfold get_capacity_insights. now rewrite Hdata.
  - unfold get_sales_data. now rewrite Hread.
  - unfold get_capacity_summary_data. now rewrite Hread.
  - unfold export_capacity_model_to_csv. now rewrite Hdata.
Qed.

Lemma read_sheet_data_failed (self : GoogleSheetsIntegration) (svc : Service)
  (sheet : string) (e : exn) :
  service self = Some svc ->
  values_get svc (spreadsheet_id self) sheet = Raise e ->
  read_sheet_data self sheet None
  = (Ok [],
     [ValuesGet (spreadsheet_id self) sheet;
      Printed ("Error reading sheet " ++ sheet ++ ": " ++ exn_msg e)]).
Proof.
  intros Hsvc Hget.
  rewrite (read_sheet_data_authenticated self svc sheet None Hsvc).
  cbv zeta. change (range_spec sheet None) with sheet.
  now rewrite Hget.
Qed.

(** X2. When the API call that reads a sheet fails, the method reading that
    sheet does not fail: it returns its empty value ([{}], an empty frame,
    the empty file name) after the one line printed by [read_sheet_data],
    and the export adds its own line and writes no file. *)
Theorem failed_read_gives_empty_result
  (self : GoogleSheetsIntegration) (svc : Service) (disk : Disk)
  (filename : option string) (e : exn) :
  service self = Some svc ->
  let failed sheet :=
    [ValuesGet (spreadsheet_id self) sheet;
     Printed ("Error reading sheet " ++ sheet ++ ": " ++ exn_msg e)] in
  (values_get svc (spreadsheet_id self) "Matrix" = Raise e ->
     get_matrix_criteria self = (Ok [], failed "Matrix"))
  /\ (values_get svc (spreadsheet_id self) "Capacity Rep Projection" = Raise e ->
      get_capacity_model_data self
        = (Ok empty_frame, failed "Capacity Rep Projection")
      /\ get_capacity_insights self
         = (Ok None, failed "Capacity Rep Projection")
      /\ export_capacity_model_to_csv disk self filename
         = ((Ok "",
             failed "Capacity Rep Projection"
             ++ [Printed "No capacity model data to export"]), []))
  /\ (values_get svc (spreadsheet_id self) "Sheet1" = Raise e ->
      get_sales_data self = (Ok empty_frame, failed "Sheet1"))
  /\ (values_get svc (spreadsheet_id self) "Capacity Summary" = Raise e ->
      get_capacity_summary_data self = (Ok [], failed "Capacity Summary")).
Proof.
  intros Hsvc failed. split; [|split; [|split]]; intros Hget.
  - unfold get_matrix_criteria.
    now rewrite (read_sheet_data_failed self svc _ e Hsvc Hget).
  - pose proof (read_sheet_data_failed self svc _ e Hsvc Hget) as Hread.
    repeat split.
    + unfold get_capacity_model_data. now rewrite Hread.
    + unfold get_capacity_insights, get_capacity_model_data.
      now rewrite Hread.
    + unfold export_capacity_model_to_csv, get_capacity_model_data.
      now rewrite Hread.
  - unfold get_sales_data.
    now rewrite (read_sheet_data_failed self svc _ e Hsvc Hget).
  - unfold get_capacity_summary_data.
    now rewrite (read_sheet_data_failed self svc _ e Hsvc Hget).
Qed.

(** ** Authentication *)

(** X3. [authenticate] never changes the spreadsheet id, the credentials
    path or the scopes.  When it returns [True] the object holds the service
    that [build] returned; in every other case (it returns [False] or it
    raises) the object is left exactly as it was. *)
Theorem authenticate_changes_only_the_service
  (w : AuthWorld) (self : GoogleSheetsIntegration) :
  let after := snd (authenticate w self) in
  let outcome := fst (fst (authenticate w self)) in
  spreadsheet_id after = spreadsheet_id self
  /\ credentials_path after = credentials_path self
  /\ scopes after = scopes self
  /\ (outcome = Ok true ->
      exists creds svc,
        build w creds = Ok svc /\ after = set_service self svc)
  /\ (outcome <> Ok true -> after = self).
Proof.
  cbv zeta. unfold authenticate.
  assert (Hbuild : forall c,
    let run := match build w c with
               | Ok svc => (@ret bool true, set_service self svc)
               | Raise e =>
                   (print ("Authentication failed: " ++ exn_msg e) ;;;
                    ret false, self)
               end in
    spreadsheet_id (snd run) = spreadsheet_id self
    /\ credentials_path (snd run) = credentials_path self
    /\ scopes (snd run) = scopes self
    /\ (fst (fst run) = Ok true ->
        exists creds svc,
          build w creds = Ok svc /\ snd run = set_service self svc)
    /\ (fst (fst run) <> Ok true -> snd run = self)).
  { intros c. cbv zeta.
    destruct (build w c) as [svc|e] eqn:Hb; simpl.
    - repeat split; eauto; try (intros H; now contradiction H).
    - repeat split; try discriminate; reflexivity. }
  assert (Hraise : forall e : exn,
    spreadsheet_id self = spreadsheet_id self
    /\ credentials_path self = credentials_path self
    /\ scopes self = scopes self
    /\ (@Raise bool e = Ok true ->
        exists creds svc,
          build w creds = Ok svc /\ self = set_service self svc)
    /\ (@Raise bool e <> Ok true -> self = self)).
  { intros e. repeat split; try discriminate; reflexivity. }
  destruct (token_pickle w) as [[c|e]|]; simpl.
  - destruct (valid c); simpl; [apply Hbuild|].
    destruct (if expired c && refresh_token c then refresh w c
              else if credentials_file_exists w then run_flow w
              else Raise _) as [c'|e]; simpl; [|apply Hraise].
    destruct (dump_token w c') as [[]|e]; simpl; [apply Hbuild | apply Hraise].
  - apply Hraise.
  - destruct (if credentials_file_exists w then run_flow w else Raise _)
      as [c'|e]; simpl; [|apply Hraise].
    destruct (dump_token w c') as [[]|e]; simpl; [apply Hbuild | apply Hraise].
Qed.

(** X4. [authenticate] does not raise what [build] raises: an exception
    that leaves it comes from loading the token, refreshing it, the
    authorization flow or saving the token, or is the [FileNotFoundError]
    for the credentials file.  With a cached token that is valid it never
    raises, whether or not the credentials file exists; with no cached
    token and no credentials file it raises that [FileNotFoundError]. *)
Theorem authenticate_raises_only_before_build
  (w : AuthWorld) (self : GoogleSheetsIntegration) :
  (forall e,
     fst (fst (authenticate w self)) = Raise e ->
     token_pickle w = Some (Raise e)
     \/ (exists c, refresh w c = Raise e)
     \/ run_flow w = Raise e
     \/ (exists c, dump_token w c = Raise e)
     \/ e = credentials_not_found (credentials_path self))
  /\ (forall c,
        token_pickle w = Some (Ok c) -> valid c = true ->
        exists outcome, fst (fst (authenticate w self)) = Ok outcome)
  /\ (token_pickle w = None -> credentials_file_exists w = false ->
      authenticate w self
      = (raise (credentials_not_found (credentials_path self)), self)).
Proof.
  split; [|split].
  - intros e. unfold authenticate.
    assert (Hbuild : forall c,
      fst (fst (match build w c with
                | Ok svc => (@ret bool true, set_service self svc)
                | Raise e' =>
                    (print ("Authentication failed: " ++ exn_msg e') ;;;
                     ret false, self)
                end)) <> Raise e).
    { intros c. destruct (build w c); discriminate. }
    destruct (token_pickle w) as [[c|e0]|]; simpl.
    + destruct (valid c); simpl; [intros H; now apply Hbuild in H|].
      destruct (expired c && refresh_token c).
      * destruct (refresh w c) as [c'|e1] eqn:Hrefresh; simpl.
        -- destruct (dump_token w c') as [[]|e2] eqn:Hdump; simpl.
           ++ intros H; now apply Hbuild in H.
           ++ intros [= <-]. eauto 10.
        -- intros [= <-]. eauto 10.
      * destruct (credentials_file_exists w).
        -- destruct (run_flow w) as [c'|e1] eqn:Hflow; simpl.
           ++ destruct (dump_token w c') as [[]|e2] eqn:Hdump; simpl.
              ** intros H; now apply Hbuild in H.
              ** intros [= <-]. eauto 10.
           ++ intros [= <-]. auto.
        -- simpl. intros [= <-]. auto 10.
    + intros [= <-]. auto.
    + destruct (credentials_file_exists w).
      * destruct (run_flow w) as [c'|e1] eqn:Hflow; simpl.
        -- destruct (dump_token w c') as [[]|e2] eqn:Hdump; simpl.
           ++ intros H; now apply Hbuild in H.
           ++ intros [= <-]. eauto 10.
        -- intros [= <-]. auto.
      * simpl. intros [= <-]. auto 10.
  - intros c Htoken Hvalid. unfold authenticate.
    rewrite Htoken, Hvalid. destruct (build w c); simpl; eauto.
  - intros Htoken Hfile. unfold authenticate.
    rewrite Htoken, Hfile. reflexivity.
Qed.

(** ** Criteria repository *)

Lemma existsb_eqb_in (k : string) (l : list string) :
  existsb (String.eqb k) l = true <-> In k l.
Proof.
  rewrite existsb_exists. split.
  - intros (x & Hx & Heq). apply String.eqb_eq in Heq. now subst.
  - intros Hin. exists k. split; [assumption | apply String.eqb_refl].
Qed.

Lemma dict_keys_set {V : Type} (d : dict V) (k : string) (v : V) :
  dict_keys (dict_set d k v) = add_key (dict_keys d) k.
Proof.
  unfold add_key.
  destruct (existsb (String.eqb k) (dict_keys d)) eqn:Hin.
  - apply dict_keys_set_present. now apply existsb_eqb_in.
  - rewrite dict_set_fresh.
    + unfold dict_keys. now rewrite map_app.
    + intros H. apply existsb_eqb_in in H. congruence.
Qed.

Lemma load_rows_filter (rows : table) (acc : dict Criterion) :
  load_rows rows acc = load_rows (filter accepted rows) acc.
Proof.
  revert acc. induction rows as [|row rows IH]; intros acc; [reflexivity|].
  simpl. unfold load_row at 1.
  destruct (accepted row) eqn:Hacc.
  - simpl. unfold load_row. rewrite Hacc.
    destruct (row_criterion row); simpl; [apply IH | reflexivity].
  - apply IH.
Qed.

Lemma load_rows_keys (rows : table) (acc criteria : dict Criterion) :
  load_rows rows acc = Ok criteria ->
  dict_keys criteria
  = fold_left add_key
      (map (fun row => nth 0 row "") (filter accepted rows)) (dict_keys acc).
Proof.
  revert acc. induction rows as [|row rows IH]; intros acc; simpl.
  - now intros [= <-].
  - unfold load_row. destruct (accepted row); [|apply IH].
    destruct (row_criterion row) as [criterion|e]; simpl; [|discriminate].
    intros Hload. rewrite (IH _ Hload). now rewrite dict_keys_set.
Qed.

Lemma get_matrix_criteria_fst (self : GoogleSheetsIntegration) (svc : Service)
  (data : table) :
  service self = Some svc ->
  values_get svc (spreadsheet_id self) "Matrix" = Ok (Some data) ->
  fst (get_matrix_criteria self) = load_rows (filter accepted (tl data)) [].
Proof.
  intros Hsvc Hget.
  rewrite (get_matrix_criteria_authenticated self svc data Hsvc Hget).
  cbn [fst]. rewrite <- load_rows_filter.
  destruct (Nat.ltb_spec (length data) 2) as [Hlt|Hge]; [|reflexivity].
  destruct data as [|header [|row rest]]; simpl in *; try lia; reflexivity.
Qed.

(** X5. The keys of the dict [get_matrix_criteria] returns are the roles of
    the accepted rows in the order of their first appearance in the sheet;
    a repeated role keeps the place of its first row. *)
Theorem criteria_keys_in_order_of_first_appearance
  (self : GoogleSheetsIntegration) (svc : Service) (data : table)
  (criteria : dict Criterion) :
  service self = Some svc ->
  values_get svc (spreadsheet_id self) "Matrix" = Ok (Some data) ->
  fst (get_matrix_criteria self) = Ok criteria ->
  dict_keys criteria
  = first_occurrences
      (map (fun row => nth 0 row "") (filter accepted (tl data))).
Proof.
  intros Hsvc Hget Hrun.
  rewrite (get_matrix_criteria_fst self svc data Hsvc Hget) in Hrun.
  rewrite <- load_rows_filter in Hrun.
  apply load_rows_keys in Hrun. exact Hrun.
Qed.

(** X6. The outcome of [get_matrix_criteria] depends only on the accepted
    rows below the header: two sheets whose accepted rows are the same give
    the same dict or the same exception, whatever their headers and their
    other rows hold. *)
Theorem criteria_depend_on_accepted_rows_only
  (self1 self2 : GoogleSheetsIntegration) (svc1 svc2 : Service)
  (data1 data2 : table) :
  service self1 = Some svc1 ->
  service self2 = Some svc2 ->
  values_get svc1 (spreadsheet_id self1) "Matrix" = Ok (Some data1) ->
  values_get svc2 (spreadsheet_id self2) "Matrix" = Ok (Some data2) ->
  filter accepted (tl data1) = filter accepted (tl data2) ->
  fst (get_matrix_criteria self1) = fst (get_matrix_criteria self2).
Proof.
  intros Hsvc1 Hsvc2 Hget1 Hget2 Hsame.
  rewrite (get_matrix_criteria_fst self1 svc1 data1 Hsvc1 Hget1).
  rewrite (get_matrix_criteria_fst self2 svc2 data2 Hsvc2 Hget2).
  now rewrite Hsame.
Qed.

(** X7. When [float] rejects a bound of an accepted row, and the bounds of
    the accepted rows above it are read, [get_matrix_criteria] raises the
    exception of [float] and returns no dict at all: the third cell is
    read before the fourth, and nothing is printed. *)
Theorem unreadable_bound_aborts_the_load
  (self : GoogleSheetsIntegration) (svc : Service) (data : table)
  (before after : table) (row : list string) (e : exn) :
  service self = Some svc ->
  values_get svc (spreadsheet_id self) "Matrix" = Ok (Some data) ->
  tl data = before ++ row :: after ->
  Forall (fun r => accepted r = true -> bounds_readable r = true) before ->
  accepted row = true ->
  (truthy (nth 2 row "") = true /\ py_float (nth 2 row "") = Raise e)
  \/ ((truthy (nth 2 row "") = false
       \/ exists f, py_float (nth 2 row "") = Ok f)
      /\ truthy (nth 3 row "") = true
      /\ py_float (nth 3 row "") = Raise e) ->
  get_matrix_criteria self
  = (Raise e, [ValuesGet (spreadsheet_id self) "Matrix"]).
Proof.
  intros Hsvc Hget Htl Hbefore Hacc Hbad.
  rewrite (get_matrix_criteria_authenticated self svc data Hsvc Hget).
  assert (Hlen : (length data <? 2)%nat = false).
  { apply Nat.ltb_ge. destruct data as [|header [|r rest]]; simpl in *;
      try lia; destruct before; discriminate. }
  rewrite Hlen, Htl, load_rows_app.
  destruct (load_rows_total before [] Hbefore) as [c1 ->].
  cbn [and_then load_rows]. unfold load_row. rewrite Hacc.
  assert (Hlong : (4 <= length row)%nat).
  { unfold accepted in Hacc.
    apply andb_true_iff in Hacc as [Hacc _].
    apply andb_true_iff in Hacc as [Hacc _].
    now apply Nat.leb_le. }
  assert (H2 : (2 <? length row)%nat = true) by (apply Nat.ltb_lt; lia).
  assert (H3 : (3 <? length row)%nat = true) by (apply Nat.ltb_lt; lia).
  unfold row_criterion, sales_bound. rewrite H2, H3. cbn [andb].
  destruct Hbad as [[Ht2 Hf2]|[Hgood [Ht3 Hf3]]].
  - rewrite Ht2, Hf2. reflexivity.
  - rewrite Ht3, Hf3.
    destruct Hgood as [Ht2|[f Hf2]].
    + rewrite Ht2. reflexivity.
    + rewrite Hf2. destruct (truthy (nth 2 row "")); reflexivity.
Qed.

Lemma Forall_dict_set {V : Type} (P : string * V -> Prop) (d : dict V)
  (k : string) (v : V) :
  Forall P d -> P (k, v) -> Forall P (dict_set d k v).
Proof.
  intros Hd Hkv. induction Hd as [|[k' v'] d' Hhead Htail IH]; simpl.
  - now constructor.
  - destruct (String.eqb k k'); constructor; assumption.
Qed.

Lemma sales_bound_value (row : list string) (i : nat) (default bound : pynum) :
  sales_bound row i default = Ok bound ->
  bound = default \/ exists f, bound = PyFloat f.
Proof.
  unfold sales_bound.
  destruct ((i <? length row)%nat && truthy (nth i row "")).
  - destruct (py_float (nth i row "")) as [f|e]; [|discriminate].
    intros [= <-]. eauto.
  - intros [= <-]. now left.
Qed.

Lemma load_rows_loaded (rows : table) (acc criteria : dict Criterion) :
  Forall loaded_criterion acc ->
  load_rows rows acc = Ok criteria ->
  Forall loaded_criterion criteria.
Proof.
  revert acc. induction rows as [|row rows IH]; intros acc Hacc; simpl.
  - now intros [= <-].
  - unfold load_row. destruct (accepted row) eqn:Hrow; [|now apply IH].
    destruct (row_criterion row) as [criterion|e] eqn:Hcrit; simpl;
      [|discriminate].
    apply IH. apply Forall_dict_set; [assumption|].
    destruct (row_criterion_bounds row criterion Hcrit)
      as (lo & hi & Hlo & Hhi & ->).
    unfold accepted in Hrow.
    apply andb_true_iff in Hrow as [Hrow Hkeywords].
    apply andb_true_iff in Hrow as [_ Hrole].
    split; [exact Hrole|].
    exists (nth 1 row ""), lo, hi. repeat split; try assumption.
    + exact (sales_bound_value row 2 _ lo Hlo).
    + exact (sales_bound_value row 3 _ hi Hhi).
Qed.

(** X8. Every item of a dict returned by [get_matrix_criteria] has a
    non-empty role and carries all three keys, with non-empty keywords, a
    [minSales] that is the integer 0 or a float and a [maxSales] that is
    the integer 999999999 or a float; so no rule with an empty role or
    empty keywords is ever loaded. *)
Theorem loaded_criteria_are_complete
  (self : GoogleSheetsIntegration) (criteria : dict Criterion) :
  fst (get_matrix_criteria self) = Ok criteria ->
  Forall loaded_criterion criteria.
Proof.
  unfold get_matrix_criteria, bind, ret, lift.
  destruct (read_sheet_data self "Matrix" None) as [[data|e] trace];
    [|discriminate].
  destruct (length data <? 2)%nat; simpl.
  - intros [= <-]. constructor.
  - apply load_rows_loaded. constructor.
Qed.

(** X9. With a service, [update_matrix_criteria] sends one update of the
    Matrix sheet with raw values: the header row followed by one row of
    exactly four cells per item of the dict, in the order of the dict.  It
    returns [True] exactly when that API call does not raise. *)
Theorem update_sends_four_column_table
  (self : GoogleSheetsIntegration) (svc : Service)
  (criteria : dict Criterion) :
  service self = Some svc ->
  exists done line rows,
    update_matrix_criteria self criteria
    = (Ok done,
       [ValuesUpdate (spreadsheet_id self) "Matrix" "RAW"
          (matrix_header :: rows);
        Printed line])
    /\ length rows = length criteria
    /\ Forall (fun cells => length cells = 4%nat) (matrix_header :: rows)
    /\ map (fun cells => nth 0 cells (CStr "")) rows
       = map (fun item => CStr (fst item)) criteria
    /\ (done = true <->
        exists updated,
          values_update svc (spreadsheet_id self) "Matrix"
            (matrix_header :: rows) = Ok updated).
Proof.
  intros Hsvc. unfold update_matrix_criteria.
  rewrite (write_sheet_data_authenticated self svc _ _ None Hsvc).
  cbv zeta. change (range_spec "Matrix" None) with "Matrix".
  unfold matrix_rows.
  assert (Hshape : length (map criterion_row criteria) = length criteria
            /\ Forall (fun cells => length cells = 4%nat)
                 (matrix_header :: map criterion_row criteria)
            /\ map (fun cells => nth 0 cells (CStr ""))
                 (map criterion_row criteria)
               = map (fun item => CStr (fst item)) criteria).
  { split; [apply length_map|]. split.
    - constructor; [reflexivity|]. apply Forall_forall.
      intros cells Hin. apply in_map_iff in Hin as ([role c] & <- & _).
      reflexivity.
    - rewrite map_map. apply map_ext. intros [role c]. reflexivity. }
  destruct Hshape as (Hlen & Hcells & Hroles).
  destruct (values_update svc _ _ _) as [updated|e] eqn:Hupdate.
  - eexists _, _, _. split; [reflexivity|].
    repeat split; try assumption. eauto.
  - eexists _, _, _. split; [reflexivity|].
    repeat split; try assumption; try discriminate.
    intros [updated H]. rewrite Hupdate in H. discriminate H.
Qed.

(** ** Webhook trigger *)

(** X10. Whatever the webhook does, [trigger_capacity_model_generation]
    sends exactly one post, with the action ["generate_capacity_model"],
    the current time and a timeout of 30 seconds, and then prints exactly
    one line; it never tries again.  When it returns [True] the line is the
    success message. *)
Theorem trigger_posts_once_and_prints_once (net : Network) (url : string) :
  exists report,
    snd (trigger_capacity_model_generation net url)
    = [HttpPost url
         {| action := "generate_capacity_model";
            timestamp := now_isoformat net |} 30;
       report]
    /\ ((exists line, report = Printed line)
        \/ (exists message, report = PrintedJson "Error: " message))
    /\ (fst (trigger_capacity_model_generation net url) = Ok true ->
        report = Printed "Capacity model generated successfully").
Proof.
  unfold trigger_capacity_model_generation,
    try_except, bind, emit, lift, print, emit, ret, webhook_payload.
  cbv zeta. simpl.
  destruct (requests_post net url _) as [resp|e]; simpl.
  2:{ eexists. split; [reflexivity|]. split; [eauto | discriminate]. }
  destruct (status_code resp =? 200)%Z; simpl.
  2:{ eexists. split; [reflexivity|]. split; [eauto | discriminate]. }
  destruct (json_body resp) as [body|e]; simpl.
  2:{ eexists. split; [reflexivity|]. split; [eauto | discriminate]. }
  destruct (json_get body "status") as [status|e] eqn:Hstatus; simpl.
  2:{ eexists. split; [reflexivity|]. split; [eauto | discriminate]. }
  destruct (json_is_string status "success"); simpl.
  - eexists. split; [reflexivity|]. split; [eauto | reflexivity].
  - destruct (json_get body "message") as [message|e] eqn:Hmessage; simpl.
    + eexists. split; [reflexivity|]. split; [eauto | discriminate].
    + eexists. split; [reflexivity|]. split; [eauto | discriminate].
Qed.

(** ** Capacity data *)

Lemma coerce_column_inv (col : string) (df df1 : DataFrame) :
  coerce_column col df = Ok df1 ->
  exists i,
    index_of col (df_columns df) = Some i
    /\ df_columns df1 = df_columns df
    /\ df_rows df1 = map (coerce_row i) (df_rows df).
Proof.
  unfold coerce_column.
  destruct (index_of col (df_columns df)) as [i|]; [|discriminate].
  destruct (1 <? count_label col (df_columns df))%nat; [discriminate|].
  intros [= <-]. exists i. split; [reflexivity|]. split; [reflexivity|].
  apply (set_column_at_rows i
           (fun c => DNum (fillna 0 (to_numeric_cell c))) df).
Qed.

Lemma coerce_columns_indices (cols : list string) (df df' : DataFrame) :
  coerce_columns cols df = Ok df' ->
  df_columns df' = df_columns df
  /\ exists indices,
       df_rows df' = map (coerce_at indices) (df_rows df)
       /\ forall i, In i indices ->
            exists label,
              In label cols /\ index_of label (df_columns df) = Some i.
Proof.
  revert df. induction cols as [|col rest IH]; intros df; simpl.
  - intros [= <-]. split; [reflexivity|]. exists []. split.
    + simpl. now rewrite map_id.
    + intros i [].
  - destruct (has_column col df).
    + destruct (coerce_column col df) as [df1|e] eqn:Hcol; [|discriminate].
      intros Hrest.
      destruct (coerce_column_inv col df df1 Hcol) as (i & Hi & Hcols1 & Hrows1).
      destruct (IH df1 Hrest) as (Hcols & indices & Hrows & Hidx).
      split; [congruence|]. exists (i :: indices). split.
      * rewrite Hrows, Hrows1, map_map. reflexivity.
      * intros j [<-|Hj]; [exists col; auto|].
        destruct (Hidx j Hj) as (label & Hin & Hlabel).
        exists label. split; [now right | now rewrite <- Hcols1].
    + intros Hrest.
      destruct (IH df Hrest) as (Hcols & indices & Hrows & Hidx).
      split; [assumption|]. exists indices. split; [assumption|].
      intros j Hj. destruct (Hidx j Hj) as (label & Hin & Hlabel).
      exists label. auto.
Qed.

(** X11. [get_capacity_model_data] leaves every column whose label is not
    one of the six numeric labels as the sheet has it: each cell is the
    text of the sheet, or missing where the row is too short. *)
Theorem other_columns_are_left_as_text
  (self : GoogleSheetsIntegration) (svc : Service) (data : table)
  (df : DataFrame) :
  service self = Some svc ->
  values_get svc (spreadsheet_id self) "Capacity Rep Projection"
    = Ok (Some data) ->
  fst (get_capacity_model_data self) = Ok df ->
  forall j label k row,
    nth_error (hd [] data) j = Some label ->
    ~ In label numeric_columns ->
    nth_error (tl data) k = Some row ->
    exists out,
      nth_error (df_rows df) k = Some out
      /\ nth j out DNone
         = match nth_error row j with
           | Some text => DStr text
           | None => DNone
           end.
Proof.
  intros Hsvc Hget Hrun j label k row Hj Hother Hk.
  rewrite (get_capacity_model_data_authenticated self svc data Hsvc Hget)
    in Hrun.
  cbn [fst] in Hrun. destruct data as [|header rows]; [now destruct k|].
  cbn [hd tl] in *.
  destruct (make_frame rows header) as [df0|e] eqn:Hframe; [|discriminate].
  cbn [and_then] in Hrun.
  destruct (make_frame_ok rows header (make_frame_inv _ _ _ Hframe))
    as (df0' & Hframe' & Hcols0 & Hrows0 & _).
  rewrite Hframe in Hframe'. injection Hframe' as <-.
  destruct (coerce_columns_indices _ _ _ Hrun) as (_ & indices & Hrows & Hidx).
  exists (coerce_at indices (pad (length header) row)). split.
  - rewrite Hrows, Hrows0, map_map, nth_error_map, Hk. reflexivity.
  - rewrite coerce_at_nth_out; [apply nth_pad|].
    intros Hin. destruct (Hidx j Hin) as (numeric & Hnumeric & Hindex).
    rewrite Hcols0 in Hindex. apply index_of_nth_error in Hindex.
    apply Hother. congruence.
Qed.

Lemma coerce_columns_raise (cols : list string) (df : DataFrame) (e : exn) :
  coerce_columns cols df = Raise e ->
  e = Exn "TypeError" "arg must be a list, tuple, 1-d array, or Series".
Proof.
  revert df. induction cols as [|col rest IH]; intros df; simpl;
    [discriminate|].
  destruct (has_column col df) eqn:Hhas; [|apply IH].
  destruct (coerce_column col df) as [df1|e1] eqn:Hcol; [apply IH|].
  intros [= <-]. unfold coerce_column in Hcol.
  apply has_column_index_of in Hhas as [i Hi]. rewrite Hi in Hcol.
  destruct (1 <? count_label col (df_columns df))%nat; [|discriminate].
  now injection Hcol as <-.
Qed.

(** X12. The failures of building the frame are not caught by
    [get_capacity_model_data].  When the sheet has data rows and the widest
    of them does not have exactly as many cells as the header, the
    [ValueError] of the frame constructor leaves the method; when the frame
    can be built and one of the six numeric labels occurs twice in the
    header, the [TypeError] of [to_numeric] does. *)
Theorem ragged_sheet_or_repeated_label_raises
  (self : GoogleSheetsIntegration) (svc : Service)
  (header : list string) (rows : table) :
  service self = Some svc ->
  values_get svc (spreadsheet_id self) "Capacity Rep Projection"
    = Ok (Some (header :: rows)) ->
  (rows <> [] -> widest rows <> length header ->
     exists message,
       get_capacity_model_data self
       = (Raise (Exn "ValueError" message),
          [ValuesGet (spreadsheet_id self) "Capacity Rep Projection"]))
  /\ (rows = [] \/ widest rows = length header ->
      (exists label,
         In label numeric_columns /\ (1 < count_label label header)%nat) ->
      get_capacity_model_data self
      = (Raise (Exn "TypeError"
                    "arg must be a list, tuple, 1-d array, or Series"),
         [ValuesGet (spreadsheet_id self) "Capacity Rep Projection"])).
Proof.
  intros Hsvc Hget.
  rewrite (get_capacity_model_data_authenticated self svc _ Hsvc Hget).
  split.
  - intros Hrows Hwide. unfold make_frame.
    destruct rows as [|row rows']; [now contradiction Hrows|].
    destruct (Nat.eqb_spec (widest (row :: rows')) (length header));
      [contradiction|].
    eexists. reflexivity.
  - intros Hshape (label & Hin & Htwice).
    destruct (make_frame_ok rows header Hshape) as (df0 & -> & Hcols0 & _).
    cbn [and_then].
    destruct (coerce_columns numeric_columns df0) as [df|e] eqn:Hrun.
    + pose proof (coerce_columns_inv _ _ _ Hrun label Hin) as Hcount.
      rewrite Hcols0 in Hcount. lia.
    + now rewrite (coerce_columns_raise _ _ _ Hrun).
Qed.

(** ** Insights *)

Lemma index_of_absent (label : string) (columns : list string) :
  count_label label columns = 0%nat -> index_of label columns = None.
Proof.
  unfold count_label.
  induction columns as [|c rest IH]; simpl; [reflexivity|].
  destruct (String.eqb label c); simpl; [discriminate|].
  intros H. now rewrite (IH H).
Qed.

Lemma series_absent (df : DataFrame) (label : string) :
  count_label label (df_columns df) = 0%nat ->
  series df label = Raise (Exn "KeyError" label).
Proof.
  intros H. unfold series. now rewrite (index_of_absent _ _ H).
Qed.

Lemma top_performer_defined (df : DataFrame) (sales : list Q) :
  series df "Sales ($)" = Ok sales ->
  df_empty df = false ->
  exists top_dict,
    (if negb (df_empty df)
     then and_then (idxmax sales) (fun top =>
          and_then (loc df top) (fun top_row =>
          Ok (to_dict (df_columns df) top_row)))
     else Ok []) = Ok top_dict.
Proof.
  intros Hsales Hempty. rewrite Hempty. cbn [negb].
  pose proof (series_length _ _ _ Hsales) as Hlen.
  destruct (idxmax sales) as [top|e] eqn:Htop.
  - cbn [and_then].
    destruct (idxmax_spec sales top Htop) as (m & Hm & _).
    assert (Hlt : (top < length (df_rows df))%nat).
    { rewrite <- Hlen. apply nth_error_Some. congruence. }
    unfold loc.
    destruct (nth_error (df_rows df) top) as [row|] eqn:Hrow.
    + cbn [and_then]. eauto.
    + apply nth_error_None in Hrow. lia.
  - exfalso. unfold df_empty in Hempty.
    apply orb_false_iff in Hempty as [_ Hrows].
    apply Nat.eqb_neq in Hrows.
    destruct sales; [simpl in Hlen; lia | discriminate].
Qed.

(** X13. [get_capacity_insights] needs all six numeric columns.  On a sheet
    with data from which the frame is built, if one of the six labels is
    missing from the header the method raises [KeyError] for the first
    missing label, in the order sales, admin, prod spec, sr prod, team
    lead, international. *)
Theorem missing_numeric_column_raises_key_error
  (self : GoogleSheetsIntegration) (svc : Service)
  (header : list string) (rows : table) :
  service self = Some svc ->
  values_get svc (spreadsheet_id self) "Capacity Rep Projection"
    = Ok (Some (header :: rows)) ->
  header <> [] -> rows <> [] ->
  widest rows = length header ->
  (forall label, In label numeric_columns ->
     (count_label label header <= 1)%nat) ->
  (exists label,
     In label numeric_columns /\ count_label label header = 0%nat) ->
  exists before label after,
    numeric_columns = before ++ label :: after
    /\ (forall present, In present before ->
          count_label present header = 1%nat)
    /\ count_label label header = 0%nat
    /\ fst (get_capacity_insights self) = Raise (Exn "KeyError" label).
Proof.
  intros Hsvc Hget Hheader Hrows Hwide Hcount Hmissing.
  destruct (capacity_frame_rows self svc (header :: rows) Hsvc Hget
              (or_intror Hwide) Hcount)
    as (df & indices & Hrun & Hcols & Hdf & Hidx).
  cbn [hd tl] in Hcols, Hdf, Hidx.
  assert (Hempty : df_empty df = false).
  { unfold df_empty. rewrite Hcols, Hdf, length_map.
    apply orb_false_iff. split; apply Nat.eqb_neq.
    - destruct header; [now contradiction Hheader | discriminate].
    - destruct rows; [now contradiction Hrows | discriminate]. }
  assert (Hpresent : forall label,
             In label numeric_columns ->
             count_label label header <> 0%nat ->
             count_label label header = 1%nat
             /\ exists values, series df label = Ok values).
  { intros label Hin Hnz. pose proof (Hcount label Hin) as Hle.
    split; [lia|].
    destruct (count_label_index_of label header) as [i Hi]; [lia|].
    eexists. apply (series_coerced df header rows indices label i); auto.
    - intros row Hrow. rewrite <- Hwide. now apply length_le_widest.
    - now apply (Hidx label i). }
  assert (Habsent : forall label,
             count_label label header = 0%nat ->
             series df label = Raise (Exn "KeyError" label)).
  { intros label Hz. apply series_absent. now rewrite Hcols. }
  rewrite (get_capacity_insights_fst self df) by now rewrite Hrun.
  unfold insights_of_frame. rewrite Hempty. unfold summarize.
  destruct (Nat.eq_dec (count_label "Sales ($)" header) 0) as [Hz|Hnz].
  { exists [], "Sales ($)", (tl numeric_columns).
    rewrite (Habsent _ Hz). repeat split; auto. intros present []. }
  destruct (Hpresent "Sales ($)") as (H1 & sales & Hsales);
    [simpl; auto 10 | assumption |].
  rewrite Hsales. cbn [and_then].
  destruct (top_performer_defined df sales Hsales Hempty) as [top_dict ->].
  cbn [and_then].
  destruct (Nat.eq_dec (count_label "Admin Count" header) 0) as [Hz2|Hnz2].
  { exists ["Sales ($)"], "Admin Count", (skipn 2 numeric_columns).
    rewrite (Habsent _ Hz2). repeat split; auto.
    intros present [<-|[]]. assumption. }
  destruct (Hpresent "Admin Count") as (H2 & a & ->);
    [simpl; auto 10 | assumption |].
  cbn [and_then].
  destruct (Nat.eq_dec (count_label "Prod Spec Count" header) 0)
    as [Hz3|Hnz3].
  { exists ["Sales ($)"; "Admin Count"], "Prod Spec Count",
      (skipn 3 numeric_columns).
    rewrite (Habsent _ Hz3). repeat split; auto.
    intros present [<-|[<-|[]]]; assumption. }
  destruct (Hpresent "Prod Spec Count") as (H3 & p & ->);
    [simpl; auto 10 | assumption |].
  cbn [and_then].
  destruct (Nat.eq_dec (count_label "Sr. Prod Count" header) 0)
    as [Hz4|Hnz4].
  { exists ["Sales ($)"; "Admin Count"; "Prod Spec Count"], "Sr. Prod Count",
      (skipn 4 numeric_columns).
    rewrite (Habsent _ Hz4). repeat split; auto.
    intros present [<-|[<-|[<-|[]]]]; assumption. }
  destruct (Hpresent "Sr. Prod Count") as (H4 & s & ->);
    [simpl; auto 10 | assumption |].
  cbn [and_then].
  destruct (Nat.eq_dec (count_label "Team Lead Count" header) 0)
    as [Hz5|Hnz5].
  { exists ["Sales ($)"; "Admin Count"; "Prod Spec Count"; "Sr. Prod Count"],
      "Team Lead Count", (skipn 5 numeric_columns).
    rewrite (Habsent _ Hz5). repeat split; auto.
    intros present [<-|[<-|[<-|[<-|[]]]]]; assumption. }
  destruct (Hpresent "Team Lead Count") as (H5 & t & ->);
    [simpl; auto 10 | assumption |].
  cbn [and_then].
  destruct (Nat.eq_dec (count_label "Intl Project Count" header) 0)
    as [Hz6|Hnz6].
  { exists ["Sales ($)"; "Admin Count"; "Prod Spec Count"; "Sr. Prod Count";
            "Team Lead Count"], "Intl Project Count", [].
    rewrite (Habsent _ Hz6). repeat split; auto.
    intros present [<-|[<-|[<-|[<-|[<-|[]]]]]]; assumption. }
  exfalso. destruct Hmissing as (label & Hin & Hzero).
  simpl in Hin.
  repeat (destruct Hin as [<-|Hin]; [congruence|]). exact Hin.
Qed.

(** X14. On a capacity sheet with data the summary counts one
    representative per data row, and its total and its average sales are
    the sum and the mean pandas takes of the sales column of the frame,
    whose values are, row by row in the order of the sheet, the number in
    the sales cell, or 0 where that cell does not parse or is missing. *)
Theorem sales_figures_cover_every_data_row
  (self : GoogleSheetsIntegration) (svc : Service) (data : table) :
  service self = Some svc ->
  values_get svc (spreadsheet_id self) "Capacity Rep Projection"
    = Ok (Some data) ->
  capacity_table data = true ->
  exists insights i,
    fst (get_capacity_insights self) = Ok (Some insights)
    /\ index_of "Sales ($)" (hd [] data) = Some i
    /\ total_sales_reps insights = length (tl data)
    /\ total_sales insights
       = series_sum "Sales ($)"
           (map (fun row => coerced_value (nth_error row i)) (tl data))
    /\ avg_sales_per_rep insights
       = Some (mean_of "Sales ($)"
                 (map (fun row => coerced_value (nth_error row i))
                      (tl data))).
Proof.
  intros Hsvc Hget Htable.
  destruct (capacity_table_insights self svc data Hsvc Hget Htable)
    as (df & insights & Hdf & Hempty & Hsum & Hinsights).
  destruct data as [|header rows]; [discriminate|].
  unfold capacity_table in Htable.
  apply andb_true_iff in Htable as [Htable Hlabels].
  apply andb_true_iff in Htable as [_ Hwide].
  apply Nat.eqb_eq in Hwide.
  rewrite forallb_forall in Hlabels.
  assert (Hcount : forall label, In label numeric_columns ->
                                 count_label label header = 1%nat).
  { intros label Hin. apply Nat.eqb_eq. now apply Hlabels. }
  destruct (capacity_frame_rows self svc (header :: rows) Hsvc Hget)
    as (df' & indices & Hrun & Hcols & Hrows & Hidx).
  { right. exact Hwide. }
  { intros label Hin. simpl. rewrite (Hcount label Hin). lia. }
  rewrite Hrun in Hdf. cbn [fst] in Hdf. injection Hdf as ->.
  cbn [hd tl] in *.
  assert (Hsales_in : In "Sales ($)" numeric_columns) by (simpl; auto).
  destruct (count_label_index_of "Sales ($)" header) as [i Hi];
    [rewrite (Hcount _ Hsales_in); lia|].
  assert (Hseries : series df "Sales ($)"
                    = Ok (map (fun row => coerced_value (nth_error row i))
                              rows)).
  { apply (series_coerced df header rows indices "Sales ($)" i); auto.
    - intros row Hrow. rewrite <- Hwide. now apply length_le_widest.
    - now apply (Hidx "Sales ($)" i).
    - rewrite (Hcount _ Hsales_in). lia. }
  destruct (summarize_inv df insights Hsum)
    as (sales & top & a & p & s & t & n & Hsales & _ & _ & _ & _ & _ & _
        & Hreps & Havg & _ & Htotal & _).
  rewrite Hseries in Hsales. injection Hsales as <-.
  exists insights, i. repeat split; try assumption.
  - rewrite Hreps, Hrows. apply length_map.
  - rewrite Havg. destruct rows as [|row rest]; [|reflexivity].
    exfalso. unfold df_empty in Hempty. rewrite Hrows in Hempty.
    simpl in Hempty. now rewrite orb_true_r in Hempty.
Qed.


(** ** Export *)

(** X16. When the frame of [get_capacity_model_data] is empty,
    [export_capacity_model_to_csv] writes no file and returns the empty
    file name after printing that there is nothing to export, whatever
    file name it was given. *)
Theorem export_of_empty_data_writes_nothing
  (disk : Disk) (self : GoogleSheetsIntegration) (filename : option string)
  (df : DataFrame) :
  fst (get_capacity_model_data self) = Ok df ->
  df_empty df = true ->
  export_capacity_model_to_csv disk self filename
  = ((Ok "",
      snd (get_capacity_model_data self)
      ++ [Printed "No capacity model data to export"]), []).
Proof.
  intros Hdf Hempty. unfold export_capacity_model_to_csv.
  destruct (get_capacity_model_data self) as [[df'|e] trace];
    simpl in Hdf; [|discriminate].
  injection Hdf as ->. now rewrite Hempty.
Qed.

(** X17. When the frame is not empty, [export_capacity_model_to_csv] hands
    exactly that frame to [to_csv], once, under the given file name, or
    under [capacity_model_<date>.csv] when no name or an empty name is
    given.  The name is never empty; it is returned, after one printed
    line, when the file is written, and the exception of [to_csv] leaves
    the method when it is not. *)
Theorem export_writes_the_frame_once
  (disk : Disk) (self : GoogleSheetsIntegration) (filename : option string)
  (df : DataFrame) :
  fst (get_capacity_model_data self) = Ok df ->
  df_empty df = false ->
  let name := csv_name disk filename in
  snd (export_capacity_model_to_csv disk self filename) = [(name, df)]
  /\ truthy name = true
  /\ (filename = None \/ filename = Some "" ->
      name = ("capacity_model_" ++ today disk ++ ".csv")%string)
  /\ (to_csv disk name df = Ok tt ->
      fst (export_capacity_model_to_csv disk self filename)
      = (Ok name,
         snd (get_capacity_model_data self)
         ++ [Printed ("Capacity model exported to " ++ name)]))
  /\ (forall e,
        to_csv disk name df = Raise e ->
        fst (fst (export_capacity_model_to_csv disk self filename))
        = Raise e).
Proof.
  intros Hdf Hempty. cbv zeta.
  unfold export_capacity_model_to_csv, csv_name.
  destruct (get_capacity_model_data self) as [[df'|e] trace];
    simpl in Hdf; [|discriminate].
  injection Hdf as ->. rewrite Hempty.
  set (name := match filename with
               | Some given =>
                   if truthy given then given else default_csv_name disk
               | None => default_csv_name disk
               end).
  assert (Hname : truthy name = true).
  { unfold name. destruct filename as [given|]; [|reflexivity].
    destruct (truthy given) eqn:Hgiven; [exact Hgiven | reflexivity]. }
  assert (Hdefault : filename = None \/ filename = Some "" ->
                     name = ("capacity_model_" ++ today disk ++ ".csv")%string).
  { unfold name. intros [->| ->]; reflexivity. }
  destruct (to_csv disk name df) as [[]|e]; cbn [fst snd].
  - repeat split; try assumption. intros e. discriminate.
  - repeat split; try assumption; try discriminate.
    intros e' [= <-]. reflexivity.
Qed.

(** ** Summary sheet *)

Lemma float_or_zero_total (text : string) :
  (forall s e, py_float s = Raise e -> value_or_type_error e = true) ->
  float_or_zero text = Ok SFloatZero
  \/ exists f, float_or_zero text = Ok (SFloat f).
Proof.
  intros Hfloat. unfold float_or_zero.
  destruct (py_float text) as [f|e] eqn:Hrun; [eauto|].
  rewrite (Hfloat _ _ Hrun). now left.
Qed.

Lemma summary_rows_total (rows : table) (summary : dict summary_value) :
  (forall s e, py_int s = Raise e -> value_or_type_error e = true) ->
  (forall s e, py_float s = Raise e -> value_or_type_error e = true) ->
  exists filled, summary_rows rows summary = Ok filled.
Proof.
  intros Hint Hfloat. revert summary.
  induction rows as [|row rows IH]; intros summary; simpl; [eauto|].
  unfold summary_row.
  destruct ((2 <=? length row)%nat && truthy (nth 0 row "")
            && truthy (nth 1 row "")); [|apply IH].
  cbv zeta. unfold summary_value_of.
  destruct (key_in _ count_keys).
  - destruct (py_int (nth 1 row "")) as [z|e] eqn:Hrun; simpl; [apply IH|].
    rewrite (Hint _ _ Hrun). simpl. apply IH.
  - destruct (key_in _ money_keys).
    + destruct (float_or_zero_total
                  (remove_char ","%char (remove_char "$"%char (nth 1 row "")))
                  Hfloat) as [-> | [f ->]]; simpl; apply IH.
    + destruct (contains _ "Percentage").
      * destruct (float_or_zero_total
                    (remove_char "%"%char (nth 1 row "")) Hfloat)
          as [-> | [f ->]]; simpl; apply IH.
      * simpl. apply IH.
Qed.

(** X18. With a service, and with [int] and [float] raising nothing but
    [ValueError] or [TypeError], [get_capacity_summary_data] never raises:
    a failed read, an empty sheet and unreadable numbers all end in a
    dict. *)
Theorem summary_data_never_raises
  (self : GoogleSheetsIntegration) (svc : Service) :
  service self = Some svc ->
  (forall s e, py_int s = Raise e -> value_or_type_error e = true) ->
  (forall s e, py_float s = Raise e -> value_or_type_error e = true) ->
  exists summary, fst (get_capacity_summary_data self) = Ok summary.
Proof.
  intros Hsvc Hint Hfloat. unfold get_capacity_summary_data.
  rewrite (read_sheet_data_authenticated self svc _ None Hsvc).
  cbv zeta. unfold bind, ret, lift.
  destruct (values_get svc _ _) as [[[|row rows]|]|e].
  2:{ destruct (summary_rows_total (row :: rows) [] Hint Hfloat)
        as [filled Hfilled].
      exists filled. cbn -[summary_rows]. now rewrite Hfilled. }
  all: cbn; eauto.
Qed.

Lemma float_or_zero_value (text : string) (value : summary_value) :
  float_or_zero text = Ok value ->
  value = SFloatZero \/ exists f, value = SFloat f.
Proof.
  unfold float_or_zero. destruct (py_float text) as [f|e].
  - intros [= <-]. eauto.
  - destruct (value_or_type_error e); [|discriminate].
    intros [= <-]. now left.
Qed.

Lemma summary_value_of_typed (key text : string) (value : summary_value) :
  summary_value_of key text = Ok value ->
  summary_item_typed (key, value).
Proof.
  unfold summary_value_of, summary_item_typed. cbn [fst snd].
  destruct (key_in key count_keys) eqn:Hcount.
  - destruct (py_int text) as [z|e].
    + now intros [= <-].
    + destruct (value_or_type_error e); [|discriminate]. now intros [= <-].
  - destruct (key_in key money_keys) eqn:Hmoney.
    + intros H. apply float_or_zero_value in H as [->|[f ->]]; auto.
    + destruct (contains key "Percentage") eqn:Hpercent.
      * intros H. apply float_or_zero_value in H as [->|[f ->]]; auto.
      * intros [= <-]. auto.
Qed.

Lemma summary_rows_typed (rows : table) (summary filled : dict summary_value) :
  Forall summary_item_typed summary ->
  summary_rows rows summary = Ok filled ->
  Forall summary_item_typed filled.
Proof.
  revert summary. induction rows as [|row rows IH]; intros summary Htyped;
    simpl.
  - now intros [= <-].
  - unfold summary_row.
    destruct ((2 <=? length row)%nat && truthy (nth 0 row "")
              && truthy (nth 1 row "")); [|now apply IH].
    cbv zeta.
    destruct (summary_value_of (py_strip (nth 0 row "")) (nth 1 row ""))
      as [value|e] eqn:Hvalue; simpl; [|discriminate].
    apply IH. apply Forall_dict_set; [assumption|].
    exact (summary_value_of_typed _ _ _ Hvalue).
Qed.

(** X19. In the dict [get_capacity_summary_data] returns, the value under
    a count key (total sales reps, total projects, international projects)
    is always an [int]; the value under a money key, or under any other key
    that contains ["Percentage"], is always a [float]; and only the other
    keys hold the text of their cell. *)
Theorem summary_values_are_typed_by_key
  (self : GoogleSheetsIntegration) (summary : dict summary_value) :
  fst (get_capacity_summary_data self) = Ok summary ->
  Forall summary_item_typed summary.
Proof.
  unfold get_capacity_summary_data, bind, ret, lift.
  destruct (read_sheet_data self "Capacity Summary" None)
    as [[[|row rows]|e] trace]; cbn -[summary_rows].
  - intros [= <-]. constructor.
  - destruct (summary_rows (row :: rows) []) as [filled|e] eqn:Hrows;
      cbn -[summary_rows]; [|discriminate].
    intros [= <-]. eapply summary_rows_typed; [|exact Hrows]. constructor.
  - discriminate.
Qed.

End Model.

(* ================================================================== *)
(** * The properties on concrete inputs                                 *)
(* ================================================================== *)

(** In this part [float] and [to_numeric] read plain decimal literals and
    float values are rationals. *)

Lemma classify_falls_back_to_last_rule_witness :
  banded_rules <> []
  /\ classify unrelated_record banded_rules = Some "ProdSpec".
Proof.
  split; [discriminate|].
  apply (classify_falls_back_to_last_rule unrelated_record banded_rules
           {| rule_role := ""; rule_keywords := ""; rule_band := None |}).
  - discriminate.
  - intros r [<-|[<-|[]]]; [right|left]; reflexivity.
Defined.

(** The examples of the specification and of the tests. *)
Example classify_admin_example :
  classify {| description := "admin management project"; salesAmount := 100 |}
           example_rules = Some "Admin".
Proof. reflexivity. Qed.

Example classify_unrelated_example :
  classify {| description := "unrelated topic"; salesAmount := 100 |}
           example_rules = Some "ProdSpec".
Proof. reflexivity. Qed.

Example classify_no_rules_example :
  classify {| description := "unrelated topic"; salesAmount := 100 |} [] = None.
Proof. reflexivity. Qed.

Example insights_of_two_reps :
  exists insights,
    fst (get_capacity_insights Q decimal_literal Q exact_series_sum exact_mean exact_frame_sum
           exact_positive Qdiv exact_multiply
           (authenticated Q (sheets_service Q [] two_rep_sheet false)))
      = Ok (Some insights)
    /\ total_sales_reps insights = 2%nat
    /\ (total_sales insights == 3000)%Q
    /\ (exists average,
          avg_sales_per_rep insights = Some average /\ (average == 1500)%Q)
    /\ dict_get (top_performer insights) "Sales ($)" = Some (DNum 2000).
Proof.
  eexists. split; [reflexivity|].
  repeat split. eexists. split; reflexivity.
Qed.

(** C2: an unreadable bound is not replaced by the default either; the
    [ValueError] of [float] leaves [get_matrix_criteria]. *)
Lemma unreadable_bound_raises :
  fst (get_matrix_criteria Q decimal_float
         (authenticated Q (sheets_service Q unreadable_bound_matrix [] false)))
  = Raise (Exn "ValueError" "could not convert string to float: 'n/a'").
Proof. reflexivity. Qed.

(** C3, as stated, fails: a response with status 201, which is a 2xx code,
    and the body [{"status": "success"}] makes the method return [False]. *)
Lemma trigger_rejects_201_success :
  ~ (fst (trigger_capacity_model_generation Q (webhook_answering 201)
            "https://example.test/hook") = Ok true
     <-> exists resp,
           requests_post (webhook_answering 201) "https://example.test/hook"
             (webhook_payload (webhook_answering 201)) = Ok resp
           /\ (200 <= status_code resp < 300)%Z
           /\ body_reports_success resp = true).
Proof.
  intros [_ Hclaim].
  assert (Hfalse : fst (trigger_capacity_model_generation Q
                          (webhook_answering 201)
                          "https://example.test/hook") = Ok true).
  { apply Hclaim. eexists. split; [reflexivity|]. split; [simpl; lia|].
    reflexivity. }
  discriminate Hfalse.
Qed.

Lemma trigger_true_iff_200_and_success_witness :
  fst (trigger_capacity_model_generation Q (webhook_answering 200)
         "https://example.test/hook") = Ok true.
Proof.
  apply (proj2 (trigger_true_iff_200_and_success Q (webhook_answering 200)
                  "https://example.test/hook")).
  eexists. split; [reflexivity|]. split; reflexivity.
Defined.

Lemma sheet_access_error_handling_witness :
  fst (read_sheet_data Q (init Q "sheet-id" "credentials.json") "Matrix" None)
    = Raise not_authenticated
  /\ fst (fst (authenticate Q (world_with_token Q (sheets_service Q [] [] true))
                   (init Q "sheet-id" "credentials.json"))) = Ok true
  /\ write_sheet_data Q
       (snd (authenticate Q (world_with_token Q (sheets_service Q [] [] true))
               (init Q "sheet-id" "credentials.json")))
       "Matrix" [[CStr Q "Role"]] (Some "A1")
     = (Ok false,
        [ValuesUpdate Q "sheet-id" "Matrix!A1" "RAW" [[CStr Q "Role"]];
         Printed Q "Error writing to sheet Matrix: The caller does not have permission"]).
Proof.
  split.
  - apply (proj1 (sheet_access_error_handling Q
                    (init Q "sheet-id" "credentials.json") "Matrix" None [])).
    reflexivity.
  - split; [reflexivity|].
    exact (proj2 (proj2 (proj2
             (proj2 (proj2 (proj2
                (sheet_access_error_handling Q
                   (authenticated Q (sheets_service Q [] [] true))
                   "Matrix" (Some "A1") [[CStr Q "Role"]])))
                (sheets_service Q [] [] true) eq_refl)))
             (Exn "HttpError" "The caller does not have permission") eq_refl).
Defined.

Lemma repeated_role_bound_to_last_row_witness :
  exists criteria,
    get_matrix_criteria Q decimal_float
      (authenticated Q (sheets_service Q repeated_role_matrix [] false))
    = (Ok criteria, [ValuesGet Q "sheet-id" "Matrix"])
    /\ count_occ string_dec (dict_keys criteria) "Admin" = 1%nat
    /\ dict_get criteria "Admin"
       = Some {| keywords := Some "management";
                 minSales := Some (PyFloat Q 5000);
                 maxSales := Some (PyFloat Q 9000) |}.
Proof.
  destruct (repeated_role_bound_to_last_row Q decimal_float
              (authenticated Q (sheets_service Q repeated_role_matrix [] false))
              (sheets_service Q repeated_role_matrix [] false)
              repeated_role_matrix eq_refl eq_refl)
    as (criteria & Hrun & Hlast).
  { simpl. repeat (constructor; [intros _; reflexivity|]). constructor. }
  exists criteria. split; [exact Hrun|].
  destruct (Hlast [ ["Admin"; "admin"; "0"; "5000"];
                    ["Team Lead"; "lead"; "100"; ""] ]
                  ["Admin"; "management"; "5000"; "9000"] []
                  eq_refl eq_refl)
    as (Hcount & lo & hi & Hlo & Hhi & Hget); [intros later []|].
  split; [exact Hcount|].
  vm_compute in Hlo, Hhi. injection Hlo as <-. injection Hhi as <-.
  exact Hget.
Defined.

Lemma repeated_role_with_unreadable_bound_raises_witness :
  get_matrix_criteria Q decimal_float
    (authenticated Q
       (sheets_service Q repeated_role_unreadable_matrix [] false))
  = (Raise (Exn "ValueError" "could not convert string to float: 'n/a'"),
     [ValuesGet Q "sheet-id" "Matrix"]).
Proof.
  exact (repeated_role_with_unreadable_bound_raises Q decimal_float _
           eq_refl).
Defined.

Lemma save_after_load_reproduces_table_witness :
  forallb accepted (tl banded_matrix) = true
  /\ forallb (bounds_readable Q decimal_float) (tl banded_matrix) = true
  /\ exists criteria written,
       fst (get_matrix_criteria Q decimal_float
              (authenticated Q (sheets_service Q banded_matrix [] false)))
         = Ok criteria
       /\ update_matrix_criteria Q
            (authenticated Q (sheets_service Q banded_matrix [] false))
            criteria
          = (Ok true,
             [ValuesUpdate Q "sheet-id" "Matrix" "RAW"
                (matrix_header Q :: written);
              Printed Q "Updated 12 cells"])
       /\ written
          = [ [CStr Q "Admin"; CStr Q "admin,management";
               CNum Q (PyFloat Q 0); CNum Q (PyFloat Q 5000)];
              [CStr Q "Production Specialist"; CStr Q "production,assembly";
               CNum Q (PyInt Q 0); CNum Q (PyInt Q 999999999)] ].
Proof.
  split; [reflexivity|]. split; [reflexivity|].
  destruct (save_after_load_reproduces_table Q decimal_float
              (authenticated Q (sheets_service Q banded_matrix [] false))
              (sheets_service Q banded_matrix [] false)
              (hd [] banded_matrix) (tl banded_matrix)
              eq_refl eq_refl eq_refl eq_refl)
    as (criteria & written & Hload & (done & line & Hsave) & Hrows).
  { simpl. repeat constructor; simpl; intros H;
      repeat (destruct H as [H|H]; [discriminate H|]); exact H. }
  exists criteria, written.
  split; [exact Hload|].
  vm_compute in Hload. injection Hload as <-.
  vm_compute in Hsave. injection Hsave as <- <- <-.
  split; reflexivity.
Defined.


(** Arithmetic on rationals satisfies what is assumed of numpy, with no
    rounding at all. *)
Lemma exact_arithmetic_rounds_nothing :
  numpy_arithmetic Q exact_series_sum exact_frame_sum exact_positive Qdiv
                   exact_multiply (fun x => x).
Proof.
  constructor.
  - intros label values _ _. reflexivity.
  - intros columns _ _. reflexivity.
  - intros x. reflexivity.
  - intros x y Hx _ Hle Hpos _.
    assert (Hlow : (0 <= x / y)%Q).
    { apply Qle_shift_div_l; [assumption|]. rewrite Qmult_0_l.
      now apply is_count_nonneg. }
    unfold rounded, unit_roundoff. split; lra.
  - intros x Hlow _. unfold exact_multiply.
    change (inject_Z 100) with 100%Q.
    unfold rounded, unit_roundoff. split; lra.
Qed.

(** C4, as stated, fails.  On [overflowing_sheet] the admin counts
    9223372036854775807 and 1 are added in int64: the admin total wraps
    around to -2^63 and so does the sum over the four role columns, which
    is then not greater than 0, and every percentage is the integer 0.
    Yet the counts of the sheet add up to 2^63, which is positive; the four
    percentages do not add up to 100, not even up to rounding, and the
    admin percentage is not 100 times the admin total divided by the sum of
    the four totals as reported, which is 100. *)
Lemma wrapped_total_gives_zero_percentages :
  exists insights,
    fst (get_capacity_insights Q decimal_literal
           Q int64_series_sum exact_mean int64_frame_sum
           exact_positive Qdiv exact_multiply
           (authenticated Q (sheets_service Q [] overflowing_sheet false)))
      = Ok (Some insights)
    /\ (0 < exact_sum [9223372036854775807; 1; 0; 0; 0; 0; 0; 0])%Q
    /\ let totals := total_projects insights in
       let shares := capacity_distribution insights in
       let percent := number_value (fun x : Q => x) in
       (admin totals == -9223372036854775808)%Q
       /\ admin_percentage shares = PyLiteral 0
       /\ prod_spec_percentage shares = PyLiteral 0
       /\ sr_prod_percentage shares = PyLiteral 0
       /\ team_lead_percentage shares = PyLiteral 0
       /\ ~ within_two_roundings 100
              (percent (admin_percentage shares)
               + percent (prod_spec_percentage shares)
               + percent (sr_prod_percentage shares)
               + percent (team_lead_percentage shares))
       /\ ~ (percent (admin_percentage shares)
             == 100 * admin totals
                / (admin totals + prod_spec totals + sr_prod totals
                   + team_lead totals))%Q.
Proof.
  eexists. split; [vm_compute; reflexivity|].
  split; [reflexivity|].
  cbv zeta. repeat split.
  - intros [Hlow _]. vm_compute in Hlow. now apply Hlow.
  - intros Heq. vm_compute in Heq. discriminate Heq.
Qed.

Lemma role_percentages_up_to_rounding_witness :
  capacity_table quarters_sheet = true
  /\ exists insights x_a x_p x_s x_t,
       fst (get_capacity_insights Q decimal_literal
              Q exact_series_sum exact_mean exact_frame_sum
              exact_positive Qdiv exact_multiply
              (authenticated Q (sheets_service Q [] quarters_sheet false)))
         = Ok (Some insights)
       /\ (admin (total_projects insights) == 1)%Q
       /\ admin_percentage (capacity_distribution insights) = NpScalar x_a
       /\ prod_spec_percentage (capacity_distribution insights) = NpScalar x_p
       /\ sr_prod_percentage (capacity_distribution insights) = NpScalar x_s
       /\ team_lead_percentage (capacity_distribution insights) = NpScalar x_t
       /\ within_two_roundings 25 x_a
       /\ within_two_roundings 100 (x_a + x_p + x_s + x_t).
Proof.
  split; [reflexivity|].
  destruct (role_percentages_up_to_rounding Q decimal_literal
              Q exact_series_sum exact_mean exact_frame_sum
              exact_positive Qdiv exact_multiply (fun x => x)
              (authenticated Q (sheets_service Q [] quarters_sheet false))
              (sheets_service Q [] quarters_sheet false)
              quarters_sheet exact_arithmetic_rounds_nothing
              eq_refl eq_refl eq_refl)
    as (insights & ia & ip & is' & it & Hrun & Hia & Hip & His & Hit & Hrest).
  vm_compute in Hia, Hip, His, Hit.
  injection Hia as <-. injection Hip as <-.
  injection His as <-. injection Hit as <-.
  cbv zeta in Hrest.
  lapply Hrest; [clear Hrest; intros Hrest | vm_compute; reflexivity].
  lapply Hrest; [clear Hrest; intros Hrest | vm_compute; reflexivity].
  destruct Hrest as (Ha & _ & _ & _ & Hpos & _).
  lapply Hpos; [clear Hpos; intros Hpos | vm_compute; reflexivity].
  destruct Hpos
    as (x_a & x_p & x_s & x_t & Hxa & Hxp & Hxs & Hxt & Hwa & _ & _ & _
        & Hsum).
  exists insights, x_a, x_p, x_s, x_t.
  split; [exact Hrun|].
  split; [rewrite Ha; vm_compute; reflexivity|].
  repeat (split; [assumption|]).
  split; [|exact Hsum].
  match type of Hwa with
  | within_two_roundings ?exact _ =>
      assert (Heq : (exact == 25)%Q) by (vm_compute; reflexivity)
  end.
  unfold within_two_roundings in *.
  destruct Hwa as [Hlow Hhigh]. rewrite Heq in Hlow, Hhigh.
  split; assumption.
Defined.

Lemma empty_capacity_data_gives_no_summary_witness :
  fst (get_capacity_insights Q decimal_literal Q exact_series_sum exact_mean exact_frame_sum
           exact_positive Qdiv exact_multiply
         (authenticated Q (sheets_service Q [] [] false))) = Ok None
  /\ fst (get_capacity_insights Q decimal_literal Q exact_series_sum exact_mean exact_frame_sum
           exact_positive Qdiv exact_multiply
            (authenticated Q
               (sheets_service Q [] [hd [] capacity_sheet] false)))
     = Ok None.
Proof.
  split.
  - apply (proj1 (proj2 (proj2
             (proj1 (proj2 (empty_capacity_data_gives_no_summary Q
                              decimal_literal Q exact_series_sum exact_mean exact_frame_sum exact_positive Qdiv
              exact_multiply
                              (authenticated Q (sheets_service Q [] [] false))))
                    (sheets_service Q [] [] false) eq_refl)))).
    reflexivity.
  - apply (proj2 (proj2 (proj2
             (proj1 (proj2 (empty_capacity_data_gives_no_summary Q
                              decimal_literal Q exact_series_sum exact_mean exact_frame_sum exact_positive Qdiv
              exact_multiply
                              (authenticated Q
                                 (sheets_service Q []
                                    [hd [] capacity_sheet] false))))
                    (sheets_service Q [] [hd [] capacity_sheet] false)
                    eq_refl)))
           (hd [] capacity_sheet)).
    + reflexivity.
    + intros label Hin. simpl in Hin.
      repeat (destruct Hin as [<-|Hin]; [vm_compute; lia|]).
      contradiction.
Defined.

Lemma top_performer_is_first_maximal_witness :
  capacity_table capacity_sheet = true
  /\ exists insights,
       fst (get_capacity_insights Q decimal_literal Q exact_series_sum exact_mean exact_frame_sum
           exact_positive Qdiv exact_multiply
              (authenticated Q (sheets_service Q [] capacity_sheet false)))
         = Ok (Some insights)
       /\ dict_get (top_performer insights) "Sales Rep First"
          = Some (DStr "Jane")
       /\ dict_get (top_performer insights) "Sales ($)" = Some (DNum 2000).
Proof.
  split; [reflexivity|].
  destruct (top_performer_is_first_maximal Q decimal_literal Q exact_series_sum exact_mean exact_frame_sum exact_positive Qdiv
              exact_multiply
              (authenticated Q (sheets_service Q [] capacity_sheet false))
              (sheets_service Q [] capacity_sheet false)
              capacity_sheet eq_refl eq_refl eq_refl)
    as (df & insights & i & row & best & Hdf & Hrun & _).
  exists insights. split; [exact Hrun|].
  vm_compute in Hrun. injection Hrun as <-.
  split; reflexivity.
Defined.

(** ** The further properties on concrete inputs *)

Lemma methods_raise_without_service_witness :
  get_capacity_insights Q decimal_literal Q exact_series_sum exact_mean exact_frame_sum
           exact_positive Qdiv exact_multiply (init Q "sheet-id" "credentials.json")
  = (Raise not_authenticated, []).
Proof.
  exact (proj1 (proj2 (proj2 (proj2
           (methods_raise_without_service Q decimal_float decimal_literal Q exact_series_sum exact_mean exact_frame_sum exact_positive Qdiv
              exact_multiply
              decimal_int blank_strip (init Q "sheet-id" "credentials.json")
              (writable_disk "2024-05-01") [] None eq_refl))))).
Defined.

Lemma failed_read_gives_empty_result_witness :
  get_matrix_criteria Q decimal_float (authenticated Q (unreachable_service Q))
  = (Ok [],
     [ValuesGet Q "sheet-id" "Matrix";
      Printed Q "Error reading sheet Matrix: timed out"]).
Proof.
  exact (proj1 (failed_read_gives_empty_result Q decimal_float decimal_literal Q exact_series_sum exact_mean exact_frame_sum exact_positive Qdiv
              exact_multiply
                  decimal_int blank_strip
                  (authenticated Q (unreachable_service Q))
                  (unreachable_service Q) (writable_disk "2024-05-01") None
                  (Exn "TimeoutError" "timed out") eq_refl)
               eq_refl).
Defined.

Lemma authenticate_changes_only_the_service_witness :
  spreadsheet_id Q
    (snd (authenticate Q (world_with_token Q (unreachable_service Q))
            (init Q "sheet-id" "credentials.json")))
  = "sheet-id"
  /\ snd (authenticate Q (world_without_credentials Q (unreachable_service Q))
            (init Q "sheet-id" "credentials.json"))
     = init Q "sheet-id" "credentials.json".
Proof.
  split.
  - exact (proj1 (authenticate_changes_only_the_service Q
                    (world_with_token Q (unreachable_service Q))
                    (init Q "sheet-id" "credentials.json"))).
  - apply (proj2 (proj2 (proj2 (proj2
             (authenticate_changes_only_the_service Q
                (world_without_credentials Q (unreachable_service Q))
                (init Q "sheet-id" "credentials.json")))))).
    discriminate.
Defined.

Lemma authenticate_raises_only_before_build_witness :
  fst (authenticate Q (world_without_credentials Q (unreachable_service Q))
         (init Q "sheet-id" "credentials.json"))
  = (Raise (credentials_not_found "credentials.json"), [])
  /\ exists outcome,
       fst (fst (authenticate Q (world_with_token Q (unreachable_service Q))
                   (init Q "sheet-id" "credentials.json")))
       = Ok outcome.
Proof.
  split.
  - rewrite (proj2 (proj2 (authenticate_raises_only_before_build Q
                             (world_without_credentials Q
                                (unreachable_service Q))
                             (init Q "sheet-id" "credentials.json")))
                   eq_refl eq_refl).
    reflexivity.
  - exact (proj1 (proj2 (authenticate_raises_only_before_build Q
                           (world_with_token Q (unreachable_service Q))
                           (init Q "sheet-id" "credentials.json")))
                 _ eq_refl eq_refl).
Defined.

Lemma criteria_keys_in_order_of_first_appearance_witness :
  exists criteria,
    fst (get_matrix_criteria Q decimal_float
           (authenticated Q (sheets_service Q repeated_role_matrix [] false)))
      = Ok criteria
    /\ dict_keys criteria = ["Admin"; "Team Lead"].
Proof.
  eexists. split; [reflexivity|].
  exact (criteria_keys_in_order_of_first_appearance Q decimal_float
           (authenticated Q (sheets_service Q repeated_role_matrix [] false))
           (sheets_service Q repeated_role_matrix [] false)
           repeated_role_matrix _ eq_refl eq_refl eq_refl).
Defined.

Lemma criteria_depend_on_accepted_rows_only_witness :
  fst (get_matrix_criteria Q decimal_float
         (authenticated Q (sheets_service Q banded_matrix [] false)))
  = fst (get_matrix_criteria Q decimal_float
           (authenticated Q (sheets_service Q noisy_banded_matrix [] false))).
Proof.
  exact (criteria_depend_on_accepted_rows_only Q decimal_float
           (authenticated Q (sheets_service Q banded_matrix [] false))
           (authenticated Q (sheets_service Q noisy_banded_matrix [] false))
           (sheets_service Q banded_matrix [] false)
           (sheets_service Q noisy_banded_matrix [] false)
           banded_matrix noisy_banded_matrix
           eq_refl eq_refl eq_refl eq_refl eq_refl).
Defined.

Lemma unreadable_bound_aborts_the_load_witness :
  get_matrix_criteria Q decimal_float
    (authenticated Q (sheets_service Q unreadable_bound_matrix [] false))
  = (Raise (Exn "ValueError" "could not convert string to float: 'n/a'"),
     [ValuesGet Q "sheet-id" "Matrix"]).
Proof.
  apply (unreadable_bound_aborts_the_load Q decimal_float
           (authenticated Q (sheets_service Q unreadable_bound_matrix [] false))
           (sheets_service Q unreadable_bound_matrix [] false)
           unreadable_bound_matrix [] []
           ["Admin"; "admin,management"; "n/a"; ""]).
  - reflexivity.
  - reflexivity.
  - reflexivity.
  - constructor.
  - reflexivity.
  - left. split; reflexivity.
Defined.

Lemma loaded_criteria_are_complete_witness :
  exists criteria,
    fst (get_matrix_criteria Q decimal_float
           (authenticated Q (sheets_service Q banded_matrix [] false)))
      = Ok criteria
    /\ Forall (loaded_criterion Q) criteria.
Proof.
  eexists. split; [reflexivity|].
  exact (loaded_criteria_are_complete Q decimal_float
           (authenticated Q (sheets_service Q banded_matrix [] false))
           _ eq_refl).
Defined.

Lemma update_sends_four_column_table_witness :
  exists done line rows,
    update_matrix_criteria Q
      (authenticated Q (sheets_service Q [] [] false))
      [("Admin", {| keywords := Some "admin"; minSales := None;
                    maxSales := None |})]
    = (Ok done,
       [ValuesUpdate Q "sheet-id" "Matrix" "RAW" (matrix_header Q :: rows);
        Printed Q line])
    /\ length rows = 1%nat.
Proof.
  destruct (update_sends_four_column_table Q
              (authenticated Q (sheets_service Q [] [] false))
              (sheets_service Q [] [] false)
              [("Admin", {| keywords := Some "admin"; minSales := None;
                            maxSales := None |})]
              eq_refl)
    as (done & line & rows & Hrun & Hlen & _).
  exists done, line, rows. split; assumption.
Defined.

Lemma other_columns_are_left_as_text_witness :
  exists df out,
    fst (get_capacity_model_data Q decimal_literal
           (authenticated Q (sheets_service Q [] capacity_sheet false)))
      = Ok df
    /\ nth_error (df_rows df) 2 = Some out
    /\ nth 0 out DNone = DStr "Joe".
Proof.
  assert (Hrun : exists df,
             fst (get_capacity_model_data Q decimal_literal
                    (authenticated Q (sheets_service Q [] capacity_sheet false)))
             = Ok df)
    by (eexists; vm_compute; reflexivity).
  destruct Hrun as [df Hrun].
  destruct (other_columns_are_left_as_text Q decimal_literal
              (authenticated Q (sheets_service Q [] capacity_sheet false))
              (sheets_service Q [] capacity_sheet false)
              capacity_sheet df eq_refl eq_refl Hrun
              0%nat "Sales Rep First" 2%nat
              ["Joe"; "Bloggs"; "2000"; "0"; "0"; "0"; "0"])
    as (out & Hout & Hcell).
  - reflexivity.
  - simpl. intros H.
    repeat (destruct H as [H|H]; [discriminate H|]). exact H.
  - reflexivity.
  - exists df, out. auto.
Defined.

Lemma ragged_sheet_or_repeated_label_raises_witness :
  (exists message,
     get_capacity_model_data Q decimal_literal
       (authenticated Q (sheets_service Q [] ragged_sheet false))
     = (Raise (Exn "ValueError" message),
        [ValuesGet Q "sheet-id" "Capacity Rep Projection"]))
  /\ get_capacity_model_data Q decimal_literal
       (authenticated Q (sheets_service Q [] repeated_label_sheet false))
     = (Raise (Exn "TypeError"
                   "arg must be a list, tuple, 1-d array, or Series"),
        [ValuesGet Q "sheet-id" "Capacity Rep Projection"]).
Proof.
  split.
  - apply (proj1 (ragged_sheet_or_repeated_label_raises Q decimal_literal
                    (authenticated Q (sheets_service Q [] ragged_sheet false))
                    (sheets_service Q [] ragged_sheet false)
                    (hd [] ragged_sheet) (tl ragged_sheet) eq_refl eq_refl)).
    + discriminate.
    + vm_compute. discriminate.
  - apply (proj2 (ragged_sheet_or_repeated_label_raises Q decimal_literal
                    (authenticated Q
                       (sheets_service Q [] repeated_label_sheet false))
                    (sheets_service Q [] repeated_label_sheet false)
                    (hd [] repeated_label_sheet) (tl repeated_label_sheet)
                    eq_refl eq_refl)).
    + right. reflexivity.
    + exists "Sales ($)". split; [simpl; auto | vm_compute; lia].
Defined.

Lemma missing_numeric_column_raises_key_error_witness :
  widest (tl four_column_sheet) = length (hd [] four_column_sheet)
  /\ exists label,
       count_label label (hd [] four_column_sheet) = 0%nat
       /\ fst (get_capacity_insights Q decimal_literal Q exact_series_sum exact_mean exact_frame_sum
           exact_positive Qdiv exact_multiply
                 (authenticated Q (sheets_service Q [] four_column_sheet false)))
          = Raise (Exn "KeyError" label).
Proof.
  split; [reflexivity|].
  destruct (missing_numeric_column_raises_key_error Q decimal_literal Q exact_series_sum exact_mean exact_frame_sum exact_positive Qdiv
              exact_multiply
              (authenticated Q (sheets_service Q [] four_column_sheet false))
              (sheets_service Q [] four_column_sheet false)
              (hd [] four_column_sheet) (tl four_column_sheet)
              eq_refl eq_refl)
    as (before & label & after & _ & _ & Hzero & Hrun).
  - discriminate.
  - discriminate.
  - reflexivity.
  - intros label Hin. simpl in Hin.
    repeat (destruct Hin as [<-|Hin]; [vm_compute; lia|]).
    contradiction.
  - exists "Prod Spec Count". split; [simpl; auto 10 | reflexivity].
  - exists label. split; assumption.
Defined.

Lemma sales_figures_cover_every_data_row_witness :
  capacity_table capacity_sheet = true
  /\ exists insights,
       fst (get_capacity_insights Q decimal_literal
              Q exact_series_sum exact_mean exact_frame_sum
              exact_positive Qdiv exact_multiply
              (authenticated Q (sheets_service Q [] capacity_sheet false)))
         = Ok (Some insights)
       /\ total_sales_reps insights = 3%nat
       /\ (total_sales insights == 5000)%Q.
Proof.
  split; [reflexivity|].
  destruct (sales_figures_cover_every_data_row Q decimal_literal
              Q exact_series_sum exact_mean exact_frame_sum
              exact_positive Qdiv exact_multiply
              (authenticated Q (sheets_service Q [] capacity_sheet false))
              (sheets_service Q [] capacity_sheet false)
              capacity_sheet eq_refl eq_refl eq_refl)
    as (insights & i & Hrun & Hi & Hreps & Htotal & Havg).
  exists insights.
  vm_compute in Hi. injection Hi as <-.
  split; [exact Hrun|]. split; [exact Hreps|].
  rewrite Htotal. reflexivity.
Defined.


Lemma export_of_empty_data_writes_nothing_witness :
  export_capacity_model_to_csv Q decimal_literal (writable_disk "2024-05-01")
    (authenticated Q (sheets_service Q [] [hd [] capacity_sheet] false))
    (Some "out.csv")
  = ((Ok "",
      [ValuesGet Q "sheet-id" "Capacity Rep Projection";
       Printed Q "No capacity model data to export"]), []).
Proof.
  exact (export_of_empty_data_writes_nothing Q decimal_literal
           (writable_disk "2024-05-01")
           (authenticated Q (sheets_service Q [] [hd [] capacity_sheet] false))
           (Some "out.csv")
           {| df_columns := hd [] capacity_sheet; df_rows := [] |}
           eq_refl eq_refl).
Defined.

Lemma export_writes_the_frame_once_witness :
  exists df,
    fst (get_capacity_model_data Q decimal_literal
           (authenticated Q (sheets_service Q [] two_rep_sheet false)))
      = Ok df
    /\ snd (export_capacity_model_to_csv Q decimal_literal
              (writable_disk "2024-05-01")
              (authenticated Q (sheets_service Q [] two_rep_sheet false))
              (Some ""))
       = [("capacity_model_2024-05-01.csv", df)]
    /\ fst (export_capacity_model_to_csv Q decimal_literal
              (writable_disk "2024-05-01")
              (authenticated Q (sheets_service Q [] two_rep_sheet false))
              (Some ""))
       = (Ok "capacity_model_2024-05-01.csv",
          [ValuesGet Q "sheet-id" "Capacity Rep Projection";
           Printed Q
             "Capacity model exported to capacity_model_2024-05-01.csv"]).
Proof.
  assert (Hrun : exists df,
             fst (get_capacity_model_data Q decimal_literal
                    (authenticated Q (sheets_service Q [] two_rep_sheet false)))
             = Ok df)
    by (eexists; vm_compute; reflexivity).
  destruct Hrun as [df Hrun].
  assert (Hfull : df_empty df = false).
  { pose proof Hrun as Hcopy. vm_compute in Hcopy.
    injection Hcopy as <-. reflexivity. }
  destruct (export_writes_the_frame_once Q decimal_literal
              (writable_disk "2024-05-01")
              (authenticated Q (sheets_service Q [] two_rep_sheet false))
              (Some "") df Hrun Hfull)
    as (Hfiles & _ & _ & Hwritten & _).
  exists df. split; [exact Hrun|]. split; [exact Hfiles|].
  exact (Hwritten eq_refl).
Defined.

Lemma decimal_readers_raise_value_errors :
  (forall s e, decimal_int s = Raise e -> value_or_type_error e = true)
  /\ (forall s e, decimal_float s = Raise e -> value_or_type_error e = true).
Proof.
  split; intros s e.
  - unfold decimal_int. destruct (decimal_literal s) as [q|].
    + destruct (negb (contains s ".")); [discriminate|].
      intros [= <-]. reflexivity.
    + intros [= <-]. reflexivity.
  - unfold decimal_float. destruct (decimal_literal s) as [q|];
      [discriminate|].
    intros [= <-]. reflexivity.
Defined.

Lemma summary_data_never_raises_witness :
  exists summary,
    fst (get_capacity_summary_data Q decimal_float decimal_int blank_strip
           (authenticated Q
              (workbook_service Q [("Capacity Summary", summary_sheet)])))
    = Ok summary.
Proof.
  exact (summary_data_never_raises Q decimal_float decimal_int blank_strip
           (authenticated Q
              (workbook_service Q [("Capacity Summary", summary_sheet)]))
           (workbook_service Q [("Capacity Summary", summary_sheet)])
           eq_refl
           (proj1 decimal_readers_raise_value_errors)
           (proj2 decimal_readers_raise_value_errors)).
Defined.

Lemma summary_values_are_typed_by_key_witness :
  exists summary,
    fst (get_capacity_summary_data Q decimal_float decimal_int blank_strip
           (authenticated Q
              (workbook_service Q [("Capacity Summary", summary_sheet)])))
      = Ok summary
    /\ Forall (summary_item_typed Q) summary
    /\ dict_get summary "Total Sales Reps" = Some (SInt Q 12)
    /\ dict_get summary "Total Projects" = Some (SInt Q 0)
    /\ dict_get summary "Total Sales" = Some (SFloat Q (123450 # 100))
    /\ dict_get summary "Top Performer" = Some (SText Q "Jane Smith").
Proof.
  eexists. split; [reflexivity|]. split.
  - exact (summary_values_are_typed_by_key Q decimal_float decimal_int
             blank_strip
             (authenticated Q
                (workbook_service Q [("Capacity Summary", summary_sheet)]))
             _ eq_refl).
  - repeat split.
Defined.
